(** * gcp_sales_pipeline: a shallow embedding and its verified properties

    The development follows the package layout:
    - [Calendar]   : the part of Python's [datetime.date] the package uses;
    - exceptions.py: the exception classes and their hierarchy;
    - filters.py   : [TimeGranularity] and [filter_sales_by_date];
    - gcs_client.py: [load_sales_parquet] over an explicit bucket, with the
                     trace of the remote calls and log records it makes;
    - bq_client.py : [load_products];
    - pipeline.py  : the date range, the join and the enrichment. *)

From Stdlib Require Import ZArith List String Ascii Bool Lia Permutation Sorted.
From Stdlib Require Import PrimFloat DecimalString DecimalZ DecimalPos.
Import ListNotations.
Local Open Scope string_scope.
Local Open Scope list_scope.
Local Open Scope Z_scope.

(* ===================================================================== *)
(** ** Python's [datetime.date] (proleptic Gregorian calendar) *)
(* ===================================================================== *)

Module Calendar.

Record date := mkdate { year : Z; month : Z; day : Z }.

Definition MINYEAR : Z := 1.
Definition MAXYEAR : Z := 9999.

(** year -> True if leap year, else False. *)
Definition _is_leap (y : Z) : bool :=
  (y mod 4 =? 0) && (negb (y mod 100 =? 0) || (y mod 400 =? 0)).

(** year -> number of days before January 1st of year. *)
Definition _days_before_year (y : Z) : Z :=
  let y' := y - 1 in y' * 365 + y' / 4 - y' / 100 + y' / 400.

Definition _DAYS_IN_MONTH (m : Z) : Z :=
  match m with
  | 1 => 31 | 2 => 28 | 3 => 31 | 4 => 30 | 5 => 31 | 6 => 30
  | 7 => 31 | 8 => 31 | 9 => 30 | 10 => 31 | 11 => 30 | 12 => 31
  | _ => 0
  end.

Definition _DAYS_BEFORE_MONTH (m : Z) : Z :=
  match m with
  | 1 => 0 | 2 => 31 | 3 => 59 | 4 => 90 | 5 => 120 | 6 => 151
  | 7 => 181 | 8 => 212 | 9 => 243 | 10 => 273 | 11 => 304 | 12 => 334
  | _ => 0
  end.

(** year, month -> number of days in that month in that year. *)
Definition _days_in_month (y m : Z) : Z :=
  if (m =? 2) && _is_leap y then 29 else _DAYS_IN_MONTH m.

(** year, month -> number of days in year preceding first day of month. *)
Definition _days_before_month (y m : Z) : Z :=
  _DAYS_BEFORE_MONTH m + (if (2 <? m) && _is_leap y then 1 else 0).

(** year, month, day -> ordinal, considering 01-Jan-0001 as day 1. *)
Definition _ymd2ord (y m d : Z) : Z :=
  _days_before_year y + _days_before_month y m + d.

Definition _DI400Y : Z := 146097.
Definition _DI100Y : Z := 36524.
Definition _DI4Y : Z := 1461.

(** ordinal -> (year, month, day), considering 01-Jan-0001 as day 1. *)
Definition _ord2ymd (n0 : Z) : date :=
  let n := n0 - 1 in
  let n400 := n / _DI400Y in
  let n := n mod _DI400Y in
  let y := n400 * 400 + 1 in
  let n100 := n / _DI100Y in
  let n := n mod _DI100Y in
  let n4 := n / _DI4Y in
  let n := n mod _DI4Y in
  let n1 := n / 365 in
  let n := n mod 365 in
  let y := y + n100 * 100 + n4 * 4 + n1 in
  if (n1 =? 4) || (n100 =? 4) then mkdate (y - 1) 12 31
  else
    let leapyear := (n1 =? 3) && (negb (n4 =? 24) || (n100 =? 3)) in
    let m := Z.shiftr (n + 50) 5 in
    let preceding :=
      _DAYS_BEFORE_MONTH m + (if (2 <? m) && leapyear then 1 else 0) in
    if n <? preceding then
      let m' := m - 1 in
      let preceding' :=
        preceding
        - (_DAYS_IN_MONTH m' + (if (m' =? 2) && leapyear then 1 else 0)) in
      mkdate y m' (n - preceding' + 1)
    else mkdate y m (n - preceding + 1).

(** The checks of [_check_date_fields]: what [date(y, m, d)] accepts. *)
Definition check_date_fields (y m d : Z) : bool :=
  (MINYEAR <=? y) && (y <=? MAXYEAR)
  && (1 <=? m) && (m <=? 12)
  && (1 <=? d) && (d <=? _days_in_month y m).

Definition valid_date (x : date) : Prop :=
  check_date_fields (year x) (month x) (day x) = true.

Definition toordinal (x : date) : Z := _ymd2ord (year x) (month x) (day x).

Definition _MAXORDINAL : Z := 3652059.

(** Comparison of dates is the comparison of their (year, month, day). *)
Definition date_eqb (a b : date) : bool :=
  (year a =? year b) && (month a =? month b) && (day a =? day b).

Definition date_ltb (a b : date) : bool :=
  (year a <? year b)
  || ((year a =? year b)
      && ((month a <? month b)
          || ((month a =? month b) && (day a <? day b)))).

(** [(b - a).days] *)
Definition days_between (a b : date) : Z := toordinal b - toordinal a.

Definition digit (n : Z) : ascii := ascii_of_nat (48 + Z.to_nat n).

Definition pad2 (n : Z) : string :=
  String (digit (n / 10 mod 10)) (String (digit (n mod 10)) EmptyString).

Definition pad4 (n : Z) : string := (pad2 (n / 100) ++ pad2 n)%string.

(** [d.isoformat()], also [f"{d:%Y-%m-%d}"] for a year of four digits. *)
Definition isoformat (x : date) : string :=
  (pad4 (year x) ++ "-" ++ pad2 (month x) ++ "-" ++ pad2 (day x))%string.

End Calendar.

Import Calendar.

(** The last part of [_ord2ymd]: month and day from the 0-based day of the
    year [n] and the leap flag (a device of the proofs below). *)
Definition days_before (leapyear : bool) (m : Z) : Z :=
  _DAYS_BEFORE_MONTH m + (if (2 <? m) && leapyear then 1 else 0).

Definition days_in (leapyear : bool) (m : Z) : Z :=
  _DAYS_IN_MONTH m + (if (m =? 2) && leapyear then 1 else 0).

Definition month_day_of (y : Z) (leapyear : bool) (n : Z) : date :=
  let m := Z.shiftr (n + 50) 5 in
  let preceding := days_before leapyear m in
  if n <? preceding then
    mkdate y (m - 1) (n - (preceding - days_in leapyear (m - 1)) + 1)
  else mkdate y m (n - preceding + 1).


(* ===================================================================== *)
(** ** exceptions.py, with the built-in classes the package raises *)
(* ===================================================================== *)

Inductive ExceptionClass : Set :=
| Exception
| RuntimeError | ValueError | LookupError | KeyError
| ArithmeticError | OverflowError
| MergeError                       (* pandas.errors.MergeError(ValueError) *)
| DataLoadError                    (* class DataLoadError(RuntimeError) *)
| DataQualityError                 (* class DataQualityError(RuntimeError) *)
| TooManyFilesError.               (* class TooManyFilesError(DataLoadError) *)

Definition base_class (c : ExceptionClass) : option ExceptionClass :=
  match c with
  | Exception => None
  | RuntimeError | ValueError | LookupError | ArithmeticError => Some Exception
  | KeyError => Some LookupError
  | OverflowError => Some ArithmeticError
  | MergeError => Some ValueError
  | DataLoadError | DataQualityError => Some RuntimeError
  | TooManyFilesError => Some DataLoadError
  end.

Definition class_eqb (a b : ExceptionClass) : bool :=
  match a, b with
  | Exception, Exception | RuntimeError, RuntimeError
  | ValueError, ValueError | LookupError, LookupError | KeyError, KeyError
  | ArithmeticError, ArithmeticError | OverflowError, OverflowError
  | MergeError, MergeError | DataLoadError, DataLoadError
  | DataQualityError, DataQualityError
  | TooManyFilesError, TooManyFilesError => true
  | _, _ => false
  end.

(** The method resolution order of a class: itself, then its bases. *)
Fixpoint mro (depth : nat) (c : ExceptionClass) : list ExceptionClass :=
  c :: match depth, base_class c with
       | S n, Some b => mro n b
       | _, _ => []
       end.

Definition issubclass (c d : ExceptionClass) : bool :=
  existsb (class_eqb d) (mro 4 c).

(* ===================================================================== *)
(** ** Results, and computations that leave a trace of their effects *)
(* ===================================================================== *)

Inductive Result (A : Type) : Type :=
| Ok (a : A)
| Raise (e : ExceptionClass).
Arguments Ok {A} a.
Arguments Raise {A} e.

Definition bindR {A B : Type} (c : Result A) (k : A -> Result B) : Result B :=
  match c with
  | Ok a => k a
  | Raise e => Raise e
  end.

Notation "'let*' x ':=' c 'in' k" := (bindR c (fun x => k))
  (at level 10, x name, c at level 200, k at level 200).

Inductive LogLevel : Set := DEBUG | INFO | WARNING | ERROR.

Inductive Event : Type :=
| Log (level : LogLevel)
| BigQueryQuery (table_full_name : string)
| StorageClient (project_id : string)
| BucketHandle (bucket_name : string)
| DownloadAsBytes (blob_name : string)
| ListBlobs (prefix : string)
| Mkdir (path : string)
| ToParquet (path : string)
| ToCsv (path : string).

(** The events that reach the object store. *)
Definition is_fetch (ev : Event) : bool :=
  match ev with
  | StorageClient _ | BucketHandle _ | DownloadAsBytes _ | ListBlobs _ => true
  | _ => false
  end.

Definition M (A : Type) : Type := (list Event * Result A)%type.

Definition ret {A : Type} (a : A) : M A := ([], Ok a).
Definition raise {A : Type} (e : ExceptionClass) : M A := ([], Raise e).
Definition emit (ev : Event) : M unit := ([ev], Ok tt).
Definition lift {A : Type} (r : Result A) : M A := ([], r).

Definition bind {A B : Type} (c : M A) (k : A -> M B) : M B :=
  match c with
  | (t, Raise e) => (t, Raise e)
  | (t, Ok a) => let (t', r) := k a in (t ++ t', r)
  end.

Notation "x <- c ;; k" := (bind c (fun x => k))
  (at level 61, c at next level, right associativity).
Notation "c ;; k" := (bind c (fun _ => k))
  (at level 61, right associativity).

Definition trace {A : Type} (c : M A) : list Event := fst c.
Definition outcome {A : Type} (c : M A) : Result A := snd c.

(* ===================================================================== *)
(** ** Dates built and moved the way the package does *)
(* ===================================================================== *)

(** [date(y, m, d)]: ValueError outside the supported range. *)
Definition new_date (y m d : Z) : Result date :=
  if check_date_fields y m d then Ok (mkdate y m d) else Raise ValueError.

(** [date.fromordinal(n)] inside [date.__add__]: OverflowError out of range. *)
Definition date_add_days (x : date) (k : Z) : Result date :=
  let o := toordinal x + k in
  if (0 <? o) && (o <=? _MAXORDINAL) then Ok (_ord2ymd o)
  else Raise OverflowError.

(** [x - timedelta(days=k)] is [x + timedelta(days=-k)]. *)
Definition date_sub_days (x : date) (k : Z) : Result date :=
  date_add_days x (- k).

(* ===================================================================== *)
(** ** Tables: pandas data frames and series, as the package uses them *)
(* ===================================================================== *)

(** A frame: its column labels and its rows in index order. *)
Record DataFrame (R : Type) : Type :=
  mkframe { columns : list string; data : list R }.
Arguments mkframe {R} columns data.
Arguments columns {R} d.
Arguments data {R} d.

(** [df.empty]: some axis has length 0. *)
Definition empty {R : Type} (df : DataFrame R) : bool :=
  (List.length (data df) =? 0)%nat || (List.length (columns df) =? 0)%nat.

Definition has_column {R : Type} (name : string) (df : DataFrame R) : bool :=
  existsb (String.eqb name) (columns df).

(** [df[name]]: KeyError when the frame has no such column. *)
Definition getitem {R A : Type} (df : DataFrame R) (name : string)
    (field : R -> A) : Result (list A) :=
  if has_column name df then Ok (map field (data df)) else Raise KeyError.

(** [df[name] = ...]: the label is appended when it is new. *)
Definition set_column (name : string) (cols : list string) : list string :=
  if existsb (String.eqb name) cols then cols else cols ++ [name].

(** [df.loc[mask]], [df[mask]]: the rows whose mask entry is True. *)
Fixpoint loc {R : Type} (rows : list R) (mask : list bool) : list R :=
  match rows, mask with
  | r :: rows', b :: mask' => if b then r :: loc rows' mask' else loc rows' mask'
  | _, _ => []
  end.

(** Element-wise [series == v]: a missing value compares unequal. *)
Definition series_eq {A : Type} (eqb : A -> A -> bool)
    (s : list (option A)) (v : A) : list bool :=
  map (fun x => match x with Some a => eqb a v | None => false end) s.

(** Element-wise [a & b]. *)
Fixpoint series_and (a b : list bool) : list bool :=
  match a, b with
  | x :: a', y :: b' => (x && y) :: series_and a' b'
  | _, _ => []
  end.

(** [series.isna()], [series.notna()], [series.isin(values)]. *)
Definition isna {A : Type} (s : list (option A)) : list bool :=
  map (fun x => match x with Some _ => false | None => true end) s.

Definition notna {A : Type} (s : list (option A)) : list bool :=
  map negb (isna s).

Definition isin (s : list (option string)) (values : list string) : list bool :=
  map (fun x => match x with
                | Some v => existsb (String.eqb v) values
                | None => false
                end) s.

(** [mask.sum()] *)
Definition count_true (mask : list bool) : Z :=
  Z.of_nat (List.length (filter (fun b => b) mask)).

Definition key_eqb (a b : option string) : bool :=
  match a, b with
  | Some x, Some y => String.eqb x y
  | None, None => true
  | _, _ => false
  end.

(** [series.is_unique] *)
Fixpoint is_unique (keys : list (option string)) : bool :=
  match keys with
  | [] => true
  | k :: rest => negb (existsb (key_eqb k) rest) && is_unique rest
  end.

(** [series.duplicated(keep="last")]: True where the key occurs again later. *)
Fixpoint duplicated_keep_last (keys : list (option string)) : list bool :=
  match keys with
  | [] => []
  | k :: rest => existsb (key_eqb k) rest :: duplicated_keep_last rest
  end.

(** [pd.concat(frames, ignore_index=True)]: labels in order of first
    appearance, rows in the order of the frames. *)
Definition union_columns (a b : list string) : list string :=
  fold_left (fun acc c => set_column c acc) b a.

Definition concat {R : Type} (frames : list (DataFrame R)) : DataFrame R :=
  mkframe (fold_left (fun acc f => union_columns acc (columns f)) frames [])
          (flat_map data frames).

(* ===================================================================== *)
(** ** Timestamps *)
(* ===================================================================== *)

Inductive tzinfo : Set :=
| UTC
| FixedOffset (minutes : Z).

(** A pandas [Timestamp]: nanoseconds since 1970-01-01T00:00:00 read in UTC
    when [tz] is set and as wall-clock time when it is not. *)
Record Timestamp : Set := mkts { value : Z; tz : option tzinfo }.

Definition NS_PER_SECOND : Z := 1000000000.
Definition NS_PER_MINUTE : Z := 60 * NS_PER_SECOND.
Definition NS_PER_DAY : Z := 86400 * NS_PER_SECOND.
Definition EPOCH_ORDINAL : Z := 719163.       (* date(1970, 1, 1).toordinal() *)

Definition utcoffset_ns (t : Timestamp) : Z :=
  match tz t with
  | Some (FixedOffset minutes) => minutes * NS_PER_MINUTE
  | _ => 0
  end.

(** The calendar date shown by a timestamp in its own zone: [.dt.date]. *)
Definition ts_date (t : Timestamp) : date :=
  _ord2ymd (EPOCH_ORDINAL + (value t + utcoffset_ns t) / NS_PER_DAY).

Definition ts_year (t : Timestamp) : Z := year (ts_date t).
Definition ts_month (t : Timestamp) : Z := month (ts_date t).
Definition ts_quarter (t : Timestamp) : Z := (ts_month t - 1) / 3 + 1.

(** [pd.to_datetime(x, utc=True)] on one value: a naive timestamp is taken
    as UTC, an aware one is converted; the instant is kept in both cases. *)
Definition to_utc (t : Timestamp) : Timestamp := mkts (value t) (Some UTC).

Definition to_datetime_utc (s : list (option Timestamp))
  : list (option Timestamp) := map (option_map to_utc) s.

Definition dt_date (s : list (option Timestamp)) : list (option date) :=
  map (option_map ts_date) s.
Definition dt_year (s : list (option Timestamp)) : list (option Z) :=
  map (option_map ts_year) s.
Definition dt_month (s : list (option Timestamp)) : list (option Z) :=
  map (option_map ts_month) s.

(** The timestamp of a UTC wall-clock reading, for writing examples. *)
Definition utc_timestamp (y m d hh mm ss : Z) : Timestamp :=
  mkts ((_ymd2ord y m d - EPOCH_ORDINAL) * NS_PER_DAY
        + ((hh * 60 + mm) * 60 + ss) * NS_PER_SECOND) (Some UTC).

(* ===================================================================== *)
(** ** Rows *)
(* ===================================================================== *)

Record Sale : Type := mksale {
  s_product_id : option string;
  s_price : option PrimFloat.float;
  s_quantity : option Z;
  s_sold_at : option Timestamp;
  s_order_id : option string }.

Record Product : Type := mkproduct {
  p_product_id : option string;
  p_product_name : option string;
  p_category : option string;
  p_brand : option string;
  p_condition : option string }.

(** A row of the joined table: the sale, and the product fields when the
    sale found its product. *)
Record Merged : Type := mkmerged {
  m_sale : Sale;
  m_product_name : option string;
  m_category : option string;
  m_brand : option string;
  m_condition : option string }.

Definition m_product_id (r : Merged) : option string := s_product_id (m_sale r).
Definition m_sold_at (r : Merged) : option Timestamp := s_sold_at (m_sale r).
Definition m_order_id (r : Merged) : option string := s_order_id (m_sale r).

(** A row of the exported table. *)
Record Export : Type := mkexport {
  e_merged : Merged;
  e_sale_date : option date;
  e_year : option Z;
  e_month : option Z;
  e_quarter : option string;
  e_processed_at : option Timestamp }.

Definition set_sold_at (s : Sale) (t : option Timestamp) : Sale :=
  mksale (s_product_id s) (s_price s) (s_quantity s) t (s_order_id s).

Definition set_merged_sold_at (r : Merged) (t : option Timestamp) : Merged :=
  mkmerged (set_sold_at (m_sale r) t)
           (m_product_name r) (m_category r) (m_brand r) (m_condition r).

(** Assigning a series to a column, row by row. *)
Fixpoint assign {R A : Type} (set : R -> A -> R) (rows : list R)
    (s : list A) : list R :=
  match rows, s with
  | r :: rows', x :: s' => set r x :: assign set rows' s'
  | _, _ => []
  end.

(** Missing values sort last, as [na_position="last"] does. *)
Definition compare_option {A : Type} (cmp : A -> A -> comparison)
    (a b : option A) : comparison :=
  match a, b with
  | Some x, Some y => cmp x y
  | Some _, None => Lt
  | None, Some _ => Gt
  | None, None => Eq
  end.

Definition compare_date (a b : date) : comparison :=
  if date_ltb a b then Lt else if date_ltb b a then Gt else Eq.

Definition key_leb (a b : option string) : bool :=
  match compare_option String.compare a b with Gt => false | _ => true end.


(* ===================================================================== *)
(** ** filters.py *)
(* ===================================================================== *)

(** [class TimeGranularity(str, Enum)] *)
Inductive TimeGranularity : Set := DAY | MONTH | QUARTER | YEAR.

Definition granularity_value (g : TimeGranularity) : string :=
  match g with
  | DAY => "day" | MONTH => "month" | QUARTER => "quarter" | YEAR => "year"
  end.

(** [filter_sales_by_date(sales_df, ref_date, granularity)].  The final
    [raise ValueError] of the source needs a fifth granularity and cannot
    be reached from the enumeration. *)
Definition filter_sales_by_date (sales_df : DataFrame Sale) (ref_date : date)
    (granularity : TimeGranularity) : Result (DataFrame Sale) :=
  if empty sales_df then Ok sales_df
  else
    let* raw := getitem sales_df "sold_at" s_sold_at in
    let df :=
      mkframe (columns sales_df)
              (assign set_sold_at (data sales_df) (to_datetime_utc raw)) in
    let sold_at := map s_sold_at (data df) in
    let mask :=
      match granularity with
      | DAY => series_eq date_eqb (dt_date sold_at) ref_date
      | MONTH =>
          series_and (series_eq Z.eqb (dt_year sold_at) (year ref_date))
                     (series_eq Z.eqb (dt_month sold_at) (month ref_date))
      | QUARTER =>
          let ref_quarter := (month ref_date - 1) / 3 + 1 in
          let sold_quarter :=
            map (option_map (fun m => (m - 1) / 3 + 1)) (dt_month sold_at) in
          series_and (series_eq Z.eqb (dt_year sold_at) (year ref_date))
                     (series_eq Z.eqb sold_quarter ref_quarter)
      | YEAR => series_eq Z.eqb (dt_year sold_at) (year ref_date)
      end in
    Ok (mkframe (columns df) (loc (data df) mask)).

(* ===================================================================== *)
(** ** The outside world of one run *)
(* ===================================================================== *)

Inductive DownloadOutcome : Type :=
| Downloaded (content : string)
| NotFound
| DownloadGoogleAPIError
| DownloadOtherError.

Inductive ListOutcome : Type :=
| Listed (names : list string)
| ListGoogleAPIError
| ListOtherError.

Inductive QueryOutcome : Type :=
| QueryFrame (df : DataFrame Product)
| QueryGoogleAPIError
| QueryOtherError.

(** What the collaborators answer and what pandas leaves open: the sorts are
    pandas' [sort_values], whose order among equal keys is not fixed by the
    package (the default kind is not stable). *)
Record World : Type := mkworld {
  bq_query : string -> QueryOutcome;
  download_as_bytes : string -> string -> DownloadOutcome;
  list_blobs : string -> string -> ListOutcome;
  read_parquet : string -> option (DataFrame Sale);
  now : Timestamp;
  sort_values_product_id : list Product -> list Product;
  sort_values_export : list string -> list Export -> list Export }.

(* ===================================================================== *)
(** ** gcs_client.py *)
(* ===================================================================== *)

Fixpoint log_each {A : Type} (level : LogLevel) (l : list A) : M unit :=
  match l with
  | [] => ret tt
  | _ :: rest => emit (Log level) ;; log_each level rest
  end.

(** [_debug_list_nearby_sales_files(bucket, current_date, max_results)].
    Log records carry their level only, so the descending sort of the names
    before they are logged leaves no mark here. *)
Definition _debug_list_nearby_sales_files (W : World) (bucket_name : string)
    (current_date : date) (max_results : nat) : M unit :=
  let prefix := "sales_" in
  emit (Log INFO) ;;
  emit (ListBlobs prefix) ;;
  match list_blobs W bucket_name prefix with
  | ListGoogleAPIError => emit (Log WARNING)
  | ListOtherError => raise Exception
  | Listed names =>
      match names with
      | [] => emit (Log INFO)
      | _ :: _ =>
          let limited := firstn max_results names in
          emit (Log INFO) ;;
          log_each INFO limited
      end
  end.

Definition blob_name_of (current_date : date) : string :=
  ("sales_" ++ isoformat current_date ++ ".parquet")%string.

(** The loop [for i in range(num_days)] of [load_sales_parquet]. *)
Fixpoint fetch_days (W : World) (bucket_name : string) (start_date : date)
    (days : list Z) (frames : list (DataFrame Sale))
  : M (list (DataFrame Sale)) :=
  match days with
  | [] => ret frames
  | i :: rest =>
      current_date <- lift (date_add_days start_date i) ;;
      let blob_name := blob_name_of current_date in
      emit (Log DEBUG) ;;
      emit (DownloadAsBytes blob_name) ;;
      match download_as_bytes W bucket_name blob_name with
      | NotFound =>
          emit (Log WARNING) ;;
          _debug_list_nearby_sales_files W bucket_name current_date 10 ;;
          fetch_days W bucket_name start_date rest frames
      | DownloadGoogleAPIError | DownloadOtherError =>
          emit (Log ERROR) ;; raise DataLoadError
      | Downloaded content =>
          match read_parquet W content with
          | None => emit (Log ERROR) ;; raise DataLoadError
          | Some df_day =>
              fetch_days W bucket_name start_date rest (frames ++ [df_day])
          end
      end
  end.

(** [range(n)] *)
Definition range (n : Z) : list Z := map Z.of_nat (seq 0 (Z.to_nat n)).

(** [load_sales_parquet(project_id, bucket_name, start_date, end_date,
    max_files)] *)
Definition load_sales_parquet (W : World) (project_id bucket_name : string)
    (start_date end_date : date) (max_files : option Z)
  : M (DataFrame Sale) :=
  if date_ltb end_date start_date then raise ValueError
  else
    let num_days := days_between start_date end_date + 1 in
    if match max_files with
       | Some bound => bound <? num_days
       | None => false
       end
    then emit (Log ERROR) ;; raise TooManyFilesError
    else
      emit (Log INFO) ;;
      emit (StorageClient project_id) ;;
      emit (BucketHandle bucket_name) ;;
      frames <- fetch_days W bucket_name start_date (range num_days) [] ;;
      match frames with
      | [] => emit (Log WARNING) ;; ret (mkframe [] [])
      | _ :: _ =>
          let df := concat frames in
          emit (Log INFO) ;; ret df
      end.

(* ===================================================================== *)
(** ** bq_client.py *)
(* ===================================================================== *)

Definition required_cols : list string :=
  ["product_id"; "product_name"; "category"; "brand"; "condition"].

(** [load_products(project_id, dataset_id, table_id)] *)
Definition load_products (W : World) (project_id dataset_id table_id : string)
  : M (DataFrame Product) :=
  let table_full_name :=
    (project_id ++ "." ++ dataset_id ++ "." ++ table_id)%string in
  emit (Log INFO) ;;
  emit (BigQueryQuery table_full_name) ;;
  match bq_query W table_full_name with
  | QueryGoogleAPIError | QueryOtherError =>
      emit (Log ERROR) ;; raise DataLoadError
  | QueryFrame df =>
      let missing :=
        filter (fun c => negb (has_column c df)) required_cols in
      match missing with
      | _ :: _ => emit (Log ERROR) ;; raise DataQualityError
      | [] => emit (Log INFO) ;; ret df
      end
  end.

(* ===================================================================== *)
(** ** pipeline.py *)
(* ===================================================================== *)

(** [str(n)] for an integer. *)
Definition str (n : Z) : string := NilZero.string_of_int (Z.to_int n).

(** [_build_suffix(ref_date, granularity)] (years of four digits). *)
Definition _build_suffix (ref_date : date) (granularity : TimeGranularity)
  : string :=
  match granularity with
  | DAY => isoformat ref_date
  | MONTH => (pad4 (year ref_date) ++ "-" ++ pad2 (month ref_date))%string
  | QUARTER =>
      let quarter := (month ref_date - 1) / 3 + 1 in
      (str (year ref_date) ++ "-Q" ++ str quarter)%string
  | YEAR => str (year ref_date)
  end.

(** [_compute_date_range(ref_date, granularity)] *)
Definition _compute_date_range (ref_date : date)
    (granularity : TimeGranularity) : Result (date * date) :=
  match granularity with
  | DAY => Ok (ref_date, ref_date)
  | MONTH =>
      let* start := new_date (year ref_date) (month ref_date) 1 in
      let* next_month :=
        if month ref_date =? 12 then new_date (year ref_date + 1) 1 1
        else new_date (year ref_date) (month ref_date + 1) 1 in
      let* end_ := date_sub_days next_month 1 in
      Ok (start, end_)
  | QUARTER =>
      let quarter := (month ref_date - 1) / 3 + 1 in
      let first_month := 3 * (quarter - 1) + 1 in
      let* start := new_date (year ref_date) first_month 1 in
      let* next_q_start :=
        if quarter =? 4 then new_date (year ref_date + 1) 1 1
        else new_date (year ref_date) (first_month + 3) 1 in
      let* end_ := date_sub_days next_q_start 1 in
      Ok (start, end_)
  | YEAR =>
      let* start := new_date (year ref_date) 1 1 in
      let* next_year := new_date (year ref_date + 1) 1 1 in
      let* end_ := date_sub_days next_year 1 in
      Ok (start, end_)
  end.

(** [_empty_final_dataframe()] *)
Definition _empty_final_dataframe : DataFrame Merged :=
  mkframe
    ["product_id"; "price"; "quantity"; "sold_at"; "order_id";
     "product_name"; "category"; "brand"; "condition"]
    [].

Definition is_none {A : Type} (x : option A) : bool :=
  match x with None => true | Some _ => false end.

(** ["Q" + sold_at.dt.quarter.astype(str)]: the quarter series is a float
    series as soon as one timestamp is missing. *)
Definition quarter_label (has_nat : bool) (t : option Timestamp) : string :=
  match t with
  | None => "Qnan"
  | Some t =>
      ("Q" ++ str (ts_quarter t) ++ (if has_nat then ".0" else ""))%string
  end.

Definition set_processed_at (t : Timestamp) (r : Export) : Export :=
  mkexport (e_merged r) (e_sale_date r) (e_year r) (e_month r) (e_quarter r)
           (Some t).

(** [_enrich_with_date_and_metadata(df)] *)
Definition _enrich_with_date_and_metadata (W : World) (df : DataFrame Merged)
  : DataFrame Export :=
  if empty df then
    let rows :=
      if has_column "sold_at" df then data df
      else map (fun r => set_merged_sold_at r None) (data df) in
    mkframe
      (set_column "processed_at"
         (set_column "quarter"
            (set_column "month"
               (set_column "year"
                  (set_column "sale_date"
                     (set_column "sold_at" (columns df)))))))
      (map (fun r => mkexport r None None None None None) rows)
  else
    let rows :=
      if has_column "sold_at" df then
        let sold_at := to_datetime_utc (map m_sold_at (data df)) in
        let has_nat := existsb is_none sold_at in
        map (fun r =>
               let t := s_sold_at (m_sale r) in
               mkexport r (option_map ts_date t) (option_map ts_year t)
                        (option_map ts_month t)
                        (Some (quarter_label has_nat t)) None)
            (assign set_merged_sold_at (data df) sold_at)
      else map (fun r => mkexport r None None None None None) (data df) in
    let cols :=
      set_column "quarter"
        (set_column "month"
           (set_column "year" (set_column "sale_date" (columns df)))) in
    let processed_at := now W in
    let rows := map (set_processed_at processed_at) rows in
    let cols := set_column "processed_at" cols in
    let sort_cols :=
      (if existsb (String.eqb "sale_date") cols then ["sale_date"] else [])
      ++ (if existsb (String.eqb "order_id") cols then ["order_id"] else []) in
    match sort_cols with
    | [] => mkframe cols rows
    | _ :: _ => mkframe cols (sort_values_export W sort_cols rows)
    end.

(** [df.drop_duplicates(subset="product_id", keep="last")] *)
Definition drop_duplicates_keep_last (rows : list Product) : list Product :=
  loc rows (map negb (duplicated_keep_last (map p_product_id rows))).

Definition merge_row (s : Sale) (p : option Product) : Merged :=
  match p with
  | Some p =>
      mkmerged s (p_product_name p) (p_category p) (p_brand p) (p_condition p)
  | None => mkmerged s None None None None
  end.

(** The rows of a left join: each left row with every right row of the same
    key, or once with missing product fields when there is none. *)
Definition left_join_rows (left : list Sale) (right : list Product)
  : list Merged :=
  flat_map
    (fun s =>
       match filter (fun p => key_eqb (p_product_id p) (s_product_id s))
                    right with
       | [] => [merge_row s None]
       | matches => map (fun p => merge_row s (Some p)) matches
       end)
    left.

(** [left.merge(right, on="product_id", how="left",
    validate="many_to_one")], for frames that share no label but the key. *)
Definition merge (left : DataFrame Sale) (right : DataFrame Product)
  : Result (DataFrame Merged) :=
  if negb (has_column "product_id" left && has_column "product_id" right)
  then Raise KeyError
  else if negb (is_unique (map p_product_id (data right)))
  then Raise MergeError
  else
    Ok (mkframe
          (columns left
           ++ filter (fun c => negb (String.eqb c "product_id"))
                     (columns right))
          (left_join_rows (data left) (data right))).

(** [class PipelineConfig] *)
Record PipelineConfig : Type := mkconfig {
  project_id : string;
  ref_date : date;
  granularity : TimeGranularity;
  bq_dataset : string;
  bq_table : string;
  gcs_bucket : string;
  brands : option (list string);
  product_ids : option (list string);
  output_dir : string;
  output_format : string;
  max_sales_files : Z }.

(** The truth value of an optional sequence: [None] and [[]] are false. *)
Definition truthy {A : Type} (x : option (list A)) : bool :=
  match x with
  | Some (_ :: _) => true
  | _ => false
  end.

Definition sequence_items {A : Type} (x : option (list A)) : list A :=
  match x with Some l => l | None => [] end.

(** [_build_output_path(config)] *)
Definition _build_output_path (config : PipelineConfig) : string :=
  let suffix := _build_suffix (ref_date config) (granularity config) in
  let filename :=
    ("sales_products_" ++ granularity_value (granularity config) ++ "_"
     ++ suffix ++ "." ++ output_format config)%string in
  (output_dir config ++ "/" ++ filename)%string.

(** Step 2 of [run_pipeline]: drop product rows whose product_id is NULL. *)
Definition drop_null_products (products_df : DataFrame Product)
  : M (DataFrame Product) :=
  ids <- lift (getitem products_df "product_id" p_product_id) ;;
  let null_count := count_true (isna ids) in
  if 0 <? null_count then
    emit (Log WARNING) ;;
    ret (mkframe (columns products_df) (loc (data products_df) (notna ids)))
  else ret products_df.

(** Before the join: drop sales rows whose product_id is NULL. *)
Definition drop_null_sales (filtered_sales_df : DataFrame Sale)
  : M (DataFrame Sale) :=
  ids <- lift (getitem filtered_sales_df "product_id" s_product_id) ;;
  let null_sales_count := count_true (isna ids) in
  if 0 <? null_sales_count then
    emit (Log WARNING) ;;
    ret (mkframe (columns filtered_sales_df)
                 (loc (data filtered_sales_df) (notna ids)))
  else ret filtered_sales_df.

(** Step 6: make product_id unique in the products table. *)
Definition deduplicate_products (W : World) (products_df : DataFrame Product)
  : M (DataFrame Product) :=
  ids <- lift (getitem products_df "product_id" p_product_id) ;;
  if negb (is_unique ids) then
    emit (Log WARNING) ;;
    ret (mkframe (columns products_df)
           (drop_duplicates_keep_last
              (sort_values_product_id W (data products_df))))
  else ret products_df.

(** Step 8: the brand and product_id filters. *)
Definition apply_business_filters (config : PipelineConfig)
    (merged_df : DataFrame Merged) : M (DataFrame Merged) :=
  merged_df <-
    (if truthy (brands config) then
       emit (Log INFO) ;;
       brand <- lift (getitem merged_df "brand" m_brand) ;;
       ret (mkframe (columns merged_df)
              (loc (data merged_df)
                   (isin brand (sequence_items (brands config)))))
     else ret merged_df) ;;
  if truthy (product_ids config) then
    emit (Log INFO) ;;
    ids <- lift (getitem merged_df "product_id" m_product_id) ;;
    ret (mkframe (columns merged_df)
           (loc (data merged_df)
                (isin ids (sequence_items (product_ids config)))))
  else ret merged_df.

(** The table [merged_df] that [run_pipeline] hands to the enrichment. *)
Definition merged_table (W : World) (config : PipelineConfig)
    (products_df : DataFrame Product) (sales_df : DataFrame Sale)
  : M (DataFrame Merged) :=
  if empty sales_df then
    emit (Log WARNING) ;; ret _empty_final_dataframe
  else
    filtered_sales_df <-
      lift (filter_sales_by_date sales_df (ref_date config)
              (granularity config)) ;;
    if empty filtered_sales_df then
      emit (Log WARNING) ;; ret _empty_final_dataframe
    else
      filtered_sales_df <- drop_null_sales filtered_sales_df ;;
      products_df <- deduplicate_products W products_df ;;
      merged_df <- lift (merge filtered_sales_df products_df) ;;
      apply_business_filters config merged_df.

(** [run_pipeline] up to the table it exports. *)
Definition final_table (W : World) (config : PipelineConfig)
  : M (DataFrame Export) :=
  emit (Log INFO) ;;
  products_df <-
    load_products W (project_id config) (bq_dataset config)
      (bq_table config) ;;
  products_df <- drop_null_products products_df ;;
  dates <- lift (_compute_date_range (ref_date config) (granularity config)) ;;
  emit (Log INFO) ;;
  sales_df <-
    load_sales_parquet W (project_id config) (gcs_bucket config)
      (fst dates) (snd dates) (Some (max_sales_files config)) ;;
  merged_df <- merged_table W config products_df sales_df ;;
  ret (_enrich_with_date_and_metadata W merged_df).

(** [run_pipeline(config)] *)
Definition run_pipeline (W : World) (config : PipelineConfig) : M string :=
  final_table W config ;;
  let output_path := _build_output_path config in
  emit (Mkdir (output_dir config)) ;;
  emit (Log INFO) ;;
  (if String.eqb (output_format config) "parquet" then
     emit (ToParquet output_path)
   else if String.eqb (output_format config) "csv" then
     emit (ToCsv output_path)
   else emit (Log ERROR) ;; raise ValueError) ;;
  emit (Log INFO) ;;
  ret output_path.

(* ===================================================================== *)
(** ** What the specification asks of the date range *)
(* ===================================================================== *)

(** The inclusive range the specification gives for each granularity: the
    day itself; the first to the last day of the month; the first day of
    month [3*(q-1)+1] to the last day of month [3*q] for the quarter
    [q = (month-1)//3 + 1]; January 1 to December 31. *)
Definition specified_range (ref : date) (g : TimeGranularity) : date * date :=
  match g with
  | DAY => (ref, ref)
  | MONTH =>
      (mkdate (year ref) (month ref) 1,
       mkdate (year ref) (month ref) (_days_in_month (year ref) (month ref)))
  | QUARTER =>
      let q := (month ref - 1) / 3 + 1 in
      (mkdate (year ref) (3 * (q - 1) + 1) 1,
       mkdate (year ref) (3 * q) (_days_in_month (year ref) (3 * q)))
  | YEAR => (mkdate (year ref) 1 1, mkdate (year ref) 12 31)
  end.

(** The periods whose following period starts in year 10000. *)
Definition ends_with_MAXYEAR (ref : date) (g : TimeGranularity) : bool :=
  match g with
  | DAY => false
  | MONTH => (month ref =? 12) && (year ref =? MAXYEAR)
  | QUARTER => ((month ref - 1) / 3 + 1 =? 4) && (year ref =? MAXYEAR)
  | YEAR => year ref =? MAXYEAR
  end.

(* ===================================================================== *)
(** ** What the specification asks of the temporal filter *)
(* ===================================================================== *)

(** A UTC timestamp falls in the reference period: same calendar date for
    DAY, same year and month for MONTH, same year and same
    [(month-1)//3+1] for QUARTER, same year for YEAR. *)
Definition in_reference_period (ref : date) (g : TimeGranularity)
    (t : Timestamp) : bool :=
  match g with
  | DAY => date_eqb (ts_date t) ref
  | MONTH => (ts_year t =? year ref) && (ts_month t =? month ref)
  | QUARTER =>
      (ts_year t =? year ref)
      && ((ts_month t - 1) / 3 + 1 =? (month ref - 1) / 3 + 1)
  | YEAR => ts_year t =? year ref
  end.

(** The row's UTC-normalized [sold_at] falls in the reference period; a row
    without a timestamp falls in no period. *)
Definition sold_in_period (ref : date) (g : TimeGranularity) (s : Sale)
  : bool :=
  match s_sold_at s with
  | Some t => in_reference_period ref g (to_utc t)
  | None => false
  end.

(** The row with its [sold_at] normalized to UTC. *)
Definition utc_sale (s : Sale) : Sale :=
  set_sold_at s (option_map to_utc (s_sold_at s)).

(* ===================================================================== *)
(** ** What the specification asks of the catalog and of the join *)
(* ===================================================================== *)

(** Ascending order of product_id, missing values last. *)
Definition ascending_product_id (a b : Product) : Prop :=
  key_leb (p_product_id a) (p_product_id b) = true.

(** The catalog row a sale is joined with: the row of its product_id. *)
Definition catalog_row (catalog : list Product) (s : Sale) : option Product :=
  find (fun p => key_eqb (p_product_id p) (s_product_id s)) catalog.

(* ===================================================================== *)
(** ** What the specification asks of the business filters *)
(* ===================================================================== *)

(** A value passes an optional allow-list when no list is configured or
    when it is present and a member of the list: a missing value passes no
    configured list. *)
Definition passes (allow : option (list string)) (v : option string) : bool :=
  match allow with
  | None => true
  | Some l =>
      match v with
      | Some x => existsb (String.eqb x) l
      | None => false
      end
  end.

Definition allowed (allow : option (list string)) (v : option string) : Prop :=
  match allow with
  | None => True
  | Some l => exists x, v = Some x /\ In x l
  end.

(** The filters keep exactly the rows that pass every configured list:
    the rows of the result are the rows of the joined table, in order,
    whose brand passes the brand list and whose product_id passes the
    product-id list. *)
Definition keeps_exactly_the_allowed_rows (config : PipelineConfig)
    (merged_df : DataFrame Merged) : Prop :=
  exists out,
    outcome (apply_business_filters config merged_df) = Ok out /\
    columns out = columns merged_df /\
    data out
    = filter (fun r => passes (brands config) (m_brand r)
                       && passes (product_ids config) (m_product_id r))
             (data merged_df) /\
    forall r, In r (data out) <->
              In r (data merged_df)
              /\ allowed (brands config) (m_brand r)
              /\ allowed (product_ids config) (m_product_id r).

Definition set_brands (x : option (list string)) (c : PipelineConfig)
  : PipelineConfig :=
  mkconfig (project_id c) (ref_date c) (granularity c) (bq_dataset c)
           (bq_table c) (gcs_bucket c) x (product_ids c) (output_dir c)
           (output_format c) (max_sales_files c).

Definition set_product_ids (x : option (list string)) (c : PipelineConfig)
  : PipelineConfig :=
  mkconfig (project_id c) (ref_date c) (granularity c) (bq_dataset c)
           (bq_table c) (gcs_bucket c) (brands c) x (output_dir c)
           (output_format c) (max_sales_files c).

(* ===================================================================== *)
(** ** The export schema *)
(* ===================================================================== *)

(** The full set of export columns: the sale columns, the product columns
    and the derived reporting columns. *)
Definition export_columns : list string :=
  ["product_id"; "price"; "quantity"; "sold_at"; "order_id";
   "product_name"; "category"; "brand"; "condition";
   "sale_date"; "year"; "month"; "quarter"; "processed_at"].

(* ===================================================================== *)
(** ** A reference world, for running the model on concrete inputs *)
(* ===================================================================== *)

Fixpoint insert_sorted {A : Type} (leb : A -> A -> bool) (x : A)
    (l : list A) : list A :=
  match l with
  | [] => [x]
  | y :: rest => if leb x y then x :: l else y :: insert_sorted leb x rest
  end.

(** A stable sort: equal keys keep their order. *)
Definition stable_sort {A : Type} (leb : A -> A -> bool) (l : list A)
  : list A :=
  fold_right (insert_sorted leb) [] l.

Definition compare_export_by (col : string) (a b : Export) : comparison :=
  if String.eqb col "sale_date" then
    compare_option compare_date (e_sale_date a) (e_sale_date b)
  else if String.eqb col "order_id" then
    compare_option String.compare (m_order_id (e_merged a))
                   (m_order_id (e_merged b))
  else Eq.

Fixpoint export_leb (cols : list string) (a b : Export) : bool :=
  match cols with
  | [] => true
  | c :: rest =>
      match compare_export_by c a b with
      | Lt => true
      | Gt => false
      | Eq => export_leb rest a b
      end
  end.

(** A world with an empty bucket and an empty catalog, in which pandas sorts
    stably. *)
Definition quiet_world : World :=
  mkworld
    (fun _ => QueryFrame (mkframe required_cols []))
    (fun _ _ => NotFound)
    (fun _ _ => Listed [])
    (fun _ => None)
    (utc_timestamp 2025 6 1 12 0 0)
    (stable_sort (fun a b => key_leb (p_product_id a) (p_product_id b)))
    (fun cols => stable_sort (export_leb cols)).

(** The sales of the specification's scenario: one sale on 2025-01-10 at
    10:00Z and one on 2025-01-31 at 23:59Z. *)
Definition sale_jan10 : Sale :=
  mksale (Some "A") None (Some 1) (Some (utc_timestamp 2025 1 10 10 0 0))
         (Some "O1").
Definition sale_jan31 : Sale :=
  mksale (Some "B") None (Some 2) (Some (utc_timestamp 2025 1 31 23 59 0))
         (Some "O2").
Definition sales_columns : list string :=
  ["product_id"; "price"; "quantity"; "sold_at"; "order_id"].
Definition january_sales : DataFrame Sale :=
  mkframe sales_columns [sale_jan10; sale_jan31].

(** A catalog in which two rows share the product_id "A". *)
Definition product_A_first : Product :=
  mkproduct (Some "A") (Some "Prod A") (Some "cat1") (Some "BrandX")
            (Some "new").
Definition product_B : Product :=
  mkproduct (Some "B") (Some "Prod B") (Some "cat2") (Some "BrandY")
            (Some "used").
Definition product_A_second : Product :=
  mkproduct (Some "A") (Some "Prod A bis") (Some "cat1") (Some "BrandZ")
            (Some "used").
Definition catalog_with_two_A : DataFrame Product :=
  mkframe required_cols [product_A_first; product_B; product_A_second].

(** A world in which pandas' sort leaves equal keys in the reverse of their
    loaded order: as admissible as the stable one. *)
Definition tie_reversing_world : World :=
  mkworld
    (bq_query quiet_world) (download_as_bytes quiet_world)
    (list_blobs quiet_world) (read_parquet quiet_world) (now quiet_world)
    (fun rows =>
       stable_sort (fun a b => key_leb (p_product_id a) (p_product_id b))
                   (rev rows))
    (sort_values_export quiet_world).

(** The configuration of the integration test: one day, default sources. *)
Definition day_config : PipelineConfig :=
  mkconfig "dummy-project" (mkdate 2025 1 10) DAY "bm_mock_data" "products"
           "bm_mock_sales" None None "data/export" "parquet" 500.

Definition merged_columns : list string :=
  ["product_id"; "price"; "quantity"; "sold_at"; "order_id";
   "product_name"; "category"; "brand"; "condition"].

(** A joined table with a BrandX row, a BrandY row and a row without
    product. *)
Definition merged_X : Merged :=
  mkmerged sale_jan10 (Some "Prod A") (Some "cat1") (Some "BrandX")
           (Some "new").
Definition merged_Y : Merged :=
  mkmerged sale_jan31 (Some "Prod B") (Some "cat2") (Some "BrandY")
           (Some "used").
Definition merged_unmatched : Merged :=
  mkmerged (mksale (Some "C") None (Some 3)
              (Some (utc_timestamp 2025 1 10 12 0 0)) (Some "O3"))
           None None None None.
Definition joined_brands : DataFrame Merged :=
  mkframe merged_columns [merged_X; merged_Y; merged_unmatched].

(** A world whose bucket holds, for every day, a file with the two January
    sales. *)
Definition january_world : World :=
  mkworld
    (fun _ => QueryFrame (mkframe required_cols [product_A_first; product_B]))
    (fun _ _ => Downloaded "january")
    (list_blobs quiet_world)
    (fun _ => Some january_sales)
    (now quiet_world)
    (sort_values_product_id quiet_world)
    (sort_values_export quiet_world).

(** The same run asked for the first of February. *)
Definition february_config : PipelineConfig :=
  mkconfig "dummy-project" (mkdate 2025 2 1) DAY "bm_mock_data" "products"
           "bm_mock_sales" None None "data/export" "parquet" 500.

(* ===================================================================== *)
(** ** Reading traces and tables *)
(* ===================================================================== *)

(** The names of the blobs whose download a trace records, in order. *)
Fixpoint downloads (t : list Event) : list string :=
  match t with
  | [] => []
  | DownloadAsBytes name :: rest => name :: downloads rest
  | _ :: rest => downloads rest
  end.

Definition is_listing (ev : Event) : bool :=
  match ev with ListBlobs _ => true | _ => false end.



Definition is_log (ev : Event) : bool :=
  match ev with Log _ => true | _ => false end.

(** The day [i] days after [start_date], as [date.fromordinal] gives it. *)
Definition day_after (start_date : date) (i : Z) : date :=
  _ord2ymd (toordinal start_date + i).

(** The rows that the bucket holds for one day: those of the day's file
    when it is there and readable, none otherwise. *)
Definition day_frames (W : World) (bucket_name : string) (d : date)
  : list (DataFrame Sale) :=
  match download_as_bytes W bucket_name (blob_name_of d) with
  | Downloaded content =>
      match read_parquet W content with
      | Some df_day => [df_day]
      | None => []
      end
  | _ => []
  end.

(** A day whose file can be loaded or skipped: found and readable, or not
    found. *)
Definition day_loads (W : World) (bucket_name : string) (d : date) : bool :=
  match download_as_bytes W bucket_name (blob_name_of d) with
  | Downloaded content =>
      match read_parquet W content with Some _ => true | None => false end
  | NotFound => true
  | _ => false
  end.

(** One list is the beginning of another. *)
Definition prefix_of {A : Type} (l full : list A) : Prop :=
  exists rest, full = l ++ rest.

(** The order of the granularities, from the finest. *)
Definition granularity_rank (g : TimeGranularity) : Z :=
  match g with DAY => 0 | MONTH => 1 | QUARTER => 2 | YEAR => 3 end.

(** Two dates are in the same period of a granularity. *)
Definition same_period (g : TimeGranularity) (a b : date) : bool :=
  match g with
  | DAY => date_eqb a b
  | MONTH => (year a =? year b) && (month a =? month b)
  | QUARTER =>
      (year a =? year b)
      && ((month a - 1) / 3 + 1 =? (month b - 1) / 3 + 1)
  | YEAR => year a =? year b
  end.

Definition set_ref_date (d : date) (c : PipelineConfig) : PipelineConfig :=
  mkconfig (project_id c) d (granularity c) (bq_dataset c) (bq_table c)
           (gcs_bucket c) (brands c) (product_ids c) (output_dir c)
           (output_format c) (max_sales_files c).

(** A timestamp whose date, read in its zone, is a date of the calendar
    (pandas' own range, 1677 to 2262, is well inside). *)
Definition in_calendar (t : Timestamp) : Prop :=
  0 < EPOCH_ORDINAL + (value t + utcoffset_ns t) / NS_PER_DAY <= _MAXORDINAL.

(** The catalog as the join sees it: after the deduplication step. *)
Definition deduplicated_rows (W : World) (rows : list Product)
  : list Product :=
  if is_unique (map p_product_id rows) then rows
  else drop_duplicates_keep_last (sort_values_product_id W rows).

(** The business filters that run: a list that is absent or empty lets
    every row pass. *)
Definition passes_business_filters (config : PipelineConfig) (r : Merged)
  : bool :=
  (if truthy (brands config)
   then passes (Some (sequence_items (brands config))) (m_brand r)
   else true)
  && (if truthy (product_ids config)
      then passes (Some (sequence_items (product_ids config)))
                  (m_product_id r)
      else true).


(** A check of [month_day_of] on one day of the year (a device of the
    proofs): the month and the day are those of a date, and count back to
    the day of the year. *)
Definition month_day_check (leapyear : bool) (r : Z) : bool :=
  let x := month_day_of 0 leapyear r in
  (1 <=? month x) && (month x <=? 12)
  && (1 <=? day x) && (day x <=? days_in leapyear (month x))
  && (days_before leapyear (month x) + day x - 1 =? r).

(** The columns that the enrichment derives. *)
Definition derived_columns : list string :=
  ["sale_date"; "year"; "month"; "quarter"; "processed_at"].

(** A joined row with its [sold_at] normalized to UTC. *)
Definition utc_merged (r : Merged) : Merged :=
  set_merged_sold_at r (option_map to_utc (m_sold_at r)).

(** The labels of the four quarters. *)
Definition quarter_labels : list string := ["Q1"; "Q2"; "Q3"; "Q4"].

(** One row of the enrichment of a table with rows and a [sold_at]
    column. *)
Definition enriched_row (W : World) (has_nat : bool) (r : Merged) : Export :=
  let r' := utc_merged r in
  let t := m_sold_at r' in
  mkexport r' (option_map ts_date t) (option_map ts_year t)
           (option_map ts_month t) (Some (quarter_label has_nat t))
           (Some (now W)).


(** The events that create a directory or a file. *)
Definition is_output (ev : Event) : bool :=
  match ev with Mkdir _ | ToParquet _ | ToCsv _ => true | _ => false end.

Definition has_product_id (s : Sale) : bool := negb (is_none (s_product_id s)).


(* ===================================================================== *)
(** ** cli.py *)
(* ===================================================================== *)



(** The table that [load_products] asks BigQuery for. *)
Definition table_full_name (config : PipelineConfig) : string :=
  (project_id config ++ "." ++ bq_dataset config ++ "." ++ bq_table config)
  %string.

(** The events of the export when it is reached. *)
Definition export_events (config : PipelineConfig) : list Event :=
  let output_path := _build_output_path config in
  if String.eqb (output_format config) "parquet" then
    [Mkdir (output_dir config); Log INFO; ToParquet output_path; Log INFO]
  else if String.eqb (output_format config) "csv" then
    [Mkdir (output_dir config); Log INFO; ToCsv output_path; Log INFO]
  else [Mkdir (output_dir config); Log INFO; Log ERROR].

(** The formats [run_pipeline] can write. *)
Definition supported_format (config : PipelineConfig) : bool :=
  String.eqb (output_format config) "parquet"
  || String.eqb (output_format config) "csv".

(** The catalog query answers with a table that has every required
    column. *)
Definition catalog_ok (W : World) (config : PipelineConfig) : bool :=
  match bq_query W (table_full_name config) with
  | QueryFrame df => forallb (fun c => has_column c df) required_cols
  | _ => false
  end.


Definition period_days (config : PipelineConfig) : Z :=
  days_between
    (fst (specified_range (ref_date config) (granularity config)))
    (snd (specified_range (ref_date config) (granularity config))) + 1.




Lemma is_leap_decompose a b c e :
  0 <= b < 4 -> 0 <= c < 25 -> 0 <= e < 4 ->
  _is_leap (400 * a + 100 * b + 4 * c + e + 1) =
  (e =? 3) && (negb (c =? 24) || (b =? 3)).
Proof.
  intros Hb Hc He. unfold _is_leap.
  repeat match goal with
         | |- context [?x =? ?y] => destruct (Z.eqb_spec x y)
         end; simpl; try reflexivity; exfalso;
    Z.div_mod_to_equations; lia.
Qed.

Lemma days_before_year_decompose a b c e :
  0 <= b < 4 -> 0 <= c < 25 -> 0 <= e < 4 ->
  _days_before_year (400 * a + 100 * b + 4 * c + e + 1) =
  146097 * a + 36524 * b + 1461 * c + 365 * e.
Proof.
  intros Hb Hc He. unfold _days_before_year.
  Z.div_mod_to_equations. lia.
Qed.

Lemma year_decompose y :
  exists a b c e,
    0 <= b < 4 /\ 0 <= c < 25 /\ 0 <= e < 4 /\
    y = 400 * a + 100 * b + 4 * c + e + 1.
Proof.
  exists ((y - 1) / 400), ((y - 1) mod 400 / 100),
    ((y - 1) mod 400 mod 100 / 4), ((y - 1) mod 400 mod 100 mod 4).
  Z.div_mod_to_equations. lia.
Qed.

Lemma ord2ymd_core a b c e r :
  0 <= b < 4 -> 0 <= c < 25 -> 0 <= e < 4 ->
  0 <= r ->
  r <= 364 + (if (e =? 3) && (negb (c =? 24) || (b =? 3)) then 1 else 0) ->
  _ord2ymd (146097 * a + 36524 * b + 1461 * c + 365 * e + r + 1) =
  month_day_of (400 * a + 100 * b + 4 * c + e + 1)
               ((e =? 3) && (negb (c =? 24) || (b =? 3))) r.
Proof.
  intros Hb Hc He Hr0 Hr.
  unfold _ord2ymd, _DI400Y, _DI100Y, _DI4Y.
  replace (146097 * a + 36524 * b + 1461 * c + 365 * e + r + 1 - 1)
    with (146097 * a + 36524 * b + 1461 * c + 365 * e + r) by lia.
  set (N := 146097 * a + 36524 * b + 1461 * c + 365 * e + r).
  assert (Lb : (e =? 3) && (negb (c =? 24) || (b =? 3)) = true ->
               e = 3 /\ (c <> 24 \/ b = 3)).
  { intro H. apply andb_true_iff in H. destruct H as [H1 H2].
    apply Z.eqb_eq in H1. apply orb_true_iff in H2. split; [exact H1 |].
    destruct H2 as [H2 | H2].
    - left. apply negb_true_iff in H2. apply Z.eqb_neq in H2. exact H2.
    - right. apply Z.eqb_eq in H2. exact H2. }
  assert (Hr' : r <= 364 \/ (r = 365 /\ e = 3 /\ (c <> 24 \/ b = 3))).
  { destruct ((e =? 3) && (negb (c =? 24) || (b =? 3))) eqn:EL.
    - destruct (Lb eq_refl) as [-> Hcb]. lia.
    - lia. }
  clear Hr.
  assert (E1 : N / 146097 = a) by (subst N; Z.div_mod_to_equations; lia).
  assert (E2 : N mod 146097 = 36524 * b + 1461 * c + 365 * e + r)
    by (subst N; Z.div_mod_to_equations; lia).
  rewrite E1, E2. clear E1 E2.
  destruct Hr' as [Hr | (-> & -> & Hcb)].
  - (* an ordinary day of the year *)
    assert (E3 : (36524 * b + 1461 * c + 365 * e + r) / 36524 = b).
    { destruct (Z.eq_dec e 3) as [-> |];
        [destruct (Z.eq_dec c 24) as [-> |] |];
        Z.div_mod_to_equations; lia. }
    assert (E4 : (36524 * b + 1461 * c + 365 * e + r) mod 36524
                 = 1461 * c + 365 * e + r).
    { rewrite Z.mod_eq by lia. rewrite E3. lia. }
    rewrite E3, E4. clear E3 E4.
    assert (E5 : (1461 * c + 365 * e + r) / 1461 = c)
      by (Z.div_mod_to_equations; lia).
    assert (E6 : (1461 * c + 365 * e + r) mod 1461 = 365 * e + r).
    { rewrite Z.mod_eq by lia. rewrite E5. lia. }
    rewrite E5, E6. clear E5 E6.
    assert (E7 : (365 * e + r) / 365 = e) by (Z.div_mod_to_equations; lia).
    assert (E8 : (365 * e + r) mod 365 = r).
    { rewrite Z.mod_eq by lia. rewrite E7. lia. }
    rewrite E7, E8. clear E7 E8.
    replace (e =? 4) with false by (symmetry; apply Z.eqb_neq; lia).
    replace (b =? 4) with false by (symmetry; apply Z.eqb_neq; lia).
    simpl orb. cbv iota.
    unfold month_day_of.
    replace (a * 400 + 1 + b * 100 + c * 4 + e)
      with (400 * a + 100 * b + 4 * c + e + 1) by lia.
    reflexivity.
  - (* the 366th day of a leap year *)
    assert (EL : (3 =? 3) && (negb (c =? 24) || (b =? 3)) = true).
    { simpl. apply orb_true_iff. destruct Hcb as [Hc' | ->].
      - left. apply negb_true_iff. apply Z.eqb_neq. exact Hc'.
      - right. reflexivity. }
    rewrite EL.
    replace (month_day_of (400 * a + 100 * b + 4 * c + 3 + 1) true 365)
      with (mkdate (400 * a + 100 * b + 4 * c + 3 + 1) 12 31)
      by reflexivity.
    destruct (Z.eq_dec c 24) as [-> | Nc].
    + assert (b = 3) by lia. subst b.
      set (K := 36524 * 3 + 1461 * 24 + 365 * 3 + 365).
      replace (K / 36524) with 4 by reflexivity.
      replace (K mod 36524) with 0 by reflexivity.
      replace (0 mod 1461) with 0 by reflexivity.
      replace (0 / 1461) with 0 by reflexivity.
      replace (0 / 365) with 0 by reflexivity.
      replace ((0 =? 4) || (4 =? 4)) with true by reflexivity.
      f_equal. lia.
    + assert (E3 : (36524 * b + 1461 * c + 365 * 3 + 365) / 36524 = b)
        by (Z.div_mod_to_equations; lia).
      assert (E4 : (36524 * b + 1461 * c + 365 * 3 + 365) mod 36524
                   = 1461 * c + 1460).
      { rewrite Z.mod_eq by lia. rewrite E3. lia. }
      rewrite E3, E4. clear E3 E4.
      assert (E5 : (1461 * c + 1460) / 1461 = c)
        by (Z.div_mod_to_equations; lia).
      assert (E6 : (1461 * c + 1460) mod 1461 = 1460).
      { rewrite Z.mod_eq by lia. rewrite E5. lia. }
      rewrite E5, E6. clear E5 E6.
      replace (1460 / 365) with 4 by reflexivity.
      simpl orb. cbv iota. f_equal. lia.
Qed.

Lemma month_cases m :
  1 <= m <= 12 ->
  m = 1 \/ m = 2 \/ m = 3 \/ m = 4 \/ m = 5 \/ m = 6 \/
  m = 7 \/ m = 8 \/ m = 9 \/ m = 10 \/ m = 11 \/ m = 12.
Proof. lia. Qed.

Ltac each_month H :=
  apply month_cases in H;
  repeat (destruct H as [H | H]; [subst | ]); [ .. | subst ].

Ltac eval_days :=
  repeat match goal with
         | |- context [days_before ?b ?k] =>
             let v := eval vm_compute in (days_before b k) in
             change (days_before b k) with v
         | |- context [days_in ?b ?k] =>
             let v := eval vm_compute in (days_in b k) in
             change (days_in b k) with v
         | H : context [days_in ?b ?k] |- _ =>
             let v := eval vm_compute in (days_in b k) in
             change (days_in b k) with v in H
         end.

Lemma month_day_of_correct y leapyear m d :
  1 <= m <= 12 ->
  1 <= d <= days_in leapyear m ->
  month_day_of y leapyear (days_before leapyear m + d - 1) = mkdate y m d.
Proof.
  intros Hm Hd.
  each_month Hm; destruct leapyear; eval_days;
    unfold month_day_of;
    rewrite Z.shiftr_div_pow2 by lia; change (2 ^ 5) with 32;
    match goal with
    | |- context [(?n + 50) / 32] =>
        match goal with
        | |- _ = mkdate _ ?m0 _ =>
            let q := fresh "q" in
            let Hq := fresh "Hq" in
            remember ((n + 50) / 32) as q eqn:Hq;
            assert (q = m0 \/ q = m0 + 1) as Hc
              by (subst q; Z.div_mod_to_equations; lia);
            destruct Hc as [Hc | Hc]; rewrite Hc in *
        end
    end;
    eval_days;
    match goal with
    | |- context [?a <? ?b] => destruct (Z.ltb_spec a b)
    end;
    first [ f_equal; lia | exfalso; Z.div_mod_to_equations; lia ].
Qed.

(** [date.fromordinal(date(y, m, d).toordinal())] is [date(y, m, d)]. *)
Lemma ord2ymd_ymd2ord y m d :
  1 <= m <= 12 -> 1 <= d <= _days_in_month y m ->
  _ord2ymd (_ymd2ord y m d) = mkdate y m d.
Proof.
  intros Hm Hd.
  destruct (year_decompose y) as (a & b & c & e & Hb & Hc & He & Hy).
  unfold _ymd2ord, _days_before_month. unfold _days_in_month in Hd.
  rewrite Hy in Hd |- *.
  rewrite days_before_year_decompose by assumption.
  rewrite is_leap_decompose in Hd |- * by assumption.
  set (L := (e =? 3) && (negb (c =? 24) || (b =? 3))) in *.
  assert (Hd' : 1 <= d <= days_in L m).
  { unfold days_in. destruct ((m =? 2) && L) eqn:E.
    - apply andb_true_iff in E. destruct E as [E _].
      apply Z.eqb_eq in E. subst m. simpl. lia.
    - lia. }
  assert (Hdb : 0 <= days_before L m <= 334 + (if L then 1 else 0)).
  { unfold days_before. clear Hd Hd'. each_month Hm; destruct L; simpl; lia. }
  assert (Hdi : days_before L m + days_in L m <= 365 + (if L then 1 else 0)).
  { unfold days_before, days_in. clear Hd Hd' Hdb.
    each_month Hm; destruct L; simpl; lia. }
  replace (146097 * a + 36524 * b + 1461 * c + 365 * e +
           (_DAYS_BEFORE_MONTH m + (if (2 <? m) && L then 1 else 0)) + d)
    with (146097 * a + 36524 * b + 1461 * c + 365 * e
          + (days_before L m + d - 1) + 1)
    by (unfold days_before; lia).
  subst L. rewrite ord2ymd_core; try assumption; try lia.
  apply month_day_of_correct; assumption.
Qed.

(* ===================================================================== *)
(** ** The calendar: ordinals of valid dates *)
(* ===================================================================== *)

Lemma check_date_fields_true y m d :
  check_date_fields y m d = true <->
  1 <= y <= 9999 /\ 1 <= m <= 12 /\ 1 <= d <= _days_in_month y m.
Proof.
  unfold check_date_fields, MINYEAR, MAXYEAR.
  rewrite !andb_true_iff, !Z.leb_le. lia.
Qed.

Lemma days_in_month_bounds y m :
  1 <= m <= 12 -> 28 <= _days_in_month y m <= 31.
Proof.
  intros Hm. unfold _days_in_month.
  each_month Hm; destruct (_is_leap y); simpl; lia.
Qed.

(** A year has 365 days, and one more when it is a leap year. *)
Lemma days_before_next_year y :
  _days_before_year (y + 1) =
  _days_before_year y + 365 + (if _is_leap y then 1 else 0).
Proof.
  unfold _days_before_year, _is_leap.
  replace (y + 1 - 1) with y by lia.
  repeat match goal with
         | |- context [?x =? ?z] => destruct (Z.eqb_spec x z)
         end; simpl; Z.div_mod_to_equations; lia.
Qed.

(** The day before the first of a month is the last day of the month
    before. *)
Lemma ordinal_before_next_month y m :
  1 <= m < 12 ->
  _ymd2ord y (m + 1) 1 - 1 = _ymd2ord y m (_days_in_month y m).
Proof.
  intros Hm. unfold _ymd2ord, _days_before_month, _days_in_month.
  assert (Hm' : 1 <= m <= 12) by lia.
  each_month Hm'; try lia; destruct (_is_leap y); simpl; lia.
Qed.

Lemma ordinal_before_next_year y :
  _ymd2ord (y + 1) 1 1 - 1 = _ymd2ord y 12 31.
Proof.
  unfold _ymd2ord, _days_before_month. rewrite days_before_next_year.
  destruct (_is_leap y), (_is_leap (y + 1)); simpl; lia.
Qed.

Lemma days_before_year_bounds y :
  1 <= y <= 9999 ->
  0 <= _days_before_year y /\
  _days_before_year y + 365 + (if _is_leap y then 1 else 0) <= _MAXORDINAL.
Proof.
  intros Hy.
  destruct (year_decompose y) as (a & b & c & e & Hb & Hc & He & ->).
  rewrite days_before_year_decompose, is_leap_decompose by assumption.
  unfold _MAXORDINAL.
  destruct ((e =? 3) && (negb (c =? 24) || (b =? 3))) eqn:E; [| lia].
  apply andb_true_iff in E. destruct E as [E _].
  apply Z.eqb_eq in E. lia.
Qed.

Lemma ymd2ord_bounds y m d :
  check_date_fields y m d = true ->
  0 < _ymd2ord y m d <= _MAXORDINAL.
Proof.
  intros H. apply check_date_fields_true in H.
  destruct H as (Hy & Hm & Hd).
  pose proof (days_before_year_bounds y Hy) as [H0 H1].
  unfold _ymd2ord, _days_before_month.
  unfold _days_in_month in Hd.
  each_month Hm; destruct (_is_leap y); simpl in *; lia.
Qed.

(** [date(y, m, d) - timedelta(days=1)] when the day before is the valid
    date [(y', m', d')]. *)
Lemma date_sub_one_day y m d y' m' d' :
  _ymd2ord y m d - 1 = _ymd2ord y' m' d' ->
  check_date_fields y' m' d' = true ->
  date_sub_days (mkdate y m d) 1 = Ok (mkdate y' m' d').
Proof.
  intros Hord Hvalid.
  unfold date_sub_days, date_add_days, toordinal. simpl year; simpl month; simpl day.
  replace (_ymd2ord y m d + - (1)) with (_ymd2ord y' m' d') by lia.
  pose proof (ymd2ord_bounds _ _ _ Hvalid) as [Hlo Hhi].
  apply Z.ltb_lt in Hlo. apply Z.leb_le in Hhi. rewrite Hlo, Hhi. simpl.
  apply check_date_fields_true in Hvalid. destruct Hvalid as (_ & Hm & Hd).
  rewrite ord2ymd_ymd2ord by assumption. reflexivity.
Qed.

(* ===================================================================== *)
(** ** pipeline.py: [_compute_date_range] *)
(* ===================================================================== *)

Lemma new_date_ok y m d :
  check_date_fields y m d = true -> new_date y m d = Ok (mkdate y m d).
Proof. intros H. unfold new_date. rewrite H. reflexivity. Qed.

Lemma new_date_year_10000 m d : new_date (MAXYEAR + 1) m d = Raise ValueError.
Proof. reflexivity. Qed.

Lemma first_of_month_valid y m :
  1 <= y <= 9999 -> 1 <= m <= 12 -> check_date_fields y m 1 = true.
Proof.
  intros Hy Hm. apply check_date_fields_true.
  pose proof (days_in_month_bounds y m Hm). lia.
Qed.

Lemma last_of_month_valid y m :
  1 <= y <= 9999 -> 1 <= m <= 12 ->
  check_date_fields y m (_days_in_month y m) = true.
Proof.
  intros Hy Hm. apply check_date_fields_true.
  pose proof (days_in_month_bounds y m Hm). lia.
Qed.

(** From a first month [m], the range that ends with month [m'], through the
    first day of the period after it. *)
Lemma range_through_next_first y m m' :
  1 <= y <= 9999 -> 1 <= m <= 12 -> 1 <= m' <= 12 ->
  (let* start := new_date y m 1 in
   let* next_start :=
     if m' =? 12 then new_date (y + 1) 1 1 else new_date y (m' + 1) 1 in
   let* end_ := date_sub_days next_start 1 in
   Ok (start, end_))
  = if (m' =? 12) && (y =? MAXYEAR) then Raise ValueError
    else Ok (mkdate y m 1, mkdate y m' (_days_in_month y m')).
Proof.
  intros Hy Hm Hm'.
  rewrite (new_date_ok y m 1) by (apply first_of_month_valid; assumption).
  cbn [bindR].
  destruct (Z.eqb_spec m' 12) as [-> | N12].
  - destruct (Z.eqb_spec y MAXYEAR) as [-> | NY]; [reflexivity |].
    unfold MAXYEAR in NY. cbn [andb].
    rewrite (new_date_ok (y + 1) 1 1)
      by (apply first_of_month_valid; lia).
    cbn [bindR].
    rewrite (date_sub_one_day (y + 1) 1 1 y 12 31).
    + reflexivity.
    + apply ordinal_before_next_year.
    + apply (last_of_month_valid y 12); lia.
  - cbn [andb].
    rewrite (new_date_ok y (m' + 1) 1)
      by (apply first_of_month_valid; lia).
    cbn [bindR].
    rewrite (date_sub_one_day y (m' + 1) 1 y m' (_days_in_month y m')).
    + reflexivity.
    + apply ordinal_before_next_month. lia.
    + apply last_of_month_valid; assumption.
Qed.

(** For every valid reference date [_compute_date_range] returns the
    specified range, except that it raises ValueError when the period is
    the last one of year 9999 (and the granularity is not DAY). *)
Lemma compute_date_range_characterised ref g :
  valid_date ref ->
  _compute_date_range ref g =
  if ends_with_MAXYEAR ref g then Raise ValueError
  else Ok (specified_range ref g).
Proof.
  intros Hv. destruct ref as [y m d]. unfold valid_date in Hv. simpl in Hv.
  apply check_date_fields_true in Hv. destruct Hv as (Hy & Hm & Hd).
  destruct g; unfold _compute_date_range, ends_with_MAXYEAR, specified_range;
    cbn [year month day].
  - reflexivity.
  - apply range_through_next_first; assumption.
  - set (q := (m - 1) / 3 + 1).
    assert (Hq : 1 <= q <= 4) by (subst q; Z.div_mod_to_equations; lia).
    pose proof (range_through_next_first y (3 * (q - 1) + 1) (3 * q) Hy)
      as H.
    replace (3 * q + 1) with (3 * (q - 1) + 1 + 3) in H by lia.
    replace (3 * q =? 12) with (q =? 4) in H
      by (destruct (Z.eqb_spec q 4), (Z.eqb_spec (3 * q) 12); lia).
    apply H; lia.
  - pose proof (range_through_next_first y 1 12 Hy) as H.
    specialize (H ltac:(lia) ltac:(lia)).
    change (12 =? 12) with true in H. cbn [andb] in H.
    change (_days_in_month y 12) with 31 in H.
    exact H.
Qed.

Lemma compute_date_range_before_MAXYEAR ref g :
  valid_date ref -> year ref < MAXYEAR ->
  _compute_date_range ref g = Ok (specified_range ref g).
Proof.
  intros Hv Hy. rewrite compute_date_range_characterised by assumption.
  replace (ends_with_MAXYEAR ref g) with false; [reflexivity |].
  unfold ends_with_MAXYEAR.
  assert (E : (year ref =? MAXYEAR) = false) by (apply Z.eqb_neq; lia).
  destruct g; rewrite ?E, ?andb_false_r; reflexivity.
Qed.

Lemma compute_date_range_before_MAXYEAR_witness :
  _compute_date_range (mkdate 2024 2 10) MONTH
  = Ok (mkdate 2024 2 1, mkdate 2024 2 29).
Proof.
  apply (compute_date_range_before_MAXYEAR (mkdate 2024 2 10) MONTH);
    [reflexivity | unfold MAXYEAR; simpl; lia].
Defined.

(** C3.  The specification asks, for every reference date, the first to the
    last day of its month, quarter or year.  For the valid reference date
    9999-12-15 the specified month range is 9999-12-01 .. 9999-12-31, two
    valid dates, but [_compute_date_range] builds [date(10000, 1, 1)] on the
    way and raises ValueError; the same happens for QUARTER and YEAR, while
    DAY returns its range. *)
Theorem compute_date_range_fails_in_december_9999 :
  let ref := mkdate 9999 12 15 in
  valid_date ref /\
  specified_range ref MONTH = (mkdate 9999 12 1, mkdate 9999 12 31) /\
  valid_date (mkdate 9999 12 1) /\ valid_date (mkdate 9999 12 31) /\
  _compute_date_range ref MONTH = Raise ValueError /\
  _compute_date_range ref QUARTER = Raise ValueError /\
  _compute_date_range ref YEAR = Raise ValueError /\
  _compute_date_range ref DAY = Ok (ref, ref).
Proof.
  cbv zeta. unfold valid_date. repeat split; vm_compute; reflexivity.
Qed.

(* ===================================================================== *)
(** ** gcs_client.py: the guards of [load_sales_parquet] *)
(* ===================================================================== *)

(** C10.  When [end_date] is strictly before [start_date],
    [load_sales_parquet] raises ValueError and has done nothing before: its
    trace is empty, whatever [max_files] is (an integer or None). *)
Theorem load_sales_parquet_end_before_start
    (W : World) (project bucket : string) (start_date end_date : date)
    (max_files : option Z) :
  date_ltb end_date start_date = true ->
  load_sales_parquet W project bucket start_date end_date max_files
  = ([], Raise ValueError).
Proof.
  intros Hlt. unfold load_sales_parquet. rewrite Hlt. reflexivity.
Qed.

Lemma load_sales_parquet_end_before_start_witness :
  date_ltb (mkdate 2025 1 9) (mkdate 2025 1 10) = true /\
  load_sales_parquet quiet_world "p" "b" (mkdate 2025 1 10) (mkdate 2025 1 9)
    None = ([], Raise ValueError) /\
  load_sales_parquet quiet_world "p" "b" (mkdate 2025 1 10) (mkdate 2025 1 9)
    (Some (-5)) = ([], Raise ValueError).
Proof.
  split; [reflexivity |].
  split; apply load_sales_parquet_end_before_start; reflexivity.
Defined.

Lemma load_sales_parquet_over_bound
    (W : World) (project bucket : string) (start_date end_date : date)
    (max_files : Z) :
  date_ltb end_date start_date = false ->
  max_files < days_between start_date end_date + 1 ->
  load_sales_parquet W project bucket start_date end_date (Some max_files)
  = ([Log ERROR], Raise TooManyFilesError).
Proof.
  intros Hle Hmany. unfold load_sales_parquet. rewrite Hle.
  apply Z.ltb_lt in Hmany. rewrite Hmany. reflexivity.
Qed.

(** C1.  For a date range [start_date .. end_date] (the end not before the
    start) and an integer bound [max_files], when
    [num_days = (end_date - start_date).days + 1] exceeds the bound,
    [load_sales_parquet] raises TooManyFilesError, a subclass of
    DataLoadError, and its whole trace is the one error log record: no
    storage client, no bucket handle, no download and no listing. *)
Theorem load_sales_parquet_too_many_files
    (W : World) (project bucket : string) (start_date end_date : date)
    (max_files : Z) :
  date_ltb end_date start_date = false ->
  max_files < days_between start_date end_date + 1 ->
  let run :=
    load_sales_parquet W project bucket start_date end_date (Some max_files)
  in
  outcome run = Raise TooManyFilesError /\
  issubclass TooManyFilesError DataLoadError = true /\
  trace run = [Log ERROR] /\
  filter is_fetch (trace run) = [].
Proof.
  intros Hle Hmany. cbv zeta.
  rewrite load_sales_parquet_over_bound by assumption.
  repeat split.
Qed.

(** The scenario of the specification: a bound of 500 files and a range of
    501 days. *)
Lemma load_sales_parquet_too_many_files_witness :
  days_between (mkdate 2025 1 1) (mkdate 2026 5 16) + 1 = 501 /\
  let run :=
    load_sales_parquet quiet_world "p" "b" (mkdate 2025 1 1)
      (mkdate 2026 5 16) (Some 500) in
  outcome run = Raise TooManyFilesError /\
  issubclass TooManyFilesError DataLoadError = true /\
  trace run = [Log ERROR] /\
  filter is_fetch (trace run) = [].
Proof.
  split; [reflexivity |].
  apply (load_sales_parquet_too_many_files quiet_world "p" "b"
           (mkdate 2025 1 1) (mkdate 2026 5 16) 500).
  - reflexivity.
  - vm_compute. reflexivity.
Defined.

(** With a bound that the range respects, the loader does reach the store:
    the guard is what keeps the trace free of fetches. *)
Lemma load_sales_parquet_within_bound_fetches :
  trace (load_sales_parquet quiet_world "p" "b" (mkdate 2025 1 1)
           (mkdate 2025 1 1) (Some 500))
  = [Log INFO; StorageClient "p"; BucketHandle "b"; Log DEBUG;
     DownloadAsBytes "sales_2025-01-01.parquet"; Log WARNING;
     Log INFO; ListBlobs "sales_"; Log INFO; Log WARNING].
Proof. vm_compute. reflexivity. Qed.

Lemma specified_range_well_formed ref g :
  valid_date ref ->
  date_ltb (snd (specified_range ref g)) (fst (specified_range ref g)) = false.
Proof.
  intros Hv. destruct ref as [y m d]. unfold valid_date in Hv.
  cbn [year month day] in Hv.
  apply check_date_fields_true in Hv. destruct Hv as (Hy & Hm & Hd).
  pose proof (days_in_month_bounds y m Hm) as Hdim.
  assert (Hq : 1 <= (m - 1) / 3 + 1 <= 4) by (Z.div_mod_to_equations; lia).
  pose proof (days_in_month_bounds y (3 * ((m - 1) / 3 + 1)) ltac:(lia))
    as Hdimq.
  destruct g; unfold specified_range, date_ltb; cbv zeta;
    cbn [fst snd year month day];
    repeat match goal with
           | |- context [?a <? ?b] => destruct (Z.ltb_spec a b)
           | |- context [?a =? ?b] => destruct (Z.eqb_spec a b)
           end; cbn [orb andb]; try reflexivity; lia.
Qed.

(** Every range that [_compute_date_range] returns has its end on or after
    its start, so the pipeline calls the loader with a well-formed range. *)
Lemma compute_date_range_well_formed ref g start_date end_date :
  valid_date ref ->
  _compute_date_range ref g = Ok (start_date, end_date) ->
  date_ltb end_date start_date = false.
Proof.
  intros Hv. rewrite compute_date_range_characterised by exact Hv.
  destruct (ends_with_MAXYEAR ref g); [discriminate |].
  intros H. injection H as H.
  pose proof (specified_range_well_formed ref g Hv) as Hwf.
  rewrite H in Hwf. exact Hwf.
Qed.

(** In a run: a year of daily files against a bound of 300 stops the
    pipeline with TooManyFilesError before anything is fetched. *)
Example run_over_a_year_with_a_small_bound :
  let config := mkconfig "dummy-project" (mkdate 2025 1 10) YEAR
                  "bm_mock_data" "products" "bm_mock_sales" None None
                  "data/export" "parquet" 300 in
  outcome (run_pipeline january_world config) = Raise TooManyFilesError /\
  filter is_fetch (trace (run_pipeline january_world config)) = [].
Proof. cbv zeta. split; vm_compute; reflexivity. Qed.

(* ===================================================================== *)
(** ** The order of dates and the order of their ordinals *)
(* ===================================================================== *)

Lemma days_before_year_monotone y1 y2 :
  y1 <= y2 -> _days_before_year y1 <= _days_before_year y2.
Proof.
  intros H. unfold _days_before_year. Z.div_mod_to_equations. lia.
Qed.

Lemma days_before_month_next y m :
  1 <= m < 12 ->
  _days_before_month y (m + 1) = _days_before_month y m + _days_in_month y m.
Proof.
  intros Hm. unfold _days_before_month, _days_in_month.
  assert (Hm' : 1 <= m <= 12) by lia.
  each_month Hm'; try lia; destruct (_is_leap y); simpl; lia.
Qed.

Lemma days_before_month_monotone y m1 m2 :
  1 <= m1 -> m1 <= m2 <= 12 ->
  _days_before_month y m1 <= _days_before_month y m2.
Proof.
  intros H1 H2. unfold _days_before_month.
  assert (Ha : 1 <= m1 <= 12) by lia. assert (Hb : 1 <= m2 <= 12) by lia.
  destruct (_is_leap y);
    each_month Ha; each_month Hb; try lia; simpl; lia.
Qed.

(** An earlier valid date has a smaller ordinal. *)
Lemma toordinal_increasing a b :
  valid_date a -> valid_date b -> date_ltb a b = true ->
  toordinal a < toordinal b.
Proof.
  destruct a as [ya ma da], b as [yb mb db].
  unfold valid_date, date_ltb, toordinal, _ymd2ord.
  cbn [year month day]. intros Ha Hb Hlt.
  apply check_date_fields_true in Ha. destruct Ha as (Hya & Hma & Hda).
  apply check_date_fields_true in Hb. destruct Hb as (Hyb & Hmb & Hdb).
  assert (Hend : _days_before_month ya ma + _days_in_month ya ma
                 <= 365 + (if _is_leap ya then 1 else 0)).
  { unfold _days_before_month, _days_in_month. clear Hda.
    each_month Hma; destruct (_is_leap ya); simpl; lia. }
  assert (Hstart : 0 <= _days_before_month yb mb).
  { unfold _days_before_month. clear Hdb.
    each_month Hmb; destruct (_is_leap yb); simpl; lia. }
  apply orb_true_iff in Hlt. destruct Hlt as [Hy | Hlt].
  - apply Z.ltb_lt in Hy.
    pose proof (days_before_next_year ya) as Hnext.
    pose proof (days_before_year_monotone (ya + 1) yb ltac:(lia)).
    lia.
  - apply andb_true_iff in Hlt. destruct Hlt as [Hy Hlt].
    apply Z.eqb_eq in Hy. subst yb.
    apply orb_true_iff in Hlt. destruct Hlt as [Hm | Hlt].
    + apply Z.ltb_lt in Hm.
      pose proof (days_before_month_next ya ma ltac:(lia)) as Hnext.
      pose proof (days_before_month_monotone ya (ma + 1) mb ltac:(lia)
                    ltac:(lia)).
      lia.
    + apply andb_true_iff in Hlt. destruct Hlt as [Hm Hd].
      apply Z.eqb_eq in Hm. apply Z.ltb_lt in Hd. subst mb. lia.
Qed.

(** So, between valid dates, a range with at least one day is a range whose
    end is not before its start, and a non-negative bound that a range
    exceeds stops the loader in the same way. *)
Lemma load_sales_parquet_over_nonnegative_bound
    (W : World) (project bucket : string) (start_date end_date : date)
    (max_files : Z) :
  valid_date start_date -> valid_date end_date ->
  0 <= max_files ->
  max_files < days_between start_date end_date + 1 ->
  load_sales_parquet W project bucket start_date end_date (Some max_files)
  = ([Log ERROR], Raise TooManyFilesError).
Proof.
  intros Hs He H0 Hmany. apply load_sales_parquet_over_bound; [| exact Hmany].
  destruct (date_ltb end_date start_date) eqn:E; [| reflexivity].
  pose proof (toordinal_increasing end_date start_date He Hs E).
  unfold days_between in Hmany. lia.
Qed.

(* ===================================================================== *)
(** ** Frames and series *)
(* ===================================================================== *)

Lemma assign_map {R A : Type} (set : R -> A -> R) (f : R -> A)
    (rows : list R) :
  assign set rows (map f rows) = map (fun r => set r (f r)) rows.
Proof.
  induction rows as [| r rows IH]; simpl; [reflexivity |].
  rewrite IH. reflexivity.
Qed.

Lemma series_and_map {R : Type} (p q : R -> bool) (rows : list R) :
  series_and (map p rows) (map q rows) = map (fun r => p r && q r) rows.
Proof.
  induction rows as [| r rows IH]; simpl; [reflexivity |].
  rewrite IH. reflexivity.
Qed.

(** Selecting by a mask computed row by row is filtering. *)
Lemma loc_map_filter {R S : Type} (f : R -> S) (p : R -> bool)
    (rows : list R) :
  loc (map f rows) (map p rows) = map f (filter p rows).
Proof.
  induction rows as [| r rows IH]; simpl; [reflexivity |].
  destruct (p r); simpl; rewrite IH; reflexivity.
Qed.

Lemma loc_filter {R : Type} (p : R -> bool) (rows : list R) :
  loc rows (map p rows) = filter p rows.
Proof.
  rewrite <- (map_id rows) at 1. rewrite loc_map_filter. apply map_id.
Qed.

Lemma empty_with_columns {R : Type} (df : DataFrame R) :
  columns df <> [] -> empty df = match data df with [] => true | _ => false end.
Proof.
  intros Hc. unfold empty.
  destruct (columns df); [congruence |].
  destruct (data df); reflexivity.
Qed.

Lemma has_column_columns {R : Type} name (df : DataFrame R) :
  has_column name df = true -> columns df <> [].
Proof.
  unfold has_column. destruct (columns df); [discriminate | congruence].
Qed.

(* ===================================================================== *)
(** ** filters.py: [filter_sales_by_date] *)
(* ===================================================================== *)

Lemma to_utc_idempotent t : to_utc (to_utc t) = to_utc t.
Proof. reflexivity. Qed.

Lemma utc_sale_idempotent s : utc_sale (utc_sale s) = utc_sale s.
Proof.
  unfold utc_sale, set_sold_at. simpl.
  destruct (s_sold_at s); reflexivity.
Qed.

Lemma sold_in_period_utc_sale ref g s :
  sold_in_period ref g (utc_sale s) = sold_in_period ref g s.
Proof.
  unfold sold_in_period, utc_sale, set_sold_at. simpl.
  destruct (s_sold_at s); reflexivity.
Qed.

(** The mask that the source builds column by column is, row by row, the
    period test on the normalized timestamp. *)
Lemma period_mask ref g (rows : list Sale) :
  let sold_at := map s_sold_at (map utc_sale rows) in
  match g with
  | DAY => series_eq date_eqb (dt_date sold_at) ref
  | MONTH =>
      series_and (series_eq Z.eqb (dt_year sold_at) (year ref))
                 (series_eq Z.eqb (dt_month sold_at) (month ref))
  | QUARTER =>
      series_and (series_eq Z.eqb (dt_year sold_at) (year ref))
                 (series_eq Z.eqb
                    (map (option_map (fun m => (m - 1) / 3 + 1))
                         (dt_month sold_at))
                    ((month ref - 1) / 3 + 1))
  | YEAR => series_eq Z.eqb (dt_year sold_at) (year ref)
  end
  = map (sold_in_period ref g) rows.
Proof.
  cbv zeta.
  unfold series_eq, dt_date, dt_year, dt_month.
  destruct g; rewrite ?map_map, ?series_and_map;
    apply map_ext; intros s;
    unfold sold_in_period, utc_sale, set_sold_at, in_reference_period;
    simpl; destruct (s_sold_at s); reflexivity.
Qed.

(** What [filter_sales_by_date] returns, in every case. *)
Lemma filter_sales_by_date_characterised df ref g :
  filter_sales_by_date df ref g =
  if empty df then Ok df
  else if has_column "sold_at" df then
    Ok (mkframe (columns df)
                (map utc_sale (filter (sold_in_period ref g) (data df))))
  else Raise KeyError.
Proof.
  unfold filter_sales_by_date, getitem.
  destruct (empty df); [reflexivity |].
  destruct (has_column "sold_at" df); [| reflexivity].
  cbn [bindR data columns]. unfold to_datetime_utc.
  rewrite map_map.
  rewrite (assign_map set_sold_at
             (fun s => option_map to_utc (s_sold_at s)) (data df)).
  change (map (fun r => set_sold_at r (option_map to_utc (s_sold_at r)))
              (data df)) with (map utc_sale (data df)).
  f_equal. f_equal.
  pose proof (period_mask ref g (data df)) as Hmask. cbv zeta in Hmask.
  destruct g; rewrite Hmask; apply loc_map_filter.
Qed.

Lemma filter_sales_by_date_rows df ref g :
  has_column "sold_at" df = true ->
  filter_sales_by_date df ref g =
  Ok (mkframe (columns df)
              (map utc_sale (filter (sold_in_period ref g) (data df)))).
Proof.
  intros Hcol. rewrite filter_sales_by_date_characterised, Hcol.
  rewrite empty_with_columns by (eapply has_column_columns; eassumption).
  destruct df as [cols rows]. simpl. destruct rows; reflexivity.
Qed.

(** C6.  On a sales table (one with a [sold_at] column) the filter returns
    the table of exactly the rows whose UTC-normalized [sold_at] falls in
    the reference period, in their original relative order, each with its
    [sold_at] normalized.  For the sales of 2025-01-10T10:00Z and
    2025-01-31T23:59Z: the reference date 2025-01-05 with MONTH keeps both,
    the reference date 2025-01-10 with DAY keeps only the first. *)
Theorem filter_sales_by_date_keeps_the_period :
  (forall (df : DataFrame Sale) (ref : date) (g : TimeGranularity),
      has_column "sold_at" df = true ->
      filter_sales_by_date df ref g =
      Ok (mkframe (columns df)
                  (map utc_sale (filter (sold_in_period ref g) (data df)))))
  /\ filter_sales_by_date january_sales (mkdate 2025 1 5) MONTH
     = Ok (mkframe sales_columns [sale_jan10; sale_jan31])
  /\ filter_sales_by_date january_sales (mkdate 2025 1 10) DAY
     = Ok (mkframe sales_columns [sale_jan10]).
Proof.
  split; [exact filter_sales_by_date_rows |].
  split; vm_compute; reflexivity.
Qed.

Lemma filter_sales_by_date_keeps_the_period_witness :
  has_column "sold_at" january_sales = true /\
  filter_sales_by_date january_sales (mkdate 2025 1 5) QUARTER =
  Ok (mkframe (columns january_sales)
        (map utc_sale
           (filter (sold_in_period (mkdate 2025 1 5) QUARTER)
                   (data january_sales)))).
Proof.
  split; [reflexivity |].
  apply (proj1 filter_sales_by_date_keeps_the_period). reflexivity.
Defined.

Lemma filter_map_commute {A : Type} (p : A -> bool) (f : A -> A)
    (l : list A) :
  (forall x, p (f x) = p x) ->
  filter p (map f l) = map f (filter p l).
Proof.
  intros Hp. induction l as [| x l IH]; simpl; [reflexivity |].
  rewrite Hp. destruct (p x); simpl; rewrite IH; reflexivity.
Qed.

Lemma filter_filter {A : Type} (p : A -> bool) (l : list A) :
  filter p (filter p l) = filter p l.
Proof.
  induction l as [| x l IH]; simpl; [reflexivity |].
  destruct (p x) eqn:E; simpl; rewrite ?E, IH; reflexivity.
Qed.

(** C7.  Filtering the output of the filter again, with the same reference
    date and granularity, gives what filtering once gave (also when the
    table has no [sold_at] column: the one KeyError). *)
Theorem filter_sales_by_date_idempotent
    (df : DataFrame Sale) (ref : date) (g : TimeGranularity) :
  (let* once := filter_sales_by_date df ref g in
   filter_sales_by_date once ref g)
  = filter_sales_by_date df ref g.
Proof.
  rewrite (filter_sales_by_date_characterised df).
  destruct (empty df) eqn:Eempty.
  - cbn [bindR]. rewrite filter_sales_by_date_characterised, Eempty.
    reflexivity.
  - destruct (has_column "sold_at" df) eqn:Ecol; [| reflexivity].
    cbn [bindR]. rewrite filter_sales_by_date_rows by exact Ecol.
    cbn [columns data].
    rewrite filter_map_commute by (intro; apply sold_in_period_utc_sale).
    rewrite filter_filter, map_map.
    do 2 f_equal. apply map_ext. intro s. apply utc_sale_idempotent.
Qed.

(** The filter does return a table whenever it is given a sales table, so
    the idempotence above is about tables, not only about errors. *)
Lemma filter_sales_by_date_returns df ref g :
  has_column "sold_at" df = true ->
  exists out, filter_sales_by_date df ref g = Ok out.
Proof.
  intros Hcol. eexists. apply filter_sales_by_date_rows. exact Hcol.
Qed.

(** The period is read in UTC: a sale at 23:30 on January 10 in a zone five
    hours behind UTC is a sale of January 11. *)
Example filter_reads_the_utc_date :
  let late :=
    mksale (Some "A") None (Some 1)
      (Some (mkts (value (utc_timestamp 2025 1 11 4 30 0))
                  (Some (FixedOffset (-300)))))
      (Some "O1") in
  ts_date (mkts (value (utc_timestamp 2025 1 11 4 30 0))
                (Some (FixedOffset (-300)))) = mkdate 2025 1 10 /\
  option_map data
    (match filter_sales_by_date (mkframe sales_columns [late])
             (mkdate 2025 1 10) DAY with
     | Ok out => Some out | Raise _ => None end) = Some [] /\
  option_map (fun out => List.length (data out))
    (match filter_sales_by_date (mkframe sales_columns [late])
             (mkdate 2025 1 11) DAY with
     | Ok out => Some out | Raise _ => None end) = Some 1%nat.
Proof. cbv zeta. repeat split; vm_compute; reflexivity. Qed.

(* ===================================================================== *)
(** ** pipeline.py: deduplication of the catalog *)
(* ===================================================================== *)

Lemma key_eqb_eq a b : key_eqb a b = true <-> a = b.
Proof.
  destruct a as [x |], b as [y |]; simpl; try (split; congruence).
  rewrite String.eqb_eq. split; congruence.
Qed.

Lemma key_eqb_refl a : key_eqb a a = true.
Proof. apply key_eqb_eq. reflexivity. Qed.

Lemma key_eqb_neq a b : key_eqb a b = false <-> a <> b.
Proof.
  rewrite <- key_eqb_eq. destruct (key_eqb a b); split; congruence.
Qed.

Lemma existsb_key_false k (keys : list (option string)) :
  existsb (key_eqb k) keys = false <-> ~ In k keys.
Proof.
  split.
  - intros H Hin. assert (E : existsb (key_eqb k) keys = true).
    { apply existsb_exists. exists k. split; [exact Hin | apply key_eqb_refl]. }
    congruence.
  - intros H. destruct (existsb (key_eqb k) keys) eqn:E; [| reflexivity].
    apply existsb_exists in E. destruct E as (k' & Hin & Hk).
    apply key_eqb_eq in Hk. subst k'. contradiction.
Qed.

Lemma is_unique_NoDup keys : is_unique keys = true <-> NoDup keys.
Proof.
  induction keys as [| k keys IH]; simpl.
  - split; [constructor | reflexivity].
  - rewrite andb_true_iff, negb_true_iff, existsb_key_false, IH.
    split.
    + intros [H1 H2]. constructor; assumption.
    + intros H. inversion H; subst. split; assumption.
Qed.

(** [drop_duplicates_keep_last], one row at a time. *)
Lemma drop_duplicates_keep_last_cons p rows :
  drop_duplicates_keep_last (p :: rows) =
  if existsb (key_eqb (p_product_id p)) (map p_product_id rows)
  then drop_duplicates_keep_last rows
  else p :: drop_duplicates_keep_last rows.
Proof.
  unfold drop_duplicates_keep_last. simpl.
  destruct (existsb (key_eqb (p_product_id p)) (map p_product_id rows));
    reflexivity.
Qed.

Lemma drop_duplicates_keep_last_incl rows q :
  In q (drop_duplicates_keep_last rows) -> In q rows.
Proof.
  induction rows as [| p rows IH]; [intros [] |].
  rewrite drop_duplicates_keep_last_cons.
  destruct (existsb _ _); simpl; intuition.
Qed.

Lemma drop_duplicates_keep_last_unique rows :
  NoDup (map p_product_id (drop_duplicates_keep_last rows)).
Proof.
  induction rows as [| p rows IH]; [constructor |].
  rewrite drop_duplicates_keep_last_cons.
  destruct (existsb _ _) eqn:E; [exact IH |].
  simpl. constructor; [| exact IH].
  apply existsb_key_false in E. intro Hin. apply E.
  apply in_map_iff in Hin. destruct Hin as (q & Hq & Hin).
  apply in_map_iff. exists q. split; [exact Hq |].
  apply drop_duplicates_keep_last_incl. exact Hin.
Qed.

Lemma drop_duplicates_keep_last_sorted (R : Product -> Product -> Prop) rows :
  StronglySorted R rows -> StronglySorted R (drop_duplicates_keep_last rows).
Proof.
  induction 1 as [| p rows Hs IH Hall]; [constructor |].
  rewrite drop_duplicates_keep_last_cons.
  destruct (existsb _ _); [exact IH |].
  constructor; [exact IH |].
  rewrite Forall_forall in *. intros q Hq. apply Hall.
  apply drop_duplicates_keep_last_incl. exact Hq.
Qed.

Lemma filter_none {A : Type} (f : A -> bool) (l : list A) :
  (forall x, In x l -> f x = false) -> filter f l = [].
Proof.
  induction l as [| x l IH]; simpl; [reflexivity |].
  intros H. rewrite (H x) by (left; reflexivity).
  apply IH. intros y Hy. apply H. right. exact Hy.
Qed.

(** Of the rows with a given product_id, the one that survives is the last
    one of the list. *)
Lemma drop_duplicates_keep_last_survivor k rows :
  In k (map p_product_id rows) ->
  exists before last after,
    rows = before ++ last :: after /\
    p_product_id last = k /\
    (forall q, In q after -> p_product_id q <> k) /\
    filter (fun q => key_eqb (p_product_id q) k)
           (drop_duplicates_keep_last rows) = [last].
Proof.
  induction rows as [| p rows IH]; [intros [] |].
  intros Hin. rewrite drop_duplicates_keep_last_cons.
  assert (Hdec : In k (map p_product_id rows)
                 \/ ~ In k (map p_product_id rows)).
  { destruct (existsb (key_eqb k) (map p_product_id rows)) eqn:E.
    - left. apply existsb_exists in E. destruct E as (k' & Hk' & E).
      apply key_eqb_eq in E. subst k'. exact Hk'.
    - right. apply existsb_key_false. exact E. }
  destruct Hdec as [Hlater | Hnot].
  - destruct (IH Hlater) as (before & last & after & -> & Hk & Hafter & Hf).
    exists (p :: before), last, after.
    split; [reflexivity |]. split; [exact Hk |]. split; [exact Hafter |].
    destruct (existsb _ _) eqn:E; [exact Hf |].
    simpl. destruct (key_eqb (p_product_id p) k) eqn:Ek; [| exact Hf].
    apply key_eqb_eq in Ek.
    apply existsb_key_false in E. exfalso. apply E.
    rewrite map_app. apply in_or_app. right. left. congruence.
  - destruct Hin as [Hp | Hin]; [| contradiction].
    exists [], p, rows.
    split; [reflexivity |]. split; [exact Hp |].
    split.
    + intros q Hq Hk. apply Hnot. apply in_map_iff. exists q. auto.
    + subst k. apply existsb_key_false in Hnot. rewrite Hnot.
      simpl. rewrite key_eqb_refl. f_equal.
      apply filter_none. intros q Hq. apply key_eqb_neq. intro Hk.
      apply existsb_key_false in Hnot. apply Hnot.
      apply in_map_iff. exists q. split; [exact Hk |].
      apply drop_duplicates_keep_last_incl. exact Hq.
Qed.

Lemma deduplicate_products_run W products_df :
  has_column "product_id" products_df = true ->
  deduplicate_products W products_df =
  if is_unique (map p_product_id (data products_df))
  then ([], Ok products_df)
  else ([Log WARNING],
        Ok (mkframe (columns products_df)
              (drop_duplicates_keep_last
                 (sort_values_product_id W (data products_df))))).
Proof.
  intros Hcol. unfold deduplicate_products, getitem. rewrite Hcol.
  unfold lift, bind.
  destruct (is_unique (map p_product_id (data products_df))); reflexivity.
Qed.

(** C4.  For a catalog with duplicate product_id values, whose sort by
    product_id gives a permutation of it in ascending order: deduplication
    returns a table with one row per product_id, in ascending order, made of
    rows of the catalog, and for every product_id of the catalog the row
    kept is the last row with that product_id in the sorted order. *)
Theorem deduplicate_products_keeps_last_in_sorted_order
    (W : World) (products_df : DataFrame Product) :
  has_column "product_id" products_df = true ->
  is_unique (map p_product_id (data products_df)) = false ->
  Permutation (sort_values_product_id W (data products_df))
              (data products_df) ->
  StronglySorted ascending_product_id
                 (sort_values_product_id W (data products_df)) ->
  exists out,
    deduplicate_products W products_df = ([Log WARNING], Ok out) /\
    columns out = columns products_df /\
    NoDup (map p_product_id (data out)) /\
    StronglySorted ascending_product_id (data out) /\
    (forall q, In q (data out) -> In q (data products_df)) /\
    (forall p, In p (data products_df) ->
       exists before last after,
         sort_values_product_id W (data products_df)
         = before ++ last :: after /\
         p_product_id last = p_product_id p /\
         (forall q, In q after -> p_product_id q <> p_product_id p) /\
         filter (fun q => key_eqb (p_product_id q) (p_product_id p))
                (data out) = [last]).
Proof.
  intros Hcol Hdup Hperm Hsorted.
  eexists. split.
  { rewrite deduplicate_products_run by exact Hcol. rewrite Hdup.
    reflexivity. }
  cbn [columns data].
  split; [reflexivity |].
  split; [apply drop_duplicates_keep_last_unique |].
  split; [apply drop_duplicates_keep_last_sorted; exact Hsorted |].
  split.
  - intros q Hq. apply (Permutation_in _ Hperm).
    apply drop_duplicates_keep_last_incl. exact Hq.
  - intros p Hp. apply drop_duplicates_keep_last_survivor.
    apply in_map. apply (Permutation_in _ (Permutation_sym Hperm)).
    exact Hp.
Qed.

(** The scenario of the specification: of the two rows with product_id "A",
    one survives, the one that comes last in the sorted order. *)
Lemma deduplicate_products_keeps_last_in_sorted_order_witness :
  sort_values_product_id quiet_world (data catalog_with_two_A)
  = [product_A_first; product_A_second; product_B] /\
  exists out,
    deduplicate_products quiet_world catalog_with_two_A
    = ([Log WARNING], Ok out) /\
    filter (fun q => key_eqb (p_product_id q) (Some "A")) (data out)
    = [product_A_second].
Proof.
  split; [reflexivity |].
  destruct (deduplicate_products_keeps_last_in_sorted_order
              quiet_world catalog_with_two_A) as (out & Hrun & _).
  - reflexivity.
  - reflexivity.
  - apply perm_skip. apply perm_swap.
  - repeat constructor.
  - exists out. split; [exact Hrun |].
    vm_compute in Hrun. inversion Hrun. reflexivity.
Defined.

(** Last in the sorted order is not last loaded: where the sort reverses
    the rows of equal product_id, the row kept for "A" is the one loaded
    first. *)
Example deduplication_may_keep_the_first_loaded :
  sort_values_product_id tie_reversing_world (data catalog_with_two_A)
  = [product_A_second; product_A_first; product_B] /\
  outcome (deduplicate_products tie_reversing_world catalog_with_two_A)
  = Ok (mkframe required_cols [product_A_first; product_B]).
Proof. split; vm_compute; reflexivity. Qed.

(** Whatever the sort does, the catalog has unique product_ids after the
    deduplication step. *)
Lemma deduplicate_products_unique W products_df :
  has_column "product_id" products_df = true ->
  exists out,
    outcome (deduplicate_products W products_df) = Ok out /\
    columns out = columns products_df /\
    NoDup (map p_product_id (data out)).
Proof.
  intros Hcol. rewrite deduplicate_products_run by exact Hcol.
  destruct (is_unique (map p_product_id (data products_df))) eqn:E.
  - exists products_df. repeat split. apply is_unique_NoDup. exact E.
  - eexists. split; [reflexivity |]. split; [reflexivity |].
    apply drop_duplicates_keep_last_unique.
Qed.

(* ===================================================================== *)
(** ** pipeline.py: the join *)
(* ===================================================================== *)

(** In a catalog of unique product_ids a sale matches the one row that
    [find] returns, or none. *)
Lemma matches_of_unique_catalog (catalog : list Product) (k : option string) :
  NoDup (map p_product_id catalog) ->
  filter (fun p => key_eqb (p_product_id p) k) catalog =
  match find (fun p => key_eqb (p_product_id p) k) catalog with
  | Some p => [p]
  | None => []
  end.
Proof.
  induction catalog as [| p catalog IH]; simpl; [reflexivity |].
  intros Hnd. inversion Hnd as [| ? ? Hnotin Hnd']; subst.
  destruct (key_eqb (p_product_id p) k) eqn:E.
  - f_equal. apply filter_none. intros q Hq. apply key_eqb_neq.
    apply key_eqb_eq in E. subst k. intro Hk. apply Hnotin.
    apply in_map_iff. exists q. auto.
  - apply IH. exact Hnd'.
Qed.

Lemma flat_map_singleton {A B : Type} (f : A -> list B) (g : A -> B)
    (l : list A) :
  (forall x, f x = [g x]) -> flat_map f l = map g l.
Proof.
  intros H. induction l as [| x l IH]; simpl; [reflexivity |].
  rewrite H, IH. reflexivity.
Qed.

Lemma left_join_rows_unique (left : list Sale) (catalog : list Product) :
  NoDup (map p_product_id catalog) ->
  left_join_rows left catalog
  = map (fun s => merge_row s (catalog_row catalog s)) left.
Proof.
  intros Hnd. unfold left_join_rows, catalog_row.
  apply flat_map_singleton. intro s.
  rewrite (matches_of_unique_catalog catalog _ Hnd).
  destruct (find _ catalog); reflexivity.
Qed.

Lemma m_sale_merge_row s p : m_sale (merge_row s p) = s.
Proof. destruct p; reflexivity. Qed.

(** The join against a catalog of unique product_ids, in full. *)
Lemma merge_unique_catalog
    (sales_df : DataFrame Sale) (products_df : DataFrame Product) :
  has_column "product_id" sales_df = true ->
  has_column "product_id" products_df = true ->
  NoDup (map p_product_id (data products_df)) ->
  merge sales_df products_df
  = Ok (mkframe
          (columns sales_df
           ++ filter (fun c => negb (String.eqb c "product_id"))
                     (columns products_df))
          (map (fun s => merge_row s (catalog_row (data products_df) s))
               (data sales_df))).
Proof.
  intros Hl Hr Hnd. unfold merge. rewrite Hl, Hr. cbn [andb negb].
  apply is_unique_NoDup in Hnd as Hu. rewrite Hu. cbn [negb].
  rewrite left_join_rows_unique by exact Hnd. reflexivity.
Qed.

(** C5.  Joined with a catalog of unique product_ids, the left join returns
    one row for each row of the sales table, in the same order: the sale
    with the fields of the catalog row of its product_id, or with missing
    product fields when the catalog has none.  So the joined table has as
    many rows as the sales table.  (This needs neither a non-empty table
    nor non-null product_ids.) *)
Theorem merge_keeps_every_sale_once
    (sales_df : DataFrame Sale) (products_df : DataFrame Product) :
  has_column "product_id" sales_df = true ->
  has_column "product_id" products_df = true ->
  NoDup (map p_product_id (data products_df)) ->
  exists merged_df,
    merge sales_df products_df = Ok merged_df /\
    List.length (data merged_df) = List.length (data sales_df) /\
    map m_sale (data merged_df) = data sales_df /\
    data merged_df
    = map (fun s => merge_row s (catalog_row (data products_df) s))
          (data sales_df).
Proof.
  intros Hl Hr Hnd. eexists.
  split; [apply merge_unique_catalog; assumption |]. cbn [data].
  split; [apply length_map |].
  split; [| reflexivity].
  rewrite map_map. rewrite <- (map_id (data sales_df)) at 2.
  apply map_ext. intro s. apply m_sale_merge_row.
Qed.

(** Two January sales against the catalog of the products "A" and "B"... *)
Lemma merge_keeps_every_sale_once_witness :
  exists merged_df,
    merge january_sales (mkframe required_cols [product_A_first; product_B])
    = Ok merged_df /\
    List.length (data merged_df) = 2%nat.
Proof.
  destruct (merge_keeps_every_sale_once january_sales
              (mkframe required_cols [product_A_first; product_B]))
    as (merged_df & Hmerge & Hlen & _).
  - reflexivity.
  - reflexivity.
  - simpl. repeat constructor; simpl; intuition discriminate.
  - exists merged_df. split; [exact Hmerge | exact Hlen].
Defined.

(** A sale of a product the catalog does not have is kept, with missing
    product fields. *)
Example merge_keeps_unmatched_sales :
  merge january_sales (mkframe required_cols [product_A_first])
  = Ok (mkframe
          ["product_id"; "price"; "quantity"; "sold_at"; "order_id";
           "product_name"; "category"; "brand"; "condition"]
          [mkmerged sale_jan10 (Some "Prod A") (Some "cat1") (Some "BrandX")
                    (Some "new");
           mkmerged sale_jan31 None None None None]).
Proof. vm_compute. reflexivity. Qed.

(** A catalog with a repeated product_id is refused by the join. *)
Example merge_refuses_duplicates :
  merge january_sales catalog_with_two_A = Raise MergeError.
Proof. vm_compute. reflexivity. Qed.

(** In the pipeline the join comes after the deduplication, so it cannot
    fail on the catalog, and it keeps the row count. *)
Lemma join_after_deduplication W sales_df products_df :
  has_column "product_id" sales_df = true ->
  has_column "product_id" products_df = true ->
  exists merged_df,
    outcome (products_df' <- deduplicate_products W products_df ;;
             lift (merge sales_df products_df')) = Ok merged_df /\
    List.length (data merged_df) = List.length (data sales_df).
Proof.
  intros Hl Hr.
  destruct (deduplicate_products_unique W products_df Hr)
    as (out & Hout & Hcols & Hnd).
  assert (Hr' : has_column "product_id" out = true).
  { unfold has_column in *. rewrite Hcols. exact Hr. }
  pose proof (merge_unique_catalog sales_df out Hl Hr' Hnd) as Hmerge.
  eexists. split.
  - unfold outcome, bind, lift in *.
    destruct (deduplicate_products W products_df) as [t r].
    simpl in Hout. subst r. rewrite Hmerge. reflexivity.
  - cbn [data]. apply length_map.
Qed.

(* ===================================================================== *)
(** ** pipeline.py: the brand and product_id filters *)
(* ===================================================================== *)

Lemma isin_map {R : Type} (field : R -> option string) (l : list string)
    (rows : list R) :
  isin (map field rows) l = map (fun r => passes (Some l) (field r)) rows.
Proof. unfold isin. rewrite map_map. reflexivity. Qed.

Lemma filter_filter_andb {A : Type} (p q : A -> bool) (l : list A) :
  filter q (filter p l) = filter (fun x => p x && q x) l.
Proof.
  induction l as [| x l IH]; simpl; [reflexivity |].
  destruct (p x); simpl; [destruct (q x) |]; rewrite IH; reflexivity.
Qed.

Lemma passes_truthy (allow : option (list string)) (v : option string) :
  allow <> Some [] ->
  passes allow v = if truthy allow then passes (Some (sequence_items allow)) v
                   else true.
Proof.
  intros H. destruct allow as [[| x l] |]; simpl; try reflexivity.
  congruence.
Qed.

Lemma passes_allowed (allow : option (list string)) (v : option string) :
  passes allow v = true <-> allowed allow v.
Proof.
  destruct allow as [l |]; simpl; [| tauto].
  destruct v as [x |].
  - rewrite existsb_exists. split.
    + intros (y & Hin & Hxy). apply String.eqb_eq in Hxy. subst y.
      exists x. auto.
    + intros (y & Hy & Hin). injection Hy as <-.
      exists x. split; [exact Hin | apply String.eqb_refl].
  - split; [discriminate | intros (y & Hy & _); discriminate].
Qed.

(** What the two filters do, whatever the configuration: a filter runs when
    its list is a non-empty sequence. *)
Lemma apply_business_filters_run config merged_df :
  has_column "brand" merged_df = true ->
  has_column "product_id" merged_df = true ->
  apply_business_filters config merged_df =
  ((if truthy (brands config) then [Log INFO] else [])
   ++ (if truthy (product_ids config) then [Log INFO] else []),
   Ok (mkframe (columns merged_df)
         (filter
            (fun r =>
               (if truthy (brands config)
                then passes (Some (sequence_items (brands config))) (m_brand r)
                else true)
               && (if truthy (product_ids config)
                   then passes (Some (sequence_items (product_ids config)))
                               (m_product_id r)
                   else true))
            (data merged_df)))).
Proof.
  intros Hb Hp. unfold apply_business_filters.
  destruct merged_df as [cols rows].
  destruct (truthy (brands config)); destruct (truthy (product_ids config));
    unfold getitem, has_column in *; cbn [columns data] in *;
    rewrite ?Hb, ?Hp; unfold bind, lift, emit, ret;
    cbn [app fst snd]; rewrite ?isin_map, ?loc_filter;
    unfold getitem, has_column; cbn [columns data]; rewrite ?Hp;
    cbn [app]; rewrite ?isin_map, ?loc_filter, ?filter_filter_andb;
    f_equal; f_equal; f_equal.
  - apply filter_ext. intro r. rewrite andb_true_r. reflexivity.
  - symmetry. rewrite <- (filter_ext (fun _ => true)).
    + clear. induction rows; simpl; congruence.
    + reflexivity.
Qed.

(** C8, as amended.  When each configured allow-list is non-empty, the
    filters keep exactly the joined rows that pass every configured list:
    with a brand list, the rows whose brand is a member of it, and never a
    row without brand; with a product-id list, the rows whose product_id is
    a member of it; with both, the rows that pass both. *)
Theorem business_filters_keep_the_allowed_rows
    (config : PipelineConfig) (merged_df : DataFrame Merged) :
  has_column "brand" merged_df = true ->
  has_column "product_id" merged_df = true ->
  brands config <> Some [] ->
  product_ids config <> Some [] ->
  keeps_exactly_the_allowed_rows config merged_df.
Proof.
  intros Hb Hp Hbrands Hids. unfold keeps_exactly_the_allowed_rows.
  rewrite apply_business_filters_run by assumption.
  eexists. split; [reflexivity |]. cbn [columns data].
  split; [reflexivity |].
  assert (E : forall r,
             (if truthy (brands config)
              then passes (Some (sequence_items (brands config))) (m_brand r)
              else true)
             && (if truthy (product_ids config)
                 then passes (Some (sequence_items (product_ids config)))
                             (m_product_id r)
                 else true)
             = passes (brands config) (m_brand r)
               && passes (product_ids config) (m_product_id r)).
  { intro r. rewrite <- !passes_truthy by assumption. reflexivity. }
  rewrite (filter_ext _ _ E).
  split; [reflexivity |].
  intro r. rewrite filter_In, andb_true_iff, !passes_allowed. tauto.
Qed.

(** The scenario of the specification: the brand list ["BrandX"] on rows of
    BrandX, of BrandY and without brand keeps the BrandX row only. *)
Lemma business_filters_keep_the_allowed_rows_witness :
  keeps_exactly_the_allowed_rows
    (set_brands (Some ["BrandX"]) day_config) joined_brands /\
  outcome (apply_business_filters (set_brands (Some ["BrandX"]) day_config)
             joined_brands)
  = Ok (mkframe merged_columns [merged_X]).
Proof.
  split.
  - apply (business_filters_keep_the_allowed_rows
             (set_brands (Some ["BrandX"]) day_config) joined_brands).
    + reflexivity.
    + reflexivity.
    + simpl. discriminate.
    + simpl. discriminate.
  - vm_compute. reflexivity.
Defined.

(** C8, as stated, fails when a configured allow-list is the empty list:
    no brand is a member of [[]], so no row should be kept, but the filter
    does not run and every row is kept. *)
Lemma empty_brand_list_keeps_every_row :
  has_column "brand" joined_brands = true /\
  has_column "product_id" joined_brands = true /\
  brands (set_brands (Some []) day_config) = Some [] /\
  outcome (apply_business_filters (set_brands (Some []) day_config)
             joined_brands) = Ok joined_brands /\
  ~ keeps_exactly_the_allowed_rows (set_brands (Some []) day_config)
      joined_brands.
Proof.
  repeat (split; [reflexivity |]).
  intros (out & Hout & _ & Hdata & _).
  vm_compute in Hout. injection Hout as <-.
  vm_compute in Hdata. discriminate Hdata.
Qed.

(** C9.  An allow-list that is the empty list is treated as an absent one:
    the filter of that list does not run, and when no other filter is
    configured every joined row is kept. *)
Theorem empty_allow_list_is_not_applied
    (config : PipelineConfig) (merged_df : DataFrame Merged) :
  (brands config = Some [] ->
   apply_business_filters config merged_df
   = apply_business_filters (set_brands None config) merged_df)
  /\ (product_ids config = Some [] ->
      apply_business_filters config merged_df
      = apply_business_filters (set_product_ids None config) merged_df)
  /\ ((brands config = Some [] \/ brands config = None) ->
      (product_ids config = Some [] \/ product_ids config = None) ->
      apply_business_filters config merged_df = ([], Ok merged_df)).
Proof.
  unfold apply_business_filters.
  split; [| split].
  - intros H. destruct config; simpl in *. subst. reflexivity.
  - intros H. destruct config; simpl in *. subst. reflexivity.
  - intros [Hb | Hb] [Hp | Hp]; rewrite Hb, Hp; reflexivity.
Qed.

Lemma empty_allow_list_is_not_applied_witness :
  apply_business_filters
    (set_product_ids (Some []) (set_brands (Some []) day_config))
    joined_brands
  = ([], Ok joined_brands).
Proof.
  apply (proj2 (proj2 (empty_allow_list_is_not_applied
                         (set_product_ids (Some [])
                            (set_brands (Some []) day_config))
                         joined_brands))).
  - left. reflexivity.
  - left. reflexivity.
Defined.

(* ===================================================================== *)
(** ** pipeline.py: runs without sales *)
(* ===================================================================== *)

Lemma outcome_bind {A B : Type} (c : M A) (k : A -> M B) :
  outcome (bind c k) =
  match outcome c with
  | Ok a => outcome (k a)
  | Raise e => Raise e
  end.
Proof.
  unfold outcome, bind. destruct c as [t [a | e]]; simpl; [| reflexivity].
  destruct (k a). reflexivity.
Qed.

(** The table of the short circuit gets the derived columns and no row. *)
Lemma enrich_empty_final_dataframe W :
  _enrich_with_date_and_metadata W _empty_final_dataframe
  = mkframe export_columns [].
Proof. reflexivity. Qed.

(** Without sales, before or after the temporal filter, the join and the
    business filters are skipped. *)
Lemma merged_table_short_circuit W config products_df sales_df :
  (empty sales_df = true
   \/ exists filtered,
        filter_sales_by_date sales_df (ref_date config) (granularity config)
        = Ok filtered /\ empty filtered = true) ->
  merged_table W config products_df sales_df
  = ([Log WARNING], Ok _empty_final_dataframe).
Proof.
  intros H. unfold merged_table.
  destruct (empty sales_df) eqn:E; [reflexivity |].
  destruct H as [H | (filtered & Hf & He)]; [discriminate |].
  rewrite Hf. unfold lift, bind. rewrite He. reflexivity.
Qed.

(** A products table that [load_products] returned has the required
    columns. *)
Lemma load_products_columns W project dataset table df :
  outcome (load_products W project dataset table) = Ok df ->
  forall c, In c required_cols -> has_column c df = true.
Proof.
  unfold load_products. rewrite !outcome_bind. cbn [outcome emit snd].
  destruct (bq_query W _) as [raw | |]; try discriminate.
  destruct (filter (fun c => negb (has_column c raw)) required_cols) eqn:E;
    [| discriminate].
  intros H. injection H as <-.
  intros c Hc.
  destruct (has_column c raw) eqn:Ec; [reflexivity |].
  assert (Hin : In c (filter (fun c => negb (has_column c raw)) required_cols)).
  { apply filter_In. split; [exact Hc |]. rewrite Ec. reflexivity. }
  rewrite E in Hin. destruct Hin.
Qed.

Lemma drop_null_products_returns products_df :
  has_column "product_id" products_df = true ->
  exists out, outcome (drop_null_products products_df) = Ok out.
Proof.
  intros H. unfold drop_null_products, getitem. rewrite H.
  unfold lift, bind.
  destruct (0 <? _); eexists; reflexivity.
Qed.

(** C2.  In a run whose catalog, date range and sales loader succeed: when
    the loaded sales table is empty, or is empty after the temporal filter,
    the table that the pipeline exports has no row and has exactly the
    export columns product_id, price, quantity, sold_at, order_id,
    product_name, category, brand, condition, sale_date, year, month,
    quarter, processed_at. *)
Theorem empty_sales_give_the_empty_export
    (W : World) (config : PipelineConfig)
    (products_df : DataFrame Product) (dates : date * date)
    (sales_df : DataFrame Sale) :
  outcome (load_products W (project_id config) (bq_dataset config)
             (bq_table config)) = Ok products_df ->
  _compute_date_range (ref_date config) (granularity config) = Ok dates ->
  outcome (load_sales_parquet W (project_id config) (gcs_bucket config)
             (fst dates) (snd dates) (Some (max_sales_files config)))
  = Ok sales_df ->
  (empty sales_df = true
   \/ exists filtered,
        filter_sales_by_date sales_df (ref_date config) (granularity config)
        = Ok filtered /\ empty filtered = true) ->
  exists final,
    outcome (final_table W config) = Ok final /\
    data final = [] /\
    columns final = export_columns.
Proof.
  intros Hproducts Hdates Hsales Hempty.
  exists (mkframe export_columns []). split; [| split; reflexivity].
  unfold final_table. rewrite !outcome_bind. cbn [outcome emit snd].
  change (snd (load_products W (project_id config) (bq_dataset config)
                 (bq_table config)))
    with (outcome (load_products W (project_id config) (bq_dataset config)
                     (bq_table config))).
  rewrite Hproducts. rewrite outcome_bind.
  destruct (drop_null_products_returns products_df) as (kept & Hkept).
  { apply (load_products_columns _ _ _ _ _ Hproducts). left. reflexivity. }
  rewrite Hkept. rewrite outcome_bind.
  unfold lift at 1. cbn [outcome snd]. rewrite Hdates.
  rewrite !outcome_bind. cbn [outcome emit snd].
  change (snd (load_sales_parquet W (project_id config) (gcs_bucket config)
                 (fst dates) (snd dates) (Some (max_sales_files config))))
    with (outcome (load_sales_parquet W (project_id config)
                     (gcs_bucket config) (fst dates) (snd dates)
                     (Some (max_sales_files config)))).
  rewrite Hsales. rewrite outcome_bind.
  rewrite (merged_table_short_circuit W config kept sales_df Hempty).
  reflexivity.
Qed.

(** A run over an empty bucket, and a run that loads the sales of January
    for a reference day in February. *)
Lemma empty_sales_give_the_empty_export_witness :
  (exists final,
      outcome (final_table quiet_world day_config) = Ok final /\
      data final = [] /\
      columns final = export_columns)
  /\ (exists final,
         outcome (final_table january_world february_config) = Ok final /\
         data final = [] /\
         columns final = export_columns).
Proof.
  split.
  - apply (empty_sales_give_the_empty_export quiet_world day_config
             (mkframe required_cols [])
             (mkdate 2025 1 10, mkdate 2025 1 10)
             (mkframe [] [])).
    + vm_compute. reflexivity.
    + vm_compute. reflexivity.
    + vm_compute. reflexivity.
    + left. reflexivity.
  - apply (empty_sales_give_the_empty_export january_world february_config
             (mkframe required_cols [product_A_first; product_B])
             (mkdate 2025 2 1, mkdate 2025 2 1)
             january_sales).
    + vm_compute. reflexivity.
    + vm_compute. reflexivity.
    + vm_compute. reflexivity.
    + right. exists (mkframe sales_columns []).
      split; vm_compute; reflexivity.
Defined.

(** A run that loads sales of January when the reference day is in
    February: the table is empty after the temporal filter. *)
Example no_sale_in_the_period_gives_the_empty_export :
  let config := set_brands (Some ["BrandX"])
                  (mkconfig "dummy-project" (mkdate 2025 2 1) DAY
                     "bm_mock_data" "products" "bm_mock_sales" None None
                     "data/export" "parquet" 500) in
  outcome (load_sales_parquet january_world "dummy-project" "bm_mock_sales"
             (mkdate 2025 2 1) (mkdate 2025 2 1) (Some 500))
  = Ok january_sales /\
  outcome (final_table january_world config)
  = Ok (mkframe export_columns []).
Proof. cbv zeta. split; vm_compute; reflexivity. Qed.

(** A run with sales in the period exports them, joined and enriched, and
    returns the path of the export file. *)
Example run_over_january :
  let config := mkconfig "dummy-project" (mkdate 2025 1 10) DAY
                  "bm_mock_data" "products" "bm_mock_sales" None None
                  "data/export" "parquet" 500 in
  option_map (fun f => (columns f, List.length (data f)))
    (match outcome (final_table january_world config) with
     | Ok f => Some f | Raise _ => None end)
  = Some (export_columns, 1%nat) /\
  outcome (run_pipeline january_world config)
  = Ok "data/export/sales_products_day_2025-01-10.parquet".
Proof. cbv zeta. split; vm_compute; reflexivity. Qed.

(* ===================================================================== *)
(** ** The calendar: every ordinal is the ordinal of its date *)
(* ===================================================================== *)

Lemma month_day_check_every_day :
  forallb (month_day_check true) (range 366) = true
  /\ forallb (month_day_check false) (range 365) = true.
Proof. split; vm_compute; reflexivity. Qed.

Lemma range_in i n : 0 <= i < n -> In i (range n).
Proof.
  intros H. unfold range. apply in_map_iff.
  exists (Z.to_nat i). split; [lia |]. apply in_seq. lia.
Qed.

Lemma month_day_of_inverse (y : Z) (leapyear : bool) (r : Z) :
  0 <= r <= 364 + (if leapyear then 1 else 0) ->
  let x := month_day_of y leapyear r in
  year x = y /\
  1 <= month x <= 12 /\
  1 <= day x <= days_in leapyear (month x) /\
  days_before leapyear (month x) + day x - 1 = r.
Proof.
  intros Hr. cbv zeta.
  assert (Hcheck : month_day_check leapyear r = true).
  { destruct month_day_check_every_day as [Ht Hf].
    destruct leapyear.
    - apply (proj1 (forallb_forall _ _) Ht). apply range_in. lia.
    - apply (proj1 (forallb_forall _ _) Hf). apply range_in. lia. }
  unfold month_day_check in Hcheck. cbv zeta in Hcheck.
  assert (Hsame : month (month_day_of y leapyear r)
                  = month (month_day_of 0 leapyear r)
                  /\ day (month_day_of y leapyear r)
                     = day (month_day_of 0 leapyear r)
                  /\ year (month_day_of y leapyear r) = y).
  { unfold month_day_of. destruct (r <? _); cbn [year month day]; auto. }
  destruct Hsame as (-> & -> & ->).
  rewrite !andb_true_iff, !Z.leb_le, Z.eqb_eq in Hcheck.
  intuition.
Qed.

(** Every day count splits into 400-year, 100-year and 4-year cycles, years
    and a day of the year. *)
Lemma ordinal_decompose N :
  0 <= N ->
  exists a b c e r,
    0 <= a /\ 0 <= b < 4 /\ 0 <= c < 25 /\ 0 <= e < 4 /\ 0 <= r /\
    r <= 364 + (if (e =? 3) && (negb (c =? 24) || (b =? 3)) then 1 else 0) /\
    N = 146097 * a + 36524 * b + 1461 * c + 365 * e + r.
Proof.
  intros HN.
  set (a := N / 146097). set (R1 := N mod 146097).
  assert (H1 : N = 146097 * a + R1 /\ 0 <= R1 < 146097 /\ 0 <= a)
    by (subst a R1; Z.div_mod_to_equations; lia).
  set (b := Z.min (R1 / 36524) 3). set (R2 := R1 - 36524 * b).
  assert (H2 : 0 <= b < 4 /\ 0 <= R2 <= 36524 /\ (R2 = 36524 -> b = 3))
    by (subst b R2; Z.div_mod_to_equations; lia).
  set (c := Z.min (R2 / 1461) 24). set (R3 := R2 - 1461 * c).
  assert (H3 : 0 <= c < 25 /\ 0 <= R3 <= 1460
               /\ (R3 = 1460 -> c < 24 \/ R2 = 36524))
    by (subst c R3; Z.div_mod_to_equations; lia).
  set (e := Z.min (R3 / 365) 3). set (r := R3 - 365 * e).
  assert (H4 : 0 <= e < 4 /\ 0 <= r <= 365 /\ (r = 365 -> e = 3 /\ R3 = 1460))
    by (subst e r; Z.div_mod_to_equations; lia).
  exists a, b, c, e, r.
  repeat (split; [lia |]). split; [| subst r R3 R2; lia].
  destruct (Z.eqb_spec e 3) as [He | He]; cbn [andb].
  - destruct (Z.eqb_spec c 24) as [Hc | Hc]; cbn [negb orb].
    + destruct (Z.eqb_spec b 3) as [Hb | Hb]; [lia |].
      assert (r <> 365) by lia. lia.
    + lia.
  - assert (r <> 365) by lia. lia.
Qed.

Lemma days_in_month_days_in y m :
  _days_in_month y m = days_in (_is_leap y) m.
Proof.
  unfold _days_in_month, days_in.
  destruct (Z.eqb_spec m 2) as [-> | N]; [| cbn [andb]; lia].
  destruct (_is_leap y); reflexivity.
Qed.

(** [date.fromordinal(n)] is a valid date, and its ordinal is [n]. *)
Lemma ord2ymd_inverse n :
  0 < n <= _MAXORDINAL ->
  valid_date (_ord2ymd n) /\ toordinal (_ord2ymd n) = n.
Proof.
  intros Hn.
  destruct (ordinal_decompose (n - 1) ltac:(lia))
    as (a & b & c & e & r & Ha & Hb & Hc & He & Hr0 & Hr & HN).
  replace n with (146097 * a + 36524 * b + 1461 * c + 365 * e + r + 1)
    by lia.
  rewrite ord2ymd_core by assumption.
  pose proof (is_leap_decompose a b c e Hb Hc He) as Hleap.
  pose proof (days_before_year_decompose a b c e Hb Hc He) as Hdby.
  set (Y := 400 * a + 100 * b + 4 * c + e + 1) in *.
  set (L := (e =? 3) && (negb (c =? 24) || (b =? 3))) in *.
  pose proof (month_day_of_inverse Y L r ltac:(lia)) as Hx.
  cbv zeta in Hx. destruct Hx as (Hy & Hm & Hd & Hback).
  assert (HY : 1 <= Y <= 9999).
  { split; [subst Y; lia |].
    destruct (Z_le_gt_dec Y 9999) as [Hle | Hgt]; [exact Hle |].
    pose proof (days_before_year_monotone 10000 Y ltac:(lia)) as Hmono.
    change (_days_before_year 10000) with 3652059 in Hmono.
    unfold _MAXORDINAL in Hn. lia. }
  split.
  - unfold valid_date. apply check_date_fields_true.
    rewrite Hy, days_in_month_days_in, Hleap. auto.
  - unfold toordinal, _ymd2ord, _days_before_month.
    rewrite Hy, Hleap, Hdby. fold (days_before L
      (month (month_day_of Y L r))). lia.
Qed.

Lemma ts_date_valid t : in_calendar t -> valid_date (ts_date t).
Proof.
  intros H. unfold ts_date. apply ord2ymd_inverse. exact H.
Qed.

(* ===================================================================== *)
(** ** Traces of sequenced computations *)
(* ===================================================================== *)

Lemma trace_bind {A B : Type} (c : M A) (k : A -> M B) :
  trace (bind c k) =
  trace c ++ match outcome c with
             | Ok a => trace (k a)
             | Raise _ => []
             end.
Proof.
  unfold trace, outcome, bind. destruct c as [t [a | e]]; simpl.
  - destruct (k a). reflexivity.
  - rewrite app_nil_r. reflexivity.
Qed.

Lemma downloads_app t1 t2 : downloads (t1 ++ t2) = downloads t1 ++ downloads t2.
Proof.
  induction t1 as [| ev t1 IH]; simpl; [reflexivity |].
  destruct ev; simpl; rewrite IH; reflexivity.
Qed.

Lemma prefix_of_nil {A : Type} (l : list A) : prefix_of [] l.
Proof. exists l. reflexivity. Qed.

Lemma prefix_of_refl {A : Type} (l : list A) : prefix_of l l.
Proof. exists []. symmetry. apply app_nil_r. Qed.

Lemma prefix_of_cons {A : Type} (x : A) (l full : list A) :
  prefix_of l full -> prefix_of (x :: l) (x :: full).
Proof. intros [rest ->]. exists rest. reflexivity. Qed.

(* ===================================================================== *)
(** ** gcs_client.py: [_debug_list_nearby_sales_files] *)
(* ===================================================================== *)

Lemma log_each_run {A : Type} level (l : list A) :
  log_each level l = (repeat (Log level) (List.length l), Ok tt).
Proof.
  induction l as [| x l IH]; [reflexivity |].
  simpl. rewrite IH. reflexivity.
Qed.

Lemma debug_list_run W bucket d n :
  _debug_list_nearby_sales_files W bucket d n =
  match list_blobs W bucket "sales_" with
  | ListGoogleAPIError =>
      ([Log INFO; ListBlobs "sales_"; Log WARNING], Ok tt)
  | ListOtherError => ([Log INFO; ListBlobs "sales_"], Raise Exception)
  | Listed [] => ([Log INFO; ListBlobs "sales_"; Log INFO], Ok tt)
  | Listed names =>
      ([Log INFO; ListBlobs "sales_"; Log INFO]
       ++ repeat (Log INFO) (Nat.min n (List.length names)), Ok tt)
  end.
Proof.
  unfold _debug_list_nearby_sales_files.
  destruct (list_blobs W bucket "sales_") as [[| x names] | |];
    try reflexivity.
  rewrite log_each_run, length_firstn. reflexivity.
Qed.

(** The listing that follows a missing file is best effort: it lists the
    bucket once, downloads nothing, logs at most [max_results] names after
    its three own records, and returns normally also when the listing fails
    with a GoogleAPIError.  Only a listing failure of another kind comes
    out of it, as it is. *)
Theorem debug_list_is_best_effort W bucket d max_results :
  let run := _debug_list_nearby_sales_files W bucket d max_results in
  filter is_listing (trace run) = [ListBlobs "sales_"] /\
  downloads (trace run) = [] /\
  filter (fun ev => negb (is_log ev || is_listing ev)) (trace run) = [] /\
  (List.length (trace run) <= max_results + 3)%nat /\
  (outcome run = Ok tt <-> list_blobs W bucket "sales_" <> ListOtherError) /\
  (outcome run = Raise Exception <->
   list_blobs W bucket "sales_" = ListOtherError).
Proof.
  cbv zeta. rewrite debug_list_run.
  assert (Hlogs : forall k,
             filter is_listing (repeat (Log INFO) k) = []
             /\ downloads (repeat (Log INFO) k) = []
             /\ filter (fun ev => negb (is_log ev || is_listing ev))
                       (repeat (Log INFO) k) = []).
  { induction k as [| k (H1 & H2 & H3)]; simpl; auto. }
  destruct (list_blobs W bucket "sales_") as [[| x names] | |];
    cbn [trace outcome fst snd].
  - repeat split; try reflexivity; try discriminate; simpl; try lia;
      congruence.
  - assert (Hk : (Nat.min max_results (List.length (x :: names))
                  <= max_results)%nat) by apply Nat.le_min_l.
    remember (Nat.min max_results (List.length (x :: names))) as k eqn:Ek.
    clear Ek. destruct (Hlogs k) as (H1 & H2 & H3).
    repeat split; try discriminate; try congruence.
    + simpl. rewrite H1. reflexivity.
    + simpl. rewrite H2. reflexivity.
    + simpl. rewrite H3. reflexivity.
    + rewrite length_app, repeat_length. simpl List.length. lia.
  - repeat split; try reflexivity; try discriminate; simpl; try lia;
      congruence.
  - repeat split; try reflexivity; try discriminate; simpl; try lia;
      congruence.
Qed.

(* ===================================================================== *)
(** ** gcs_client.py: the loop over the days *)
(* ===================================================================== *)

Lemma downloads_debug_list W bucket d n :
  downloads (fst (_debug_list_nearby_sales_files W bucket d n)) = [].
Proof.
  rewrite debug_list_run.
  assert (Hlogs : forall k, downloads (repeat (Log INFO) k) = []).
  { induction k; simpl; auto. }
  destruct (list_blobs W bucket "sales_") as [[| x names] | |]; simpl;
    rewrite ?Hlogs; reflexivity.
Qed.

(** One turn of the loop. *)
Lemma fetch_days_cons W bucket start_date i rest frames :
  fetch_days W bucket start_date (i :: rest) frames =
  match date_add_days start_date i with
  | Raise e => ([], Raise e)
  | Ok d =>
      let name := blob_name_of d in
      match download_as_bytes W bucket name with
      | Downloaded content =>
          match read_parquet W content with
          | Some df_day =>
              let next :=
                fetch_days W bucket start_date rest (frames ++ [df_day]) in
              ([Log DEBUG; DownloadAsBytes name] ++ fst next, snd next)
          | None =>
              ([Log DEBUG; DownloadAsBytes name; Log ERROR],
               Raise DataLoadError)
          end
      | NotFound =>
          let listing := _debug_list_nearby_sales_files W bucket d 10 in
          match snd listing with
          | Ok _ =>
              let next := fetch_days W bucket start_date rest frames in
              ([Log DEBUG; DownloadAsBytes name; Log WARNING]
               ++ fst listing ++ fst next, snd next)
          | Raise e =>
              ([Log DEBUG; DownloadAsBytes name; Log WARNING] ++ fst listing,
               Raise e)
          end
      | DownloadGoogleAPIError | DownloadOtherError =>
          ([Log DEBUG; DownloadAsBytes name; Log ERROR], Raise DataLoadError)
      end
  end.
Proof.
  cbn [fetch_days]. unfold lift, bind at 1.
  destruct (date_add_days start_date i) as [d | e]; [| reflexivity].
  cbv zeta. cbn [app].
  destruct (download_as_bytes W bucket (blob_name_of d)) as [content | | |].
  - destruct (read_parquet W content) as [df_day |].
    + unfold bind, emit.
      destruct (fetch_days W bucket start_date rest (frames ++ [df_day])).
      reflexivity.
    + reflexivity.
  - unfold bind, emit.
    destruct (_debug_list_nearby_sales_files W bucket d 10) as [t [[] | e]].
    + destruct (fetch_days W bucket start_date rest frames). reflexivity.
    + reflexivity.
  - reflexivity.
  - reflexivity.
Qed.

Lemma date_add_days_ok start_date i d :
  date_add_days start_date i = Ok d -> d = day_after start_date i.
Proof.
  unfold date_add_days, day_after.
  destruct ((0 <? toordinal start_date + i)
            && (toordinal start_date + i <=? _MAXORDINAL));
    [congruence | discriminate].
Qed.

(** The loop asks for the files of its days in order and stops at the first
    failure; when it ends normally it has asked for every day, and it has
    added the frames of the files that were there, in the order of the
    days.  It fails with DataLoadError on a day whose file cannot be loaded
    nor skipped, and otherwise only on a date out of the calendar or on a
    listing failure that is not a GoogleAPIError. *)
Lemma fetch_days_run W bucket start_date days :
  forall frames,
    let run := fetch_days W bucket start_date days frames in
    prefix_of (downloads (fst run))
              (map (fun i => blob_name_of (day_after start_date i)) days)
    /\ (forall out,
           snd run = Ok out ->
           downloads (fst run)
           = map (fun i => blob_name_of (day_after start_date i)) days
           /\ out = frames
                    ++ flat_map (fun i =>
                                   day_frames W bucket
                                     (day_after start_date i)) days)
    /\ (forall e,
           snd run = Raise e ->
           (e = DataLoadError
            /\ exists i, In i days
                 /\ day_loads W bucket (day_after start_date i) = false)
           \/ (e = OverflowError
               /\ exists i, In i days
                    /\ date_add_days start_date i = Raise OverflowError)
           \/ (e = Exception
               /\ list_blobs W bucket "sales_" = ListOtherError)).
Proof.
  induction days as [| i rest IH]; intros frames; cbv zeta.
  - simpl. split; [apply prefix_of_nil |]. split.
    + intros out H. injection H as <-. rewrite app_nil_r. auto.
    + discriminate.
  - assert (Hlater : forall e,
               (e = DataLoadError
                /\ exists j, In j rest
                     /\ day_loads W bucket (day_after start_date j) = false)
               \/ (e = OverflowError
                   /\ exists j, In j rest
                        /\ date_add_days start_date j = Raise OverflowError)
               \/ (e = Exception
                   /\ list_blobs W bucket "sales_" = ListOtherError) ->
               (e = DataLoadError
                /\ exists j, In j (i :: rest)
                     /\ day_loads W bucket (day_after start_date j) = false)
               \/ (e = OverflowError
                   /\ exists j, In j (i :: rest)
                        /\ date_add_days start_date j = Raise OverflowError)
               \/ (e = Exception
                   /\ list_blobs W bucket "sales_" = ListOtherError)).
    { intros e [(He & j & Hj & H) | [(He & j & Hj & H) | H]].
      - left. split; [exact He |]. exists j. split; [right |]; assumption.
      - right. left. split; [exact He |]. exists j.
        split; [right |]; assumption.
      - right. right. exact H. }
    rewrite fetch_days_cons.
    destruct (date_add_days start_date i) as [d | e] eqn:Ed.
    2:{ cbn [fst snd downloads]. split; [apply prefix_of_nil |].
        split; [discriminate |].
        intros e' H. injection H as <-.
        right. left.
        assert (e = OverflowError).
        { unfold date_add_days in Ed.
          destruct ((0 <? _) && _); [discriminate |].
          injection Ed as <-. reflexivity. }
        subst e. split; [reflexivity |].
        exists i. split; [left; reflexivity | exact Ed]. }
    apply date_add_days_ok in Ed. subst d. cbv zeta.
    cbn [map flat_map]. unfold day_frames at 1.
    assert (Hfatal : forall e,
               day_loads W bucket (day_after start_date i) = false ->
               @Raise (list (DataFrame Sale)) DataLoadError = Raise e ->
               (e = DataLoadError
                /\ exists j, In j (i :: rest)
                     /\ day_loads W bucket (day_after start_date j) = false)
               \/ (e = OverflowError
                   /\ exists j, In j (i :: rest)
                        /\ date_add_days start_date j = Raise OverflowError)
               \/ (e = Exception
                   /\ list_blobs W bucket "sales_" = ListOtherError)).
    { intros e Hload H. injection H as <-. left. split; [reflexivity |].
      exists i. split; [left; reflexivity | exact Hload]. }
    unfold day_loads in Hfatal.
    destruct (download_as_bytes W bucket
                (blob_name_of (day_after start_date i)))
      as [content | | |].
    + destruct (read_parquet W content) as [df_day |].
      * specialize (IH (frames ++ [df_day])). cbv zeta in IH.
        destruct IH as (Hpre & Hok & Herr).
        cbn [fst snd app downloads].
        split; [apply prefix_of_cons; exact Hpre |].
        split; [| intros e H; apply Hlater, Herr, H].
        intros out Hout. destruct (Hok out Hout) as [H1 H2].
        split; [rewrite H1; reflexivity |].
        rewrite H2, <- app_assoc. reflexivity.
      * cbn [fst snd downloads].
        split; [apply prefix_of_cons; apply prefix_of_nil |].
        split; [discriminate |].
        intros e H. apply Hfatal; [reflexivity | exact H].
    + pose proof (downloads_debug_list W bucket (day_after start_date i) 10)
        as Hlist.
      pose proof (debug_list_run W bucket (day_after start_date i) 10)
        as Hrun.
      destruct (_debug_list_nearby_sales_files W bucket
                  (day_after start_date i) 10) as [tl [[] | e]];
        cbn [fst snd] in *.
      * specialize (IH frames). cbv zeta in IH.
        destruct IH as (Hpre & Hok & Herr).
        cbn [app downloads]. rewrite downloads_app, Hlist. cbn [app].
        split; [apply prefix_of_cons; exact Hpre |].
        split; [| intros e H; apply Hlater, Herr, H].
        intros out Hout. destruct (Hok out Hout) as [H1 H2].
        split; [rewrite H1; reflexivity | exact H2].
      * cbn [app downloads]. rewrite Hlist.
        split; [apply prefix_of_cons; apply prefix_of_nil |].
        split; [discriminate |].
        intros e' H. injection H as <-. right. right.
        destruct (list_blobs W bucket "sales_") as [[| x names] | |];
          inversion Hrun. auto.
    + cbn [fst snd downloads].
      split; [apply prefix_of_cons; apply prefix_of_nil |].
      split; [discriminate |].
      intros e H. apply Hfatal; [reflexivity | exact H].
    + cbn [fst snd downloads].
      split; [apply prefix_of_cons; apply prefix_of_nil |].
      split; [discriminate |].
      intros e H. apply Hfatal; [reflexivity | exact H].
Qed.

(* ===================================================================== *)
(** ** gcs_client.py: [load_sales_parquet] beyond its guards *)
(* ===================================================================== *)



Lemma downloads_logs_only t :
  (forall ev, In ev t -> match ev with DownloadAsBytes _ => False | _ => True end) ->
  downloads t = [].
Proof.
  induction t as [| ev t IH]; [reflexivity |].
  intros H. pose proof (H ev (or_introl eq_refl)) as Hev.
  destruct ev; simpl; try contradiction;
    apply IH; intros ev' Hin; apply H; right; exact Hin.
Qed.

(** [load_sales_parquet], once its two guards are passed. *)
Lemma load_sales_parquet_past_guards W project bucket start_date end_date
    max_files :
  date_ltb end_date start_date = false ->
  match max_files with
  | Some bound => bound <? days_between start_date end_date + 1
  | None => false
  end = false ->
  let loop :=
    fetch_days W bucket start_date
      (range (days_between start_date end_date + 1)) [] in
  load_sales_parquet W project bucket start_date end_date max_files =
  ([Log INFO; StorageClient project; BucketHandle bucket] ++ fst loop
   ++ match snd loop with
      | Ok [] => [Log WARNING]
      | Ok (_ :: _) => [Log INFO]
      | Raise _ => []
      end,
   match snd loop with
   | Ok [] => Ok (mkframe [] [])
   | Ok (f :: fs) => Ok (concat (f :: fs))
   | Raise e => Raise e
   end).
Proof.
  intros Hle Hbound. cbv zeta. unfold load_sales_parquet.
  rewrite Hle, Hbound. unfold bind, emit, ret. cbn [app].
  destruct (fetch_days W bucket start_date
              (range (days_between start_date end_date + 1)) [])
    as [t [[| f fs] | e]]; cbn [fst snd app];
    rewrite ?app_nil_r; reflexivity.
Qed.

Lemma load_sales_parquet_guards W project bucket start_date end_date
    max_files :
  (date_ltb end_date start_date = true
   /\ load_sales_parquet W project bucket start_date end_date max_files
      = ([], Raise ValueError))
  \/ (date_ltb end_date start_date = false
      /\ (exists bound, max_files = Some bound
            /\ bound < days_between start_date end_date + 1)
      /\ load_sales_parquet W project bucket start_date end_date max_files
         = ([Log ERROR], Raise TooManyFilesError))
  \/ (date_ltb end_date start_date = false
      /\ match max_files with
         | Some bound => bound <? days_between start_date end_date + 1
         | None => false
         end = false).
Proof.
  unfold load_sales_parquet.
  destruct (date_ltb end_date start_date); [left; auto |].
  right. destruct max_files as [bound |]; [| right; auto].
  destruct (bound <? days_between start_date end_date + 1) eqn:E.
  - left. split; [reflexivity |]. split; [| reflexivity].
    exists bound. split; [reflexivity |]. apply Z.ltb_lt. exact E.
  - right. auto.
Qed.

Lemma flat_map_flat_map {A B C : Type} (f : B -> list C) (g : A -> list B)
    (l : list A) :
  flat_map f (flat_map g l) = flat_map (fun x => flat_map f (g x)) l.
Proof.
  induction l as [| x l IH]; [reflexivity |].
  cbn [flat_map]. rewrite flat_map_app, IH. reflexivity.
Qed.

(** Every way [load_sales_parquet] can end. *)
Lemma load_sales_parquet_run W project bucket start_date end_date max_files :
  let run :=
    load_sales_parquet W project bucket start_date end_date max_files in
  let days := range (days_between start_date end_date + 1) in
  let all_files :=
    map (fun i => blob_name_of (day_after start_date i)) days in
  let found :=
    flat_map (fun i => day_frames W bucket (day_after start_date i)) days in
  prefix_of (downloads (trace run)) all_files /\
  (forall df, outcome run = Ok df ->
     downloads (trace run) = all_files
     /\ data df
        = flat_map (fun i =>
                      flat_map data
                        (day_frames W bucket (day_after start_date i))) days
     /\ (found = [] -> df = mkframe [] [])
     /\ (found <> [] -> df = concat found)) /\
  (forall e, outcome run = Raise e ->
     (e = ValueError /\ date_ltb end_date start_date = true)
     \/ (e = TooManyFilesError
         /\ exists bound, max_files = Some bound
              /\ bound < days_between start_date end_date + 1)
     \/ (e = DataLoadError
         /\ exists i, In i days
              /\ day_loads W bucket (day_after start_date i) = false)
     \/ (e = OverflowError
         /\ exists i, In i days
              /\ date_add_days start_date i = Raise OverflowError)
     \/ (e = Exception /\ list_blobs W bucket "sales_" = ListOtherError)).
Proof.
  cbv zeta.
  destruct (load_sales_parquet_guards W project bucket start_date end_date
              max_files) as [[Hlt ->] | [(_ & Hb & ->) | [Hle Hbound]]].
  - split; [apply prefix_of_nil |]. split; [discriminate |].
    intros e H. injection H as <-. auto.
  - split; [apply prefix_of_nil |]. split; [discriminate |].
    intros e H. injection H as <-. auto.
  - rewrite load_sales_parquet_past_guards by assumption. cbv zeta.
    pose proof (fetch_days_run W bucket start_date
                  (range (days_between start_date end_date + 1)) [])
      as Hrun. cbv zeta in Hrun. destruct Hrun as (Hpre & Hok & Herr).
    unfold trace, outcome. cbn [fst snd app downloads].
    rewrite downloads_app.
    replace (downloads
               match snd (fetch_days W bucket start_date
                            (range (days_between start_date end_date + 1))
                            []) with
               | Ok [] => [Log WARNING]
               | Ok (_ :: _) => [Log INFO]
               | Raise _ => []
               end) with (@nil string)
      by (destruct (snd _) as [[| f fs] | e]; reflexivity).
    rewrite app_nil_r. split; [exact Hpre |].
    rewrite <- flat_map_flat_map.
    destruct (snd (fetch_days W bucket start_date
                     (range (days_between start_date end_date + 1)) []))
      as [out | e] eqn:Eout.
    + destruct (Hok out eq_refl) as [H1 H2]. cbn [app] in H2.
      rewrite <- H2. clear H2 Hok Herr.
      destruct out as [| f fs]; (split; [| discriminate]);
        intros df Hdf; (split; [exact H1 |]); injection Hdf as <-.
      * repeat split; try reflexivity; congruence.
      * repeat split; try reflexivity; discriminate.
    + split; [discriminate |].
      intros e' H. injection H as <-.
      destruct (Herr e eq_refl) as [H | [H | H]]; auto 6.
Qed.














(* ===================================================================== *)
(** ** bq_client.py: [load_products] *)
(* ===================================================================== *)

Lemma filter_nil_iff {A : Type} (f : A -> bool) (l : list A) :
  filter f l = [] <-> forall x, In x l -> f x = false.
Proof.
  split; [| apply filter_none].
  intros H x Hx. destruct (f x) eqn:E; [| reflexivity].
  assert (Hin : In x (filter f l)) by (apply filter_In; auto).
  rewrite H in Hin. destruct Hin.
Qed.


(* ===================================================================== *)
(** ** filters.py: more on [filter_sales_by_date] *)
(* ===================================================================== *)

Lemma in_reference_period_same_period ref g t :
  in_reference_period ref g t = same_period g (ts_date t) ref.
Proof. destruct g; reflexivity. Qed.

Lemma date_eqb_eq a b : date_eqb a b = true <-> a = b.
Proof.
  destruct a as [ya ma da], b as [yb mb db]. unfold date_eqb.
  cbn [year month day]. rewrite !andb_true_iff, !Z.eqb_eq.
  split; [intros [[-> ->] ->]; reflexivity | intros H; injection H; auto].
Qed.

(** What a finer granularity keeps, a coarser one keeps. *)
Lemma same_period_coarser fine coarse a b :
  granularity_rank fine <= granularity_rank coarse ->
  same_period fine a b = true -> same_period coarse a b = true.
Proof.
  intros Hrank H.
  assert (Hday : same_period DAY a b = true -> same_period MONTH a b = true).
  { cbn [same_period]. intros E. apply date_eqb_eq in E. subst b.
    rewrite !Z.eqb_refl. reflexivity. }
  assert (Hmonth : same_period MONTH a b = true
                   -> same_period QUARTER a b = true).
  { cbn [same_period]. rewrite !andb_true_iff, !Z.eqb_eq.
    intros [Hy Hm]. rewrite Hm. auto. }
  assert (Hquarter : same_period QUARTER a b = true
                     -> same_period YEAR a b = true).
  { cbn [same_period]. rewrite !andb_true_iff. tauto. }
  destruct fine, coarse; cbn [granularity_rank] in Hrank; try lia; auto.
Qed.

Lemma filter_implied {A : Type} (p q : A -> bool) (l : list A) :
  (forall x, p x = true -> q x = true) ->
  filter p (filter q l) = filter p l.
Proof.
  intros H. induction l as [| x l IH]; [reflexivity |].
  cbn [filter]. destruct (q x) eqn:Eq; cbn [filter].
  - rewrite IH. reflexivity.
  - destruct (p x) eqn:Ep; [| exact IH].
    rewrite (H x Ep) in Eq. discriminate.
Qed.

(** Filtering at a granularity what was kept at a coarser one, for the same
    reference date, is filtering at the finer granularity from the start:
    the day is inside its month, the month inside its quarter, the quarter
    inside its year. *)
Theorem filter_finer_after_coarser
    (df : DataFrame Sale) (ref : date) (fine coarse : TimeGranularity) :
  granularity_rank fine <= granularity_rank coarse ->
  (let* kept := filter_sales_by_date df ref coarse in
   filter_sales_by_date kept ref fine)
  = filter_sales_by_date df ref fine.
Proof.
  intros Hrank.
  rewrite (filter_sales_by_date_characterised df ref coarse).
  rewrite (filter_sales_by_date_characterised df ref fine).
  destruct (empty df) eqn:Eempty.
  - cbn [bindR]. rewrite filter_sales_by_date_characterised, Eempty.
    reflexivity.
  - destruct (has_column "sold_at" df) eqn:Ecol; [| reflexivity].
    cbn [bindR]. rewrite filter_sales_by_date_rows by exact Ecol.
    cbn [columns data].
    rewrite filter_map_commute by (intro; apply sold_in_period_utc_sale).
    rewrite filter_implied, map_map.
    + do 2 f_equal. apply map_ext. intro s. apply utc_sale_idempotent.
    + intros s. unfold sold_in_period. destruct (s_sold_at s); [| auto].
      rewrite !in_reference_period_same_period.
      apply same_period_coarser. exact Hrank.
Qed.

Lemma filter_finer_after_coarser_witness :
  (let* kept := filter_sales_by_date january_sales (mkdate 2025 1 10) MONTH in
   filter_sales_by_date kept (mkdate 2025 1 10) DAY)
  = Ok (mkframe sales_columns [sale_jan10]).
Proof.
  rewrite (filter_finer_after_coarser january_sales (mkdate 2025 1 10)
             DAY MONTH).
  - vm_compute. reflexivity.
  - vm_compute. discriminate.
Defined.

(** What the filter returns on a sales table: the columns are unchanged, no
    row is added, and every row is a row of the table with its timestamp
    set to UTC; a row without timestamp is never returned. *)
Theorem filter_sales_by_date_output
    (df out : DataFrame Sale) (ref : date) (g : TimeGranularity) :
  has_column "sold_at" df = true ->
  filter_sales_by_date df ref g = Ok out ->
  columns out = columns df /\
  (List.length (data out) <= List.length (data df))%nat /\
  forall s, In s (data out) ->
    (exists s0, In s0 (data df) /\ s = utc_sale s0) /\
    exists t, s_sold_at s = Some t /\ tz t = Some UTC
              /\ in_reference_period ref g t = true.
Proof.
  intros Hcol Hout.
  rewrite filter_sales_by_date_rows in Hout by exact Hcol.
  injection Hout as <-. cbn [columns data].
  split; [reflexivity |]. split.
  - rewrite length_map. apply filter_length_le.
  - intros s Hs. apply in_map_iff in Hs. destruct Hs as (s0 & <- & Hs0).
    apply filter_In in Hs0. destruct Hs0 as [Hin Hp].
    split; [exists s0; auto |].
    unfold sold_in_period in Hp. unfold utc_sale, set_sold_at.
    cbn [s_sold_at]. destruct (s_sold_at s0) as [t |]; [| discriminate].
    exists (to_utc t). cbn [option_map]. auto.
Qed.

Lemma filter_sales_by_date_output_witness :
  columns (mkframe sales_columns [sale_jan10]) = columns january_sales.
Proof.
  apply (proj1 (filter_sales_by_date_output january_sales
                  (mkframe sales_columns [sale_jan10]) (mkdate 2025 1 10)
                  DAY eq_refl ltac:(vm_compute; reflexivity))).
Defined.

(* ===================================================================== *)
(** ** The filter and the date range agree *)
(* ===================================================================== *)

Lemma date_ltb_false_iff a b :
  date_ltb a b = false <->
  year b < year a
  \/ (year a = year b
      /\ (month b < month a \/ (month a = month b /\ day b <= day a))).
Proof.
  unfold date_ltb.
  rewrite !orb_false_iff, !andb_false_iff, !orb_false_iff, !andb_false_iff.
  rewrite !Z.ltb_ge, !Z.eqb_neq. lia.
Qed.

(** A valid date is in the period of the reference date exactly when it is
    not before the first day nor after the last day of the specified
    range. *)
Lemma same_period_specified_range ref g d :
  valid_date ref -> valid_date d ->
  same_period g d ref = true <->
  date_ltb d (fst (specified_range ref g)) = false
  /\ date_ltb (snd (specified_range ref g)) d = false.
Proof.
  intros Hr Hd. destruct ref as [y m dd], d as [y' m' d'].
  unfold valid_date in *. cbn [year month day] in *.
  apply check_date_fields_true in Hr. destruct Hr as (Hy & Hm & Hdd).
  apply check_date_fields_true in Hd. destruct Hd as (Hy' & Hm' & Hd').
  rewrite !date_ltb_false_iff.
  destruct g; unfold specified_range, same_period; cbv zeta;
    cbn [fst snd year month day].
  - rewrite date_eqb_eq. split.
    + intros H. injection H as -> -> ->. lia.
    + intros H. f_equal; lia.
  - rewrite andb_true_iff, !Z.eqb_eq. split.
    + intros [-> ->]. lia.
    + intros H. assert (y' = y /\ m' = m) as [-> ->] by lia. auto.
  - rewrite andb_true_iff, !Z.eqb_eq.
    set (q := (m - 1) / 3 + 1).
    assert (Hq : 1 <= q <= 4 /\ 3 * (q - 1) + 1 <= m <= 3 * q)
      by (subst q; Z.div_mod_to_equations; lia).
    pose proof (days_in_month_bounds y (3 * q) ltac:(lia)) as Hdim.
    split.
    + intros [-> Hq']. fold q in Hq'.
      assert (3 * (q - 1) + 1 <= m' <= 3 * q)
        by (rewrite <- Hq'; Z.div_mod_to_equations; lia).
      destruct (Z.eq_dec m' (3 * q)) as [E | E]; [| lia].
      rewrite <- E. lia.
    + intros H. assert (y' = y) as -> by lia. split; [reflexivity |].
      assert (3 * (q - 1) + 1 <= m' <= 3 * q) by lia.
      subst q. Z.div_mod_to_equations. lia.
  - rewrite Z.eqb_eq. split.
    + intros ->.
      assert (_days_in_month y m' <= 31)
        by (pose proof (days_in_month_bounds y m' Hm'); lia).
      lia.
    + lia.
Qed.

(** The temporal filter and the date range of the loader describe the same
    period: for a valid reference date whose range [_compute_date_range]
    returns, a timestamp of the calendar passes the period test of the
    filter exactly when its UTC date is not before the start nor after the
    end of that range. *)
Theorem filter_agrees_with_date_range
    (ref start_date end_date : date) (g : TimeGranularity) (t : Timestamp) :
  valid_date ref ->
  _compute_date_range ref g = Ok (start_date, end_date) ->
  in_calendar (to_utc t) ->
  in_reference_period ref g (to_utc t) = true <->
  date_ltb (ts_date (to_utc t)) start_date = false
  /\ date_ltb end_date (ts_date (to_utc t)) = false.
Proof.
  intros Hv Hrange Hcal.
  rewrite compute_date_range_characterised in Hrange by exact Hv.
  destruct (ends_with_MAXYEAR ref g); [discriminate |].
  injection Hrange as Hrange.
  rewrite in_reference_period_same_period.
  rewrite (same_period_specified_range ref g (ts_date (to_utc t)) Hv
             (ts_date_valid _ Hcal)).
  rewrite Hrange. reflexivity.
Qed.

Lemma filter_agrees_with_date_range_witness :
  in_reference_period (mkdate 2025 1 5) MONTH
    (to_utc (utc_timestamp 2025 1 31 23 59 0)) = true <->
  date_ltb (ts_date (to_utc (utc_timestamp 2025 1 31 23 59 0)))
           (mkdate 2025 1 1) = false
  /\ date_ltb (mkdate 2025 1 31)
              (ts_date (to_utc (utc_timestamp 2025 1 31 23 59 0))) = false.
Proof.
  apply (filter_agrees_with_date_range (mkdate 2025 1 5) (mkdate 2025 1 1)
           (mkdate 2025 1 31) MONTH (utc_timestamp 2025 1 31 23 59 0)).
  - reflexivity.
  - vm_compute. reflexivity.
  - unfold in_calendar. vm_compute. split; [reflexivity | discriminate].
Defined.

(* ===================================================================== *)
(** ** pipeline.py: the size of the date range *)
(* ===================================================================== *)

Lemma specified_range_size ref g :
  valid_date ref ->
  let n := days_between (fst (specified_range ref g))
                        (snd (specified_range ref g)) + 1 in
  match g with
  | DAY => n = 1
  | MONTH => n = _days_in_month (year ref) (month ref)
  | QUARTER => 90 <= n <= 92
  | YEAR => n = 365 + (if _is_leap (year ref) then 1 else 0)
  end.
Proof.
  intros Hv. destruct ref as [y m d]. unfold valid_date in Hv.
  cbn [year month day] in *.
  apply check_date_fields_true in Hv. destruct Hv as (Hy & Hm & Hd).
  cbv zeta. unfold days_between, toordinal, _ymd2ord.
  destruct g; unfold specified_range; cbv zeta; cbn [fst snd year month day].
  - lia.
  - lia.
  - assert (Hq : (m - 1) / 3 + 1 = 1 \/ (m - 1) / 3 + 1 = 2
                 \/ (m - 1) / 3 + 1 = 3 \/ (m - 1) / 3 + 1 = 4)
      by (Z.div_mod_to_equations; lia).
    unfold _days_before_month, _days_in_month.
    destruct Hq as [-> | [-> | [-> | ->]]];
      destruct (_is_leap y); simpl; lia.
  - unfold _days_before_month. destruct (_is_leap y); simpl; lia.
Qed.

(** The ranges of the pipeline are short: one day, one month of 28 to 31
    days, one quarter of 90 to 92 days, one year of 365 or 366 days.  So a
    bound of 366 files or more, like the default of 500, lets every range
    of the pipeline through: the loader called on such a range raises
    neither TooManyFilesError nor the ValueError of an inverted range. *)
Theorem compute_date_range_size
    (ref start_date end_date : date) (g : TimeGranularity) :
  valid_date ref ->
  _compute_date_range ref g = Ok (start_date, end_date) ->
  let num_days := days_between start_date end_date + 1 in
  match g with
  | DAY => num_days = 1
  | MONTH => num_days = _days_in_month (year ref) (month ref)
  | QUARTER => 90 <= num_days <= 92
  | YEAR => num_days = 365 + (if _is_leap (year ref) then 1 else 0)
  end
  /\ 1 <= num_days <= 366
  /\ forall W project bucket bound,
       366 <= bound ->
       outcome (load_sales_parquet W project bucket start_date end_date
                  (Some bound)) <> Raise TooManyFilesError
       /\ outcome (load_sales_parquet W project bucket start_date end_date
                     (Some bound)) <> Raise ValueError.
Proof.
  intros Hv Hrange. cbv zeta.
  pose proof (compute_date_range_well_formed _ _ _ _ Hv Hrange) as Hwf.
  rewrite compute_date_range_characterised in Hrange by exact Hv.
  destruct (ends_with_MAXYEAR ref g); [discriminate |].
  injection Hrange as Hrange.
  pose proof (specified_range_size ref g Hv) as Hsize. cbv zeta in Hsize.
  rewrite Hrange in Hsize. cbn [fst snd] in Hsize.
  assert (Hbounds : 1 <= days_between start_date end_date + 1 <= 366).
  { destruct g.
    - lia.
    - assert (Hm : 1 <= month ref <= 12).
      { unfold valid_date in Hv. apply check_date_fields_true in Hv. lia. }
      pose proof (days_in_month_bounds (year ref) (month ref) Hm). lia.
    - lia.
    - destruct (_is_leap (year ref)); lia. }
  split; [exact Hsize |]. split; [exact Hbounds |].
  intros W project bucket bound Hbound.
  pose proof (load_sales_parquet_run W project bucket start_date end_date
                (Some bound)) as H. cbv zeta in H.
  destruct H as (_ & _ & Herr).
  split; intros Hraise;
    destruct (Herr _ Hraise)
      as [[_ H] | [(_ & bound' & Hb & Hlt)
                  | [[H _] | [[H _] | [H _]]]]];
    try discriminate; try congruence.
  - injection Hb as <-. lia.
  - injection Hb as <-. lia.
Qed.

Lemma compute_date_range_size_witness :
  days_between (mkdate 2024 1 1) (mkdate 2024 12 31) + 1 = 366.
Proof.
  pose proof (compute_date_range_size (mkdate 2024 7 4) (mkdate 2024 1 1)
                (mkdate 2024 12 31) YEAR eq_refl
                ltac:(vm_compute; reflexivity)) as H.
  cbv zeta in H. destruct H as [H _]. exact H.
Defined.

(* ===================================================================== *)
(** ** pipeline.py: the suffix and the path of the export file *)
(* ===================================================================== *)

Lemma string_length_append (a b : string) :
  String.length (a ++ b) = (String.length a + String.length b)%nat.
Proof. induction a as [| c a IH]; simpl; [reflexivity | rewrite IH; reflexivity]. Qed.

Lemma append_cancel_l (s a b : string) :
  (s ++ a)%string = (s ++ b)%string -> a = b.
Proof.
  induction s as [| c s IH]; simpl; [auto |].
  intros H. injection H as H. apply IH. exact H.
Qed.

(** Two strings that end with tails of the same length. *)
Lemma append_same_length_tail (a b t u : string) :
  String.length t = String.length u ->
  (a ++ t)%string = (b ++ u)%string -> a = b /\ t = u.
Proof.
  revert b. induction a as [| c a IH]; intros b Hlen H.
  - destruct b as [| c' b]; [auto |].
    simpl in H. apply (f_equal String.length) in H.
    simpl in H. rewrite string_length_append in H. lia.
  - destruct b as [| c' b].
    + simpl in H. apply (f_equal String.length) in H.
      simpl in H. rewrite string_length_append in H. lia.
    + simpl in H. injection H as -> H.
      destruct (IH b Hlen H) as [-> ->]. auto.
Qed.

Lemma digit_inj a b :
  0 <= a < 10 -> 0 <= b < 10 -> digit a = digit b -> a = b.
Proof.
  intros Ha Hb H. unfold digit in H.
  apply (f_equal nat_of_ascii) in H.
  rewrite !nat_ascii_embedding in H by lia. lia.
Qed.

Lemma pad2_digits a b :
  pad2 a = pad2 b -> a / 10 mod 10 = b / 10 mod 10 /\ a mod 10 = b mod 10.
Proof.
  unfold pad2. intros H. injection H as H1 H2.
  split; apply digit_inj; try assumption; Z.div_mod_to_equations; lia.
Qed.

Lemma pad2_inj a b :
  0 <= a < 100 -> 0 <= b < 100 -> pad2 a = pad2 b -> a = b.
Proof.
  intros Ha Hb H. apply pad2_digits in H. Z.div_mod_to_equations. lia.
Qed.

Lemma pad4_inj a b :
  0 <= a < 10000 -> 0 <= b < 10000 -> pad4 a = pad4 b -> a = b.
Proof.
  intros Ha Hb H. unfold pad4 in H.
  apply append_same_length_tail in H; [| reflexivity].
  destruct H as [H1 H2].
  apply pad2_digits in H1. apply pad2_digits in H2.
  Z.div_mod_to_equations. lia.
Qed.

Lemma to_int_positive a :
  0 < a ->
  Z.to_int a <> Decimal.Pos Decimal.Nil /\ Z.to_int a <> Decimal.Neg Decimal.Nil.
Proof.
  intros Ha. destruct a as [| p | p]; try lia.
  split; [| discriminate].
  simpl. intro E. injection E as E.
  apply (Unsigned.to_uint_nonnil _ E).
Qed.

Lemma str_inj a b : 0 < a -> 0 < b -> str a = str b -> a = b.
Proof.
  intros Ha Hb H. unfold str in H.
  apply (f_equal NilZero.int_of_string) in H.
  destruct (to_int_positive a Ha) as [Ha1 Ha2].
  destruct (to_int_positive b Hb) as [Hb1 Hb2].
  rewrite (NilZero.isi _ Ha1 Ha2), (NilZero.isi _ Hb1 Hb2) in H.
  injection H as H. apply DecimalZ.to_int_inj. exact H.
Qed.

Lemma quarter_label_digit q :
  1 <= q <= 4 -> String.length (str q) = 1%nat.
Proof.
  intros H.
  assert (E : q = 1 \/ q = 2 \/ q = 3 \/ q = 4) by lia.
  destruct E as [-> | [-> | [-> | ->]]]; reflexivity.
Qed.

Lemma build_suffix_same_period g a b :
  valid_date a -> valid_date b ->
  _build_suffix a g = _build_suffix b g <-> same_period g a b = true.
Proof.
  intros Ha Hb. destruct a as [ya ma da], b as [yb mb db].
  unfold valid_date in *. cbn [year month day] in *.
  apply check_date_fields_true in Ha. destruct Ha as (Hya & Hma & Hda).
  apply check_date_fields_true in Hb. destruct Hb as (Hyb & Hmb & Hdb).
  pose proof (days_in_month_bounds ya ma Hma).
  pose proof (days_in_month_bounds yb mb Hmb).
  destruct g; unfold _build_suffix, same_period; cbv zeta;
    cbn [year month day].
  - rewrite date_eqb_eq. split; [| intros H'; injection H' as -> -> ->; auto].
    unfold isoformat. cbn [year month day]. intros E.
    apply append_same_length_tail in E; [| reflexivity].
    destruct E as [Ey E]. apply pad4_inj in Ey; [| lia | lia].
    apply append_cancel_l in E.
    apply append_same_length_tail in E; [| reflexivity].
    destruct E as [Em E]. apply pad2_inj in Em; [| lia | lia].
    apply append_cancel_l in E. apply pad2_inj in E; [| lia | lia].
    subst. reflexivity.
  - rewrite andb_true_iff, !Z.eqb_eq.
    split; [| intros [-> ->]; reflexivity].
    intros E. apply append_same_length_tail in E; [| reflexivity].
    destruct E as [Ey E]. apply pad4_inj in Ey; [| lia | lia].
    apply append_cancel_l in E. apply pad2_inj in E; [| lia | lia]. auto.
  - rewrite andb_true_iff, !Z.eqb_eq.
    split; [| intros [-> ->]; reflexivity].
    assert (Hqa : 1 <= (ma - 1) / 3 + 1 <= 4)
      by (Z.div_mod_to_equations; lia).
    assert (Hqb : 1 <= (mb - 1) / 3 + 1 <= 4)
      by (Z.div_mod_to_equations; lia).
    intros E. apply append_same_length_tail in E.
    + destruct E as [Ey E]. apply str_inj in Ey; [| lia | lia].
      apply append_cancel_l in E. apply str_inj in E; [| lia | lia]. auto.
    + rewrite !string_length_append, !quarter_label_digit by assumption.
      reflexivity.
  - rewrite Z.eqb_eq. split; [| intros ->; reflexivity].
    intros E. apply str_inj in E; [exact E | lia | lia].
Qed.

(** For one output directory, granularity and format, two valid reference
    dates give the same suffix, and the same export path, exactly when they
    are in the same period: runs for different days, months, quarters or
    years never write to the same file, and runs for the same period always
    do. *)
Theorem output_path_same_period
    (config : PipelineConfig) (d1 d2 : date) :
  valid_date d1 -> valid_date d2 ->
  (_build_suffix d1 (granularity config)
   = _build_suffix d2 (granularity config)
   <-> same_period (granularity config) d1 d2 = true)
  /\ (_build_output_path (set_ref_date d1 config)
      = _build_output_path (set_ref_date d2 config)
      <-> same_period (granularity config) d1 d2 = true).
Proof.
  intros H1 H2.
  pose proof (build_suffix_same_period (granularity config) d1 d2 H1 H2)
    as Hsuffix.
  split; [exact Hsuffix |].
  rewrite <- Hsuffix. unfold _build_output_path, set_ref_date.
  cbn [ref_date granularity output_dir output_format].
  split; [| intros ->; reflexivity].
  intros E. do 5 apply append_cancel_l in E.
  apply append_same_length_tail in E; [| reflexivity].
  exact (proj1 E).
Qed.

Lemma output_path_same_period_witness :
  _build_output_path (set_ref_date (mkdate 2025 1 10)
                        (set_brands None
                           (mkconfig "p" (mkdate 2025 1 1) QUARTER "d" "t"
                              "b" None None "out" "csv" 500)))
  = _build_output_path (set_ref_date (mkdate 2025 3 31)
                          (set_brands None
                             (mkconfig "p" (mkdate 2025 1 1) QUARTER "d" "t"
                                "b" None None "out" "csv" 500))).
Proof.
  apply (proj2 (output_path_same_period
                  (set_brands None
                     (mkconfig "p" (mkdate 2025 1 1) QUARTER "d" "t" "b"
                        None None "out" "csv" 500))
                  (mkdate 2025 1 10) (mkdate 2025 3 31) eq_refl eq_refl)).
  reflexivity.
Defined.

(* ===================================================================== *)
(** ** pipeline.py: [_enrich_with_date_and_metadata] *)
(* ===================================================================== *)

Lemma existsb_eqb_In (c : string) (cols : list string) :
  existsb (String.eqb c) cols = true <-> In c cols.
Proof.
  rewrite existsb_exists. split.
  - intros (x & Hin & E). apply String.eqb_eq in E. subst. exact Hin.
  - intros H. exists c. split; [exact H | apply String.eqb_refl].
Qed.

Lemma set_column_In (c n : string) (cols : list string) :
  In c (set_column n cols) <-> c = n \/ In c cols.
Proof.
  unfold set_column.
  destruct (existsb (String.eqb n) cols) eqn:E.
  - apply existsb_eqb_In in E. split; [auto |].
    intros [-> | H]; assumption.
  - rewrite in_app_iff. simpl. intuition.
Qed.

Lemma set_column_prefix (n : string) (cols : list string) :
  prefix_of cols (set_column n cols).
Proof.
  unfold set_column. destruct (existsb (String.eqb n) cols).
  - apply prefix_of_refl.
  - exists [n]. reflexivity.
Qed.

Lemma set_column_NoDup (n : string) (cols : list string) :
  NoDup cols -> NoDup (set_column n cols).
Proof.
  intros H. unfold set_column.
  destruct (existsb (String.eqb n) cols) eqn:E; [exact H |].
  apply NoDup_app; [exact H | repeat constructor; simpl; tauto |].
  intros x Hx [<- | []].
  apply existsb_eqb_In in Hx. congruence.
Qed.

Lemma prefix_of_trans {A : Type} (a b c : list A) :
  prefix_of a b -> prefix_of b c -> prefix_of a c.
Proof.
  intros [r1 ->] [r2 ->]. exists (r1 ++ r2). symmetry. apply app_assoc.
Qed.

(** The columns after the enrichment. *)
Lemma enrich_columns_eq W df :
  columns (_enrich_with_date_and_metadata W df) =
  set_column "processed_at"
    (set_column "quarter"
       (set_column "month"
          (set_column "year"
             (set_column "sale_date"
                (if empty df then set_column "sold_at" (columns df)
                 else columns df))))).
Proof.
  unfold _enrich_with_date_and_metadata.
  destruct (empty df); [reflexivity |].
  cbv zeta.
  destruct ((if existsb (String.eqb "sale_date") _ then _ else _) ++ _);
    reflexivity.
Qed.

(** The enrichment keeps the columns of its table, in their order and
    before the new ones, and adds the derived columns [sale_date], [year],
    [month], [quarter] and [processed_at] (and [sold_at] to an empty table
    without it), each once: no label is dropped, moved or repeated.  On a
    joined table with the nine sale and product columns the result has the
    fourteen export columns, with or without rows. *)
Theorem enrich_columns W (df : DataFrame Merged) :
  let out := _enrich_with_date_and_metadata W df in
  prefix_of (columns df) (columns out) /\
  (forall c, In c (columns out) <->
             In c (columns df) \/ In c derived_columns
             \/ (empty df = true /\ c = "sold_at")) /\
  (NoDup (columns df) -> NoDup (columns out)) /\
  (columns df = merged_columns -> columns out = export_columns).
Proof.
  cbv zeta. rewrite enrich_columns_eq.
  split; [| split; [| split]].
  - repeat (eapply prefix_of_trans; [| apply set_column_prefix]).
    destruct (empty df); [apply set_column_prefix | apply prefix_of_refl].
  - intros c. rewrite !set_column_In. unfold derived_columns.
    destruct (empty df).
    + rewrite set_column_In. simpl. intuition congruence.
    + simpl. intuition congruence.
  - intros H. repeat apply set_column_NoDup.
    destruct (empty df); [apply set_column_NoDup |]; exact H.
  - intros ->. destruct (empty df); reflexivity.
Qed.

Lemma existsb_set_column (c n : string) (cols : list string) :
  existsb (String.eqb c) (set_column n cols)
  = String.eqb c n || existsb (String.eqb c) cols.
Proof.
  unfold set_column. destruct (existsb (String.eqb n) cols) eqn:E.
  - destruct (String.eqb_spec c n) as [-> | N]; [| reflexivity].
    rewrite E. reflexivity.
  - rewrite existsb_app. simpl. rewrite orb_false_r. apply orb_comm.
Qed.

Lemma enrich_rows_eq W df :
  empty df = false -> has_column "sold_at" df = true ->
  exists sort_cols,
    data (_enrich_with_date_and_metadata W df)
    = sort_values_export W sort_cols
        (map (enriched_row W
                (existsb is_none (map m_sold_at (data df))))
             (data df)).
Proof.
  intros He Hc. unfold _enrich_with_date_and_metadata.
  rewrite He, Hc. cbv zeta.
  rewrite !existsb_set_column.
  change (String.eqb "sale_date" "processed_at") with false.
  change (String.eqb "sale_date" "quarter") with false.
  change (String.eqb "sale_date" "month") with false.
  change (String.eqb "sale_date" "year") with false.
  change (String.eqb "sale_date" "sale_date") with true.
  cbn [orb app].
  eexists. cbn [data]. f_equal.
  unfold to_datetime_utc.
  rewrite (map_map m_sold_at (option_map to_utc) (data df)).
  rewrite (assign_map set_merged_sold_at
             (fun r => option_map to_utc (m_sold_at r)) (data df)).
  rewrite !map_map. apply map_ext_in. intros r Hr.
  unfold enriched_row, set_processed_at, utc_merged. cbv zeta.
  cbn [e_merged e_sale_date e_year e_month e_quarter].
  f_equal. f_equal. f_equal.
  clear. induction (data df) as [| x l IH]; [reflexivity |].
  simpl. rewrite IH. destruct (m_sold_at x); reflexivity.
Qed.

Lemma insert_sorted_perm {A : Type} (leb : A -> A -> bool) x l :
  Permutation (insert_sorted leb x l) (x :: l).
Proof.
  induction l as [| y l IH]; simpl; [apply Permutation_refl |].
  destruct (leb x y); [apply Permutation_refl |].
  eapply Permutation_trans; [apply perm_skip, IH | apply perm_swap].
Qed.

Lemma stable_sort_perm {A : Type} (leb : A -> A -> bool) l :
  Permutation (stable_sort leb l) l.
Proof.
  induction l as [| x l IH]; simpl; [constructor |].
  eapply Permutation_trans; [apply insert_sorted_perm |].
  apply perm_skip. exact IH.
Qed.

(** The enrichment of a table with rows and a [sold_at] column, when the
    final sort only reorders the rows: no row is lost or added, the rows
    are the joined rows with their timestamp set to UTC, every row carries
    the one [processed_at] of the run, and its [sale_date], [year] and
    [month] are those of its own UTC timestamp (missing when the timestamp
    is). *)
Theorem enrich_rows W (df : DataFrame Merged) :
  (forall cols rows, Permutation (sort_values_export W cols rows) rows) ->
  empty df = false -> has_column "sold_at" df = true ->
  let out := _enrich_with_date_and_metadata W df in
  List.length (data out) = List.length (data df) /\
  Permutation (map e_merged (data out)) (map utc_merged (data df)) /\
  forall r, In r (data out) ->
    e_processed_at r = Some (now W) /\
    e_sale_date r = option_map ts_date (m_sold_at (e_merged r)) /\
    e_year r = option_map ts_year (m_sold_at (e_merged r)) /\
    e_month r = option_map ts_month (m_sold_at (e_merged r)) /\
    (forall t, m_sold_at (e_merged r) = Some t -> tz t = Some UTC).
Proof.
  intros Hsort He Hc. cbv zeta.
  destruct (enrich_rows_eq W df He Hc) as (sort_cols & ->).
  set (has_nat := existsb is_none (map m_sold_at (data df))).
  pose proof (Hsort sort_cols (map (enriched_row W has_nat) (data df)))
    as Hperm.
  split; [| split].
  - rewrite (Permutation_length Hperm). apply length_map.
  - eapply Permutation_trans; [apply Permutation_map, Hperm |].
    rewrite map_map. apply Permutation_refl.
  - intros r Hr. apply (Permutation_in _ Hperm) in Hr.
    apply in_map_iff in Hr. destruct Hr as (r0 & <- & _).
    unfold enriched_row. cbv zeta.
    cbn [e_processed_at e_sale_date e_year e_month e_merged].
    repeat (split; [reflexivity |]).
    intros t. unfold utc_merged, m_sold_at, set_merged_sold_at, set_sold_at.
    cbn [m_sale s_sold_at].
    destruct (s_sold_at (m_sale r0)); cbn [option_map]; [| discriminate].
    intros H. injection H as <-. reflexivity.
Qed.

Lemma enrich_rows_witness :
  List.length (data (_enrich_with_date_and_metadata quiet_world
                       joined_brands)) = 3%nat.
Proof.
  apply (proj1 (enrich_rows quiet_world joined_brands
                  (fun cols rows => stable_sort_perm _ rows)
                  eq_refl eq_refl)).
Defined.

Lemma append_empty_r (s : string) : (s ++ "")%string = s.
Proof. induction s as [| c s IH]; simpl; congruence. Qed.

Lemma ts_quarter_label t :
  in_calendar t -> In (quarter_label false (Some t)) quarter_labels.
Proof.
  intros Hcal. pose proof (ts_date_valid t Hcal) as Hv.
  unfold valid_date in Hv. apply check_date_fields_true in Hv.
  destruct Hv as (_ & Hm & _).
  unfold quarter_label, ts_quarter, ts_month.
  assert (Hq : (month (ts_date t) - 1) / 3 + 1 = 1
               \/ (month (ts_date t) - 1) / 3 + 1 = 2
               \/ (month (ts_date t) - 1) / 3 + 1 = 3
               \/ (month (ts_date t) - 1) / 3 + 1 = 4)
    by (Z.div_mod_to_equations; lia).
  unfold quarter_labels.
  destruct Hq as [-> | [-> | [-> | ->]]]; simpl; auto.
Qed.

(** When every row has a timestamp (of the calendar), every row of the
    enriched table is labelled with one of the quarters Q1, Q2, Q3, Q4,
    the quarter [(month - 1) // 3 + 1] of its UTC timestamp. *)
Theorem enrich_quarter_labels W (df : DataFrame Merged) :
  (forall cols rows, Permutation (sort_values_export W cols rows) rows) ->
  empty df = false -> has_column "sold_at" df = true ->
  (forall r, In r (data df) ->
     exists t, m_sold_at r = Some t /\ in_calendar (to_utc t)) ->
  forall r, In r (data (_enrich_with_date_and_metadata W df)) ->
    exists t label,
      m_sold_at (e_merged r) = Some t /\
      e_quarter r = Some label /\
      In label quarter_labels /\
      label = ("Q" ++ str ((ts_month t - 1) / 3 + 1))%string.
Proof.
  intros Hsort He Hc Hall r Hr.
  destruct (enrich_rows_eq W df He Hc) as (sort_cols & Hdata).
  rewrite Hdata in Hr. apply (Permutation_in _ (Hsort _ _)) in Hr.
  apply in_map_iff in Hr. destruct Hr as (r0 & <- & Hr0).
  assert (Hnone : existsb is_none (map m_sold_at (data df)) = false).
  { destruct (existsb is_none (map m_sold_at (data df))) eqn:E;
      [| reflexivity].
    apply existsb_exists in E. destruct E as (x & Hx & Hnone).
    apply in_map_iff in Hx. destruct Hx as (r1 & <- & Hr1).
    destruct (Hall r1 Hr1) as (t & Ht & _). rewrite Ht in Hnone.
    discriminate. }
  rewrite Hnone.
  destruct (Hall r0 Hr0) as (t & Ht & Hcal).
  exists (to_utc t), (quarter_label false (Some (to_utc t))).
  unfold enriched_row. cbv zeta. cbn [e_merged e_quarter].
  assert (Hutc : m_sold_at (utc_merged r0) = Some (to_utc t)).
  { unfold utc_merged, m_sold_at, set_merged_sold_at, set_sold_at in *.
    cbn [m_sale s_sold_at]. rewrite Ht. reflexivity. }
  rewrite Hutc.
  split; [reflexivity |]. split; [reflexivity |].
  split; [apply ts_quarter_label; exact Hcal |].
  unfold quarter_label, ts_quarter.
  rewrite append_empty_r. reflexivity.
Qed.

Lemma enrich_quarter_labels_witness :
  exists t label,
    m_sold_at merged_X = Some t /\
    In label quarter_labels /\
    label = ("Q" ++ str ((ts_month t - 1) / 3 + 1))%string.
Proof.
  destruct (enrich_quarter_labels quiet_world
              (mkframe merged_columns [merged_X])
              (fun cols rows => stable_sort_perm _ rows) eq_refl eq_refl)
    with (r := enriched_row quiet_world false merged_X)
    as (t & label & Ht & _ & Hin & Hlabel).
  - intros r [<- | []].
    exists (utc_timestamp 2025 1 10 10 0 0). split; [reflexivity |].
    unfold in_calendar. vm_compute. split; [reflexivity | discriminate].
  - left. reflexivity.
  - exists t, label. auto.
Defined.

(* ===================================================================== *)
(** ** pipeline.py: the steps of [run_pipeline] *)
(* ===================================================================== *)

Lemma loc_notna {R : Type} (f : R -> option string) (rows : list R) :
  loc rows (notna (map f rows)) = filter (fun r => negb (is_none (f r))) rows.
Proof.
  unfold notna, isna. rewrite !map_map.
  rewrite <- (loc_filter (fun r => negb (is_none (f r))) rows).
  f_equal; try (apply map_ext; intro r; destruct (f r); reflexivity).
Qed.

Lemma no_null_filter {R : Type} (f : R -> option string) (rows : list R) :
  (0 <? count_true (isna (map f rows))) = false ->
  filter (fun r => negb (is_none (f r))) rows = rows.
Proof.
  unfold count_true, isna. rewrite map_map. intros H.
  apply Z.ltb_ge in H.
  induction rows as [| r rows IH]; [reflexivity |].
  cbn [map filter] in *. destruct (f r) eqn:E; cbn [is_none negb] in *.
  - f_equal. apply IH. exact H.
  - cbn [List.length] in H. lia.
Qed.

Lemma drop_null_sales_outcome (df : DataFrame Sale) :
  has_column "product_id" df = true ->
  outcome (drop_null_sales df)
  = Ok (mkframe (columns df) (filter has_product_id (data df))).
Proof.
  intros H. unfold drop_null_sales, getitem. rewrite H.
  unfold lift, bind. cbn [app].
  destruct (0 <? count_true (isna (map s_product_id (data df)))) eqn:E.
  - cbn. rewrite loc_notna. reflexivity.
  - cbn. unfold has_product_id. rewrite (no_null_filter _ _ E).
    destruct df; reflexivity.
Qed.


Lemma deduplicate_products_outcome W (df : DataFrame Product) :
  has_column "product_id" df = true ->
  outcome (deduplicate_products W df)
  = Ok (mkframe (columns df) (deduplicated_rows W (data df)))
  /\ NoDup (map p_product_id (deduplicated_rows W (data df))).
Proof.
  intros H. rewrite deduplicate_products_run by exact H.
  unfold deduplicated_rows.
  destruct (is_unique (map p_product_id (data df))) eqn:E.
  - split; [destruct df; reflexivity |]. apply is_unique_NoDup. exact E.
  - split; [reflexivity |]. apply drop_duplicates_keep_last_unique.
Qed.

Lemma has_column_app_l {R : Type} c (a b : list string) (rows : list R) :
  existsb (String.eqb c) a = true -> has_column c (mkframe (a ++ b) rows) = true.
Proof.
  intros H. unfold has_column. cbn [columns]. rewrite existsb_app, H.
  reflexivity.
Qed.





Lemma passes_business_filters_utc config r :
  passes_business_filters config (utc_merged r)
  = passes_business_filters config r.
Proof. reflexivity. Qed.



(* ===================================================================== *)
(** ** pipeline.py: how the steps can fail *)
(* ===================================================================== *)

Lemma getitem_error {R A : Type} (df : DataFrame R) name (f : R -> A) e :
  getitem df name f = Raise e -> e = KeyError.
Proof.
  unfold getitem. destruct (has_column name df); [discriminate |].
  intros H. injection H as <-. reflexivity.
Qed.

Lemma filter_sales_by_date_error df ref g e :
  filter_sales_by_date df ref g = Raise e -> e = KeyError.
Proof.
  rewrite filter_sales_by_date_characterised.
  destruct (empty df); [discriminate |].
  destruct (has_column "sold_at" df); [discriminate |].
  intros H. injection H as <-. reflexivity.
Qed.

Lemma drop_null_sales_error df e :
  outcome (drop_null_sales df) = Raise e -> e = KeyError.
Proof.
  unfold drop_null_sales. rewrite outcome_bind. unfold lift at 1.
  cbn [outcome snd].
  destruct (getitem df "product_id" s_product_id) eqn:E.
  - destruct (0 <? _); cbn; discriminate.
  - intros H. injection H as <-. eapply getitem_error. exact E.
Qed.

Lemma drop_null_products_error df e :
  outcome (drop_null_products df) = Raise e -> e = KeyError.
Proof.
  unfold drop_null_products. rewrite outcome_bind. unfold lift at 1.
  cbn [outcome snd].
  destruct (getitem df "product_id" p_product_id) eqn:E.
  - destruct (0 <? _); cbn; discriminate.
  - intros H. injection H as <-. eapply getitem_error. exact E.
Qed.

(** The deduplication step fails only on a catalog without [product_id];
    what it returns has unique product_ids and the columns it was given. *)
Lemma deduplicate_products_cases W df :
  (has_column "product_id" df = false
   /\ outcome (deduplicate_products W df) = Raise KeyError)
  \/ (has_column "product_id" df = true
      /\ exists out,
           outcome (deduplicate_products W df) = Ok out
           /\ columns out = columns df
           /\ NoDup (map p_product_id (data out))).
Proof.
  destruct (has_column "product_id" df) eqn:E.
  - right. split; [reflexivity |].
    destruct (deduplicate_products_outcome W df E) as [Hout Hnd].
    eexists. split; [exact Hout |]. split; [reflexivity | exact Hnd].
  - left. split; [reflexivity |].
    unfold deduplicate_products, getitem. rewrite E. reflexivity.
Qed.

Lemma getitem_missing {R A : Type} (df : DataFrame R) name (f : R -> A) e :
  getitem df name f = Raise e -> e = KeyError /\ has_column name df = false.
Proof.
  unfold getitem. destruct (has_column name df); [discriminate |].
  intros H. injection H as <-. split; reflexivity.
Qed.

Lemma apply_business_filters_error config df e :
  outcome (apply_business_filters config df) = Raise e ->
  e = KeyError
  /\ (has_column "brand" df = false \/ has_column "product_id" df = false).
Proof.
  unfold apply_business_filters. rewrite outcome_bind.
  destruct (truthy (brands config)).
  - rewrite outcome_bind. cbn [outcome emit snd].
    rewrite outcome_bind. unfold lift at 1. cbn [outcome snd].
    destruct (getitem df "brand" m_brand) eqn:E.
    + cbn [outcome ret snd].
      destruct (truthy (product_ids config)); [| cbn; discriminate].
      rewrite outcome_bind. cbn [outcome emit snd].
      rewrite outcome_bind. unfold lift at 1. cbn [outcome snd].
      destruct (getitem _ "product_id" m_product_id) eqn:E2;
        [cbn; discriminate |].
      intros H. injection H as <-.
      apply getitem_missing in E2. destruct E2 as [-> E2].
      split; [reflexivity | right; exact E2].
    + intros H. injection H as <-.
      apply getitem_missing in E. destruct E as [-> E].
      split; [reflexivity | left; exact E].
  - cbn [outcome ret snd].
    destruct (truthy (product_ids config)); [| cbn; discriminate].
    rewrite outcome_bind. cbn [outcome emit snd].
    rewrite outcome_bind. unfold lift at 1. cbn [outcome snd].
    destruct (getitem _ "product_id" m_product_id) eqn:E2;
      [cbn; discriminate |].
    intros H. injection H as <-.
    apply getitem_missing in E2. destruct E2 as [-> E2].
    split; [reflexivity | right; exact E2].
Qed.

Lemma existsb_app_l {A : Type} (f : A -> bool) l1 l2 :
  existsb f l1 = true -> existsb f (l1 ++ l2) = true.
Proof. intros H. rewrite existsb_app, H. reflexivity. Qed.

Lemma existsb_keep_other name (cols : list string) :
  name <> "product_id"%string ->
  existsb (String.eqb name)
    (filter (fun c => negb (String.eqb c "product_id")) cols)
  = existsb (String.eqb name) cols.
Proof.
  intros Hne. induction cols as [| c cols IH]; [reflexivity |].
  cbn [filter existsb].
  destruct (String.eqb c "product_id") eqn:Ec; cbn [negb].
  - apply String.eqb_eq in Ec. subst c.
    destruct (String.eqb name "product_id") eqn:En.
    + apply String.eqb_eq in En. contradiction.
    + cbn [orb]. exact IH.
  - cbn [existsb]. rewrite IH. reflexivity.
Qed.

Lemma merged_table_error W config products_df sales_df e :
  outcome (merged_table W config products_df sales_df) = Raise e ->
  e = KeyError
  /\ (has_column "sold_at" sales_df = false
      \/ has_column "product_id" sales_df = false
      \/ has_column "product_id" products_df = false
      \/ has_column "brand" products_df = false).
Proof.
  unfold merged_table.
  destruct (empty sales_df) eqn:He; [cbn; discriminate |].
  rewrite outcome_bind. unfold lift at 1. cbn [outcome snd].
  rewrite filter_sales_by_date_characterised, He.
  destruct (has_column "sold_at" sales_df) eqn:Hsold.
  2:{ intros H. injection H as <-. auto. }
  set (kept := mkframe (columns sales_df)
                 (map utc_sale
                    (filter (sold_in_period (ref_date config)
                               (granularity config)) (data sales_df)))).
  destruct (empty kept); [cbn; discriminate |].
  rewrite outcome_bind.
  destruct (has_column "product_id" sales_df) eqn:Hid.
  2:{ intros H. split; [| auto].
      destruct (outcome (drop_null_sales kept)) eqn:E.
      - exfalso. unfold drop_null_sales, getitem, has_column in E.
        subst kept. cbn [columns] in E. unfold has_column in Hid.
        rewrite Hid in E. discriminate.
      - injection H as <-. eapply drop_null_sales_error. exact E. }
  rewrite (drop_null_sales_outcome kept) by exact Hid.
  rewrite outcome_bind.
  destruct (deduplicate_products_cases W products_df)
    as [[Hpid ->] | (Hpid & out & -> & Hcols & Hnd)].
  { intros H. injection H as <-. auto. }
  rewrite outcome_bind. unfold lift at 1. cbn [outcome snd].
  assert (Hpid' : has_column "product_id" out = true).
  { unfold has_column in *. rewrite Hcols. exact Hpid. }
  rewrite merge_unique_catalog; [| exact Hid | exact Hpid' | exact Hnd].
  intros H. apply apply_business_filters_error in H.
  destruct H as [-> [H | H]]; (split; [reflexivity |]).
  - unfold has_column in H. cbn [columns] in H.
    rewrite existsb_app, Bool.orb_false_iff in H. destruct H as [_ H].
    rewrite existsb_keep_other, Hcols in H by discriminate.
    auto 6.
  - exfalso. unfold has_column in H. cbn [columns] in H.
    unfold has_column in Hid. subst kept. cbn [columns] in H.
    rewrite existsb_app, Hid in H. discriminate.
Qed.


(* ===================================================================== *)
(** ** pipeline.py: [run_pipeline] from the query to the export *)
(* ===================================================================== *)

Section Quiet.

Variable P : Event -> bool.
Hypothesis P_log : forall level, P (Log level) = false.

Lemma quiet_bind {A B : Type} (c : M A) (k : A -> M B) :
  filter P (trace c) = [] ->
  (forall a, outcome c = Ok a -> filter P (trace (k a)) = []) ->
  filter P (trace (bind c k)) = [].
Proof.
  intros Hc Hk. rewrite trace_bind, filter_app, Hc.
  destruct (outcome c) as [a | e]; [apply Hk; reflexivity | reflexivity].
Qed.

Lemma quiet_emit_log level : filter P (trace (emit (Log level))) = [].
Proof. cbn. rewrite P_log. reflexivity. Qed.

Ltac quiet :=
  repeat first
    [ reflexivity
    | apply quiet_emit_log
    | apply quiet_bind; [| intros ? _]
    | match goal with
      | |- context [if ?b then _ else _] => destruct b
      end ].

Lemma drop_null_products_quiet df :
  filter P (trace (drop_null_products df)) = [].
Proof. unfold drop_null_products. quiet. Qed.

Lemma drop_null_sales_quiet df : filter P (trace (drop_null_sales df)) = [].
Proof. unfold drop_null_sales. quiet. Qed.

Lemma deduplicate_products_quiet W df :
  filter P (trace (deduplicate_products W df)) = [].
Proof. unfold deduplicate_products. quiet. Qed.

Lemma apply_business_filters_quiet config df :
  filter P (trace (apply_business_filters config df)) = [].
Proof. unfold apply_business_filters. quiet. Qed.

Lemma merged_table_quiet W config products_df sales_df :
  filter P (trace (merged_table W config products_df sales_df)) = [].
Proof.
  unfold merged_table.
  destruct (empty sales_df); [quiet |].
  apply quiet_bind; [reflexivity | intros filtered _].
  destruct (empty filtered); [quiet |].
  apply quiet_bind; [apply drop_null_sales_quiet | intros sales _].
  apply quiet_bind; [apply deduplicate_products_quiet | intros products _].
  apply quiet_bind; [reflexivity | intros merged_df _].
  apply apply_business_filters_quiet.
Qed.

Hypothesis P_fetch : forall ev, is_fetch ev = true -> P ev = false.

Lemma debug_list_quiet W bucket d n :
  filter P (trace (_debug_list_nearby_sales_files W bucket d n)) = [].
Proof.
  rewrite debug_list_run.
  assert (Hl : filter P [Log INFO; ListBlobs "sales_"] = []).
  { cbn. rewrite P_log, (P_fetch (ListBlobs "sales_")) by reflexivity.
    reflexivity. }
  assert (Hrep : forall k, filter P (repeat (Log INFO) k) = []).
  { induction k as [| k IH]; [reflexivity |].
    cbn. rewrite P_log. exact IH. }
  destruct (list_blobs W bucket "sales_") as [[| x names] | |];
    cbn [trace fst].
  - change [Log INFO; ListBlobs "sales_"; Log INFO]
      with ([Log INFO; ListBlobs "sales_"] ++ [Log INFO]).
    rewrite filter_app, Hl. cbn. rewrite P_log. reflexivity.
  - change [Log INFO; ListBlobs "sales_"; Log INFO]
      with ([Log INFO; ListBlobs "sales_"] ++ [Log INFO]).
    rewrite !filter_app, Hl, Hrep. cbn. rewrite P_log. reflexivity.
  - change [Log INFO; ListBlobs "sales_"; Log WARNING]
      with ([Log INFO; ListBlobs "sales_"] ++ [Log WARNING]).
    rewrite filter_app, Hl. cbn. rewrite P_log. reflexivity.
  - exact Hl.
Qed.

Lemma fetch_days_quiet W bucket start_date days :
  forall frames,
    filter P (trace (fetch_days W bucket start_date days frames)) = [].
Proof.
  induction days as [| i rest IH]; intros frames; [reflexivity |].
  cbn [fetch_days].
  apply quiet_bind; [reflexivity | intros d _].
  apply quiet_bind; [apply quiet_emit_log | intros _ _].
  apply quiet_bind.
  { cbn. rewrite P_fetch by reflexivity. reflexivity. }
  intros _ _.
  destruct (download_as_bytes W bucket (blob_name_of d)) as [content | | |].
  - destruct (read_parquet W content); [apply IH |].
    apply quiet_bind; [apply quiet_emit_log | reflexivity].
  - apply quiet_bind; [apply quiet_emit_log | intros _ _].
    apply quiet_bind; [apply debug_list_quiet | intros _ _]. apply IH.
  - apply quiet_bind; [apply quiet_emit_log | reflexivity].
  - apply quiet_bind; [apply quiet_emit_log | reflexivity].
Qed.

Lemma load_sales_parquet_quiet W project bucket start_date end_date bound :
  filter P (trace (load_sales_parquet W project bucket start_date end_date
                     bound)) = [].
Proof.
  unfold load_sales_parquet.
  destruct (date_ltb end_date start_date); [reflexivity |].
  destruct (match bound with
            | Some b => b <? days_between start_date end_date + 1
            | None => false
            end).
  { apply quiet_bind; [apply quiet_emit_log | reflexivity]. }
  apply quiet_bind; [apply quiet_emit_log | intros _ _].
  apply quiet_bind.
  { cbn. rewrite P_fetch by reflexivity. reflexivity. }
  intros _ _.
  apply quiet_bind.
  { cbn. rewrite P_fetch by reflexivity. reflexivity. }
  intros _ _.
  apply quiet_bind; [apply fetch_days_quiet | intros frames _].
  destruct frames;
    (apply quiet_bind; [apply quiet_emit_log | reflexivity]).
Qed.

End Quiet.

(** [load_products], by the answer to its query. *)
Lemma load_products_run W project dataset table :
  let name := (project ++ "." ++ dataset ++ "." ++ table)%string in
  load_products W project dataset table =
  match bq_query W name with
  | QueryFrame df =>
      if forallb (fun c => has_column c df) required_cols
      then ([Log INFO; BigQueryQuery name; Log INFO], Ok df)
      else ([Log INFO; BigQueryQuery name; Log ERROR], Raise DataQualityError)
  | _ => ([Log INFO; BigQueryQuery name; Log ERROR], Raise DataLoadError)
  end.
Proof.
  cbv zeta. unfold load_products.
  destruct (bq_query W (project ++ "." ++ dataset ++ "." ++ table)%string)
    as [df | |]; try reflexivity.
  destruct (forallb (fun c => has_column c df) required_cols) eqn:E.
  - replace (filter (fun c => negb (has_column c df)) required_cols)
      with (@nil string); [reflexivity |].
    symmetry. apply filter_nil_iff. intros c Hc.
    rewrite forallb_forall in E. rewrite (E c Hc). reflexivity.
  - destruct (filter (fun c => negb (has_column c df)) required_cols)
      as [| c0 missing] eqn:Ef; [| reflexivity].
    exfalso. rewrite (proj2 (forallb_forall _ _)) in E; [discriminate |].
    intros c Hc. pose proof (proj1 (filter_nil_iff _ _) Ef c Hc) as H.
    cbv beta in H. apply negb_false_iff in H. exact H.
Qed.

(** [run_pipeline] up to the table, step by step. *)
Lemma final_table_run W config :
  let A := load_products W (project_id config) (bq_dataset config)
             (bq_table config) in
  final_table W config =
  match outcome A with
  | Raise e => (Log INFO :: trace A, Raise e)
  | Ok raw =>
      let B := drop_null_products raw in
      match outcome B with
      | Raise e => (Log INFO :: trace A ++ trace B, Raise e)
      | Ok products_df =>
          match _compute_date_range (ref_date config) (granularity config)
          with
          | Raise e => (Log INFO :: trace A ++ trace B, Raise e)
          | Ok dates =>
              let C := load_sales_parquet W (project_id config)
                         (gcs_bucket config) (fst dates) (snd dates)
                         (Some (max_sales_files config)) in
              match outcome C with
              | Raise e =>
                  (Log INFO :: trace A ++ trace B ++ Log INFO :: trace C,
                   Raise e)
              | Ok sales_df =>
                  let D := merged_table W config products_df sales_df in
                  (Log INFO :: trace A ++ trace B ++ Log INFO :: trace C
                   ++ trace D,
                   match outcome D with
                   | Ok merged_df =>
                       Ok (_enrich_with_date_and_metadata W merged_df)
                   | Raise e => Raise e
                   end)
              end
          end
      end
  end.
Proof.
  cbv zeta. unfold final_table.
  cbn [bind emit lift ret app fst snd outcome trace].
  destruct (load_products W (project_id config) (bq_dataset config)
              (bq_table config)) as [tA [raw | e]];
    cbn [bind emit lift ret app fst snd outcome trace]; [| reflexivity].
  destruct (drop_null_products raw) as [tB [products_df | e]];
    cbn [bind emit lift ret app fst snd outcome trace]; [| reflexivity].
  destruct (_compute_date_range (ref_date config) (granularity config))
    as [dates | e];
    cbn [bind emit lift ret app fst snd outcome trace];
    [| rewrite !app_nil_r; reflexivity].
  destruct (load_sales_parquet W (project_id config) (gcs_bucket config)
              (fst dates) (snd dates) (Some (max_sales_files config)))
    as [tC [sales_df | e]];
    cbn [bind emit lift ret app fst snd outcome trace]; [| reflexivity].
  destruct (merged_table W config products_df sales_df)
    as [tD [merged_df | e]];
    cbn [bind emit lift ret app fst snd outcome trace];
    rewrite ?app_nil_r; reflexivity.
Qed.

(** The export follows the table. *)
Lemma run_pipeline_run W config :
  run_pipeline W config =
  match outcome (final_table W config) with
  | Raise e => (trace (final_table W config), Raise e)
  | Ok _ =>
      (trace (final_table W config) ++ export_events config,
       if supported_format config then Ok (_build_output_path config)
       else Raise ValueError)
  end.
Proof.
  unfold run_pipeline, export_events, supported_format.
  generalize (final_table W config).
  intros [t [final | e]]; [| reflexivity].
  cbn [outcome trace fst snd].
  destruct (String.eqb (output_format config) "parquet");
    [reflexivity |].
  destruct (String.eqb (output_format config) "csv"); reflexivity.
Qed.

Lemma final_table_no_output W config :
  filter is_output (trace (final_table W config)) = [].
Proof.
  assert (Hlog : forall level, is_output (Log level) = false)
    by reflexivity.
  assert (Hfetch : forall ev, is_fetch ev = true -> is_output ev = false)
    by (intros [] H; try reflexivity; discriminate).
  unfold final_table.
  apply quiet_bind; [reflexivity | intros _ _].
  apply quiet_bind.
  { rewrite load_products_run.
    destruct (bq_query W _) as [df | |]; try reflexivity.
    destruct (forallb _ _); reflexivity. }
  intros raw _.
  apply quiet_bind; [apply drop_null_products_quiet; exact Hlog |].
  intros products_df _.
  apply quiet_bind; [reflexivity | intros dates _].
  apply quiet_bind; [reflexivity | intros _ _].
  apply quiet_bind;
    [apply load_sales_parquet_quiet; assumption | intros sales_df _].
  apply quiet_bind; [apply merged_table_quiet; exact Hlog | reflexivity].
Qed.








Lemma fetch_days_error W bucket start_date days frames e :
  snd (fetch_days W bucket start_date days frames) = Raise e ->
  e = DataLoadError \/ e = OverflowError \/ e = Exception.
Proof.
  intros H.
  pose proof (fetch_days_run W bucket start_date days frames) as R.
  cbv zeta in R. destruct R as (_ & _ & Herr).
  destruct (Herr e H) as [[-> _] | [[-> _] | [-> _]]]; auto.
Qed.

Lemma run_pipeline_failed_no_output W config e :
  outcome (run_pipeline W config) = Raise e ->
  e <> ValueError ->
  filter is_output (trace (run_pipeline W config)) = [].
Proof.
  rewrite run_pipeline_run.
  pose proof (final_table_no_output W config) as Hwork.
  destruct (outcome (final_table W config)) as [final | e'];
    cbn [outcome trace fst snd]; [| intros _ _; exact Hwork].
  destruct (supported_format config); [discriminate |].
  intros H Hne. injection H as <-. contradiction.
Qed.

Lemma final_table_too_many_files W config :
  valid_date (ref_date config) ->
  outcome (final_table W config) = Raise TooManyFilesError ->
  catalog_ok W config = true
  /\ max_sales_files config < period_days config
  /\ filter is_fetch (trace (final_table W config)) = [].
Proof.
  intros Hv. rewrite final_table_run. cbv zeta.
  rewrite load_products_run. unfold catalog_ok.
  fold (table_full_name config).
  destruct (bq_query W (table_full_name config)) as [raw | |];
    [| discriminate | discriminate].
  destruct (forallb (fun c => has_column c raw) required_cols);
    [| discriminate].
  unfold outcome, trace. cbn [fst snd].
  destruct (snd (drop_null_products raw)) as [products_df | e] eqn:EB.
  2:{ cbn [fst snd]. intros H. injection H as ->.
      apply (drop_null_products_error raw) in EB. discriminate. }
  rewrite compute_date_range_characterised by exact Hv.
  destruct (ends_with_MAXYEAR (ref_date config) (granularity config));
    [discriminate |].
  destruct (load_sales_parquet_guards W (project_id config)
              (gcs_bucket config)
              (fst (specified_range (ref_date config) (granularity config)))
              (snd (specified_range (ref_date config) (granularity config)))
              (Some (max_sales_files config)))
    as [[_ HC] | [(Hwf & (b & Hb & Hlt) & HC) | [Hwf Hg]]].
  - rewrite HC. discriminate.
  - rewrite HC. cbn [fst snd]. intros _.
    split; [reflexivity |]. split; [injection Hb as <-; exact Hlt |].
    assert (HB : filter is_fetch (fst (drop_null_products raw)) = [])
      by exact (drop_null_products_quiet is_fetch (fun _ => eq_refl) raw).
    cbn [app filter is_fetch]. rewrite filter_app, HB. reflexivity.
  - rewrite (load_sales_parquet_past_guards W (project_id config)
               (gcs_bucket config) _ _ (Some (max_sales_files config))
               Hwf Hg).
    cbv zeta. cbn [fst snd].
    destruct (snd (fetch_days W (gcs_bucket config)
                     (fst (specified_range (ref_date config)
                             (granularity config)))
                     (range (days_between
                               (fst (specified_range (ref_date config)
                                       (granularity config)))
                               (snd (specified_range (ref_date config)
                                       (granularity config))) + 1)) []))
      as [frames | e] eqn:EF.
    + assert (Hno : forall s,
                 snd (merged_table W config products_df s)
                 <> Raise TooManyFilesError).
      { intros s H. apply merged_table_error in H. destruct H as [H _].
        discriminate. }
      destruct frames as [| f fs]; cbn [fst snd];
        match goal with
        | |- context [snd (merged_table W config products_df ?s)] =>
            specialize (Hno s);
            destruct (snd (merged_table W config products_df s))
        end; try discriminate;
        intros H; injection H as ->; contradiction.
    + cbn [fst snd]. intros H. injection H as ->.
      apply fetch_days_error in EF.
      destruct EF as [EF | [EF | EF]]; discriminate.
Qed.

(** A run that stops with TooManyFilesError has loaded the catalog and
    counted more days in the reference period than [max_sales_files]; it
    has not reached the bucket, and has created and written nothing. *)
Theorem run_pipeline_too_many_files W config :
  valid_date (ref_date config) ->
  outcome (run_pipeline W config) = Raise TooManyFilesError ->
  catalog_ok W config = true
  /\ max_sales_files config < period_days config
  /\ filter is_fetch (trace (run_pipeline W config)) = []
  /\ filter is_output (trace (run_pipeline W config)) = [].
Proof.
  intros Hv Hrun.
  assert (Hout : filter is_output (trace (run_pipeline W config)) = []).
  { apply (run_pipeline_failed_no_output W config TooManyFilesError);
      [exact Hrun | discriminate]. }
  revert Hrun. rewrite run_pipeline_run in *.
  destruct (outcome (final_table W config)) as [final | e] eqn:Efinal;
    cbn [outcome trace fst snd] in *.
  { destruct (supported_format config); discriminate. }
  intros H. injection H as ->.
  destruct (final_table_too_many_files W config Hv Efinal)
    as (Hcat & Hlt & Hfetch).
  auto.
Qed.

Lemma run_pipeline_too_many_files_witness :
  let config := mkconfig "dummy-project" (mkdate 2025 1 10) YEAR
                  "bm_mock_data" "products" "bm_mock_sales" None None
                  "data/export" "parquet" 300 in
  catalog_ok january_world config = true
  /\ max_sales_files config < period_days config
  /\ filter is_fetch (trace (run_pipeline january_world config)) = []
  /\ filter is_output (trace (run_pipeline january_world config)) = [].
Proof.
  cbv zeta.
  apply (run_pipeline_too_many_files january_world
           (mkconfig "dummy-project" (mkdate 2025 1 10) YEAR
              "bm_mock_data" "products" "bm_mock_sales" None None
              "data/export" "parquet" 300)).
  - reflexivity.
  - vm_compute. reflexivity.
Defined.






